(** * DCRNN (torchts.nn.models.dcrnn): a shallow embedding and its properties

    The development follows [src/torchts/nn/models/dcrnn.py]:
    - Python values, exceptions and keyword dictionaries;
    - the few tensor operations the module relies on (zeros, type_as,
      indexing along the first dimension, stack, view);
    - [Seq2SeqAttrs], [Encoder], [Decoder] and [DCRNN] with their methods;
    - the properties of the specification, one theorem per claim.

    Floating point numbers are read as the real numbers they stand for:
    tensor entries are finite, [inf] and [nan] are not among them, and
    rounding is left out.  The one place where the source reaches [inf] on
    finite arguments, the overflow of [np.exp] in the sampling threshold, is
    written out. *)

From stdpp Require Import base option list gmap strings.
From Stdlib Require Import ZArith QArith Reals Lra Lia.

Open Scope Z_scope.

(** ** Python exceptions and fallible computations *)

Inductive exn : Set :=
  | TypeError | ValueError | IndexError | AttributeError
  | RuntimeError | ZeroDivisionError.

Inductive result (A : Type) : Type :=
  | Ok (a : A)
  | Raise (e : exn).
Arguments Ok {A} a.
Arguments Raise {A} e.

#[global] Instance result_ret : MRet result := fun A a => Ok a.
#[global] Instance result_bind : MBind result := fun A B f m =>
  match m with
  | Ok a => f a
  | Raise e => Raise e
  end.

Definition is_Ok {A} (r : result A) : Prop :=
  match r with Ok _ => True | Raise _ => False end.

Lemma bind_Ok {A B} (m : result A) (f : A -> result B) (b : B) :
  m ≫= f = Ok b -> exists a, m = Ok a /\ f a = Ok b.
Proof. destruct m as [a|e]; simpl; [eauto | discriminate]. Qed.

(** Takes apart a hypothesis saying that a chain of binds returned. *)
Ltac inv_bind H :=
  repeat match type of H with
  | mbind _ _ = Ok _ =>
      let a := fresh "a" in
      let Ha := fresh "Ha" in
      apply bind_Ok in H; destruct H as (a & Ha & H)
  | (let '(_, _) := ?p in _) = Ok _ => destruct p
  end.

(** ** Python values that occur as keyword options *)

Inductive pyval : Type :=
  | VNone
  | VBool (b : bool)
  | VInt (n : Z)
  | VFloat (q : Q)
  | VStr (s : string).

(** ** Tensors

    A tensor carries its numeric type, its shape and its entries in
    row-major order.  Entries are finite floats, read as real numbers; a
    cast keeps them. *)

Inductive dtype : Set := Float16 | Float32 | Float64.

Definition dtype_rank (d : dtype) : nat :=
  match d with Float16 => 0 | Float32 => 1 | Float64 => 2 end%nat.

(** [torch.promote_types] on the floating types. *)
Definition promote_types (a b : dtype) : dtype :=
  if (dtype_rank a <? dtype_rank b)%nat then b else a.

#[global] Instance dtype_eq_dec : EqDecision dtype.
Proof. solve_decision. Defined.

Record Tensor : Type := mkTensor {
  t_dtype : dtype;
  t_shape : list nat;
  t_data : list R
}.

Definition numel (shape : list nat) : nat := foldr Nat.mul 1%nat shape.

(** A tensor is well formed when it has as many entries as its shape says. *)
Definition wf_tensor (t : Tensor) : Prop :=
  length (t_data t) = numel (t_shape t).

(** [torch.zeros(shape)]: the default numeric type is float32; a negative
    dimension is refused. *)
Definition torch_zeros (shape : list Z) : result Tensor :=
  if forallb (fun d => 0 <=? d) shape then
    let sh := map Z.to_nat shape in
    Ok (mkTensor Float32 sh (replicate (numel sh) 0%R))
  else Raise RuntimeError.

(** [t.type_as(other)] *)
Definition type_as (t other : Tensor) : Tensor :=
  mkTensor (t_dtype other) (t_shape t) (t_data t).

(** [t[i]] for a non-negative Python int [i] *)
Definition tensor_index (t : Tensor) (i : nat) : result Tensor :=
  match t_shape t with
  | [] => Raise IndexError
  | d :: rest =>
      if (i <? d)%nat then
        Ok (mkTensor (t_dtype t) rest
              (take (numel rest) (drop (i * numel rest) (t_data t))))
      else Raise IndexError
  end.

#[global] Instance shape_eq_dec : EqDecision (list nat).
Proof. solve_decision. Defined.

(** [torch.stack(ts)]: the list must not be empty and all tensors must have
    the shape of the first; numeric types are promoted. *)
Definition torch_stack (ts : list Tensor) : result Tensor :=
  match ts with
  | [] => Raise RuntimeError
  | t0 :: _ =>
      if forallb (fun t => bool_decide (t_shape t = t_shape t0)) ts then
        Ok (mkTensor (foldr (fun t d => promote_types (t_dtype t) d) (t_dtype t0) ts)
              (length ts :: t_shape t0)
              (concat (map t_data ts)))
      else Raise RuntimeError
  end.

(** [t.size()] unpacked into two names, as in [batch_size, _ = inputs.size()] *)
Definition size2 (t : Tensor) : result (nat * nat) :=
  match t_shape t with
  | [a; b] => Ok (a, b)
  | _ => Raise ValueError
  end.

(** [t.size(1)] *)
Definition size_1 (t : Tensor) : result nat :=
  match t_shape t with
  | _ :: b :: _ => Ok b
  | _ => Raise IndexError
  end.

(** [t.view(-1, k)] on a contiguous tensor *)
Definition view_m1 (t : Tensor) (k : Z) : result Tensor :=
  if k <=? 0 then Raise RuntimeError
  else
    let n := numel (t_shape t) in
    if (n mod Z.to_nat k =? 0)%nat then
      Ok (mkTensor (t_dtype t) [(n / Z.to_nat k)%nat; Z.to_nat k] (t_data t))
    else Raise RuntimeError.

Section Model.

(** Python's parser of integer literals, used by [int(str)]. *)
Variable int_of_string : string -> option Z.

(** [int(v)] *)
Definition py_int (v : pyval) : result Z :=
  match v with
  | VNone => Raise TypeError
  | VBool b => Ok (if b then 1 else 0)
  | VInt n => Ok n
  | VFloat q => Ok (Z.quot (Qnum q) (Z.pos (Qden q)))
  | VStr s => match int_of_string s with
              | Some n => Ok n
              | None => Raise ValueError
              end
  end.

(** [bool(v)] *)
Definition py_bool (v : pyval) : bool :=
  match v with
  | VNone => false
  | VBool b => b
  | VInt n => negb (n =? 0)
  | VFloat q => negb (Qnum q =? 0)
  | VStr s => negb (String.eqb s "")
  end.

(** [model_kwargs.get(key, default)] *)
Definition kwargs_get (model_kwargs : gmap string pyval) (key : string)
    (default : pyval) : pyval :=
  match model_kwargs !! key with
  | Some v => v
  | None => default
  end.

(** ** Seq2SeqAttrs *)

(** The adjacency matrix of the sensor graph, row by row. *)
Definition AdjMx : Type := list (list R).

Record Seq2SeqAttrs : Type := mkSeq2SeqAttrs {
  adj_mx : AdjMx;
  max_diffusion_step : Z;
  cl_decay_steps : Z;
  filter_type : pyval;
  num_nodes : Z;
  num_rnn_layers : Z;
  rnn_units : Z;
  use_gc_for_ru : bool;
  hidden_state_size : Z
}.

Definition Seq2SeqAttrs__init__ (adj : AdjMx) (model_kwargs : gmap string pyval)
    : result Seq2SeqAttrs :=
  max_diffusion_step ← py_int (kwargs_get model_kwargs "max_diffusion_step" (VInt 2));
  cl_decay_steps ← py_int (kwargs_get model_kwargs "cl_decay_steps" (VInt 1000));
  let filter_type := kwargs_get model_kwargs "filter_type" (VStr "laplacian") in
  num_nodes ← py_int (kwargs_get model_kwargs "num_nodes" (VInt 1));
  num_rnn_layers ← py_int (kwargs_get model_kwargs "num_rnn_layers" (VInt 1));
  rnn_units ← py_int (kwargs_get model_kwargs "rnn_units" VNone);
  let use_gc_for_ru := py_bool (kwargs_get model_kwargs "use_gc_for_ru" (VBool true)) in
  Ok (mkSeq2SeqAttrs adj max_diffusion_step cl_decay_steps filter_type num_nodes
        num_rnn_layers rnn_units use_gc_for_ru (num_nodes * rnn_units)).

(** ** Collaborators: the recurrent cell, the linear layer, the scaler

    [DCGRU] lives in [torchts.nn.graph] and [nn.Linear] in torch; both are
    consumed as black boxes: a forward function and the parameters they own.
    Of a parameter only its gradient buffer is observed here. *)

Record Param : Type := mkParam { p_grad : option Tensor }.

Record DCGRU : Type := mkDCGRU {
  dcgru_call : Tensor -> Tensor -> result Tensor;
  dcgru_parameters : list Param
}.

Record Linear : Type := mkLinear {
  linear_call : Tensor -> result Tensor;
  linear_parameters : list Param
}.

Record Scaler : Type := mkScaler {
  inverse_transform : Tensor -> result Tensor
}.

(** [DCGRU(num_units, adj_mx, max_diffusion_step, num_nodes, input_dim,
           filter_type=..., use_gc_for_ru=...)] *)
Variable DCGRU__init__ : Z -> AdjMx -> Z -> Z -> Z -> pyval -> bool -> result DCGRU.

(** [nn.Linear(in_features, out_features)] *)
Variable nn_Linear : Z -> Z -> result Linear.

(** [range(n)] *)
Definition range (n : Z) : list nat := seq 0 (Z.to_nat n).

(** The loop over [enumerate(self.dcgru_layers)], which [Encoder.forward] and
    [Decoder.forward] share word for word: [layer_num] counts the layers
    already run, [output] is the current layer input and [hidden_states] the
    list built so far. *)
Fixpoint dcgru_loop (layers : list DCGRU) (hidden_state : option Tensor)
    (layer_num : nat) (output : Tensor) (hidden_states : list Tensor)
    : result (Tensor * list Tensor) :=
  match layers with
  | [] => Ok (output, hidden_states)
  | dcgru_layer :: rest =>
      h ← match hidden_state with
          | None => Raise TypeError
          | Some hs => tensor_index hs layer_num
          end;
      next_hidden_state ← dcgru_call dcgru_layer output h;
      dcgru_loop rest hidden_state (S layer_num) next_hidden_state
        (hidden_states ++ [next_hidden_state])
  end.

(** ** Encoder *)

Record Encoder : Type := mkEncoder {
  enc_attrs : Seq2SeqAttrs;
  input_dim : Z;
  seq_len : Z;
  enc_dcgru_layers : list DCGRU
}.

Definition Encoder__init__ (adj : AdjMx) (model_kwargs : gmap string pyval)
    : result Encoder :=
  a ← Seq2SeqAttrs__init__ adj model_kwargs;
  input_dim ← py_int (kwargs_get model_kwargs "input_dim" (VInt 1));
  seq_len ← py_int (kwargs_get model_kwargs "seq_len" VNone);
  layers ← mapM (fun i : nat =>
              DCGRU__init__ (rnn_units a) adj (max_diffusion_step a) (num_nodes a)
                (if (i =? 0)%nat then input_dim else rnn_units a)
                (filter_type a) (use_gc_for_ru a))
            (range (num_rnn_layers a));
  Ok (mkEncoder a input_dim seq_len layers).

Definition Encoder_forward (self : Encoder) (inputs : Tensor)
    (hidden_state : option Tensor) : result (Tensor * Tensor) :=
  '(batch_size, _) ← size2 inputs;
  hidden_state ←
    match hidden_state with
    | None =>
        z ← torch_zeros [num_rnn_layers (enc_attrs self); Z.of_nat batch_size;
                          hidden_state_size (enc_attrs self)];
        Ok (type_as z inputs)
    | Some h => Ok h
    end;
  '(output, hidden_states) ←
    dcgru_loop (enc_dcgru_layers self) (Some hidden_state) 0 inputs [];
  stacked ← torch_stack hidden_states;
  Ok (output, stacked).

(** ** Decoder *)

Record Decoder : Type := mkDecoder {
  dec_attrs : Seq2SeqAttrs;
  output_dim : Z;
  horizon : Z;
  projection_layer : Linear;
  dec_dcgru_layers : list DCGRU
}.

Definition Decoder__init__ (adj : AdjMx) (model_kwargs : gmap string pyval)
    : result Decoder :=
  a ← Seq2SeqAttrs__init__ adj model_kwargs;
  output_dim ← py_int (kwargs_get model_kwargs "output_dim" (VInt 1));
  horizon ← py_int (kwargs_get model_kwargs "horizon" (VInt 1));
  projection_layer ← nn_Linear (rnn_units a) output_dim;
  layers ← mapM (fun i : nat =>
              DCGRU__init__ (rnn_units a) adj (max_diffusion_step a) (num_nodes a)
                (if (i =? 0)%nat then output_dim else rnn_units a)
                (filter_type a) (use_gc_for_ru a))
            (range (num_rnn_layers a));
  Ok (mkDecoder a output_dim horizon projection_layer layers).

Definition Decoder_forward (self : Decoder) (inputs : Tensor)
    (hidden_state : option Tensor) : result (Tensor * Tensor) :=
  '(output, hidden_states) ←
    dcgru_loop (dec_dcgru_layers self) hidden_state 0 inputs [];
  flat ← view_m1 output (rnn_units (dec_attrs self));
  projected ← linear_call (projection_layer self) flat;
  output ← view_m1 projected (num_nodes (dec_attrs self) * output_dim self);
  stacked ← torch_stack hidden_states;
  Ok (output, stacked).

(** ** The loss and gradient clipping used by training_step *)

Definition unmasked (t : R) : bool := if Req_dec_T t 0 then false else true.

Definition Rsum (l : list R) : R := foldr Rplus 0%R l.

(** Modelled from the spec: [masked_mae_loss] of [torchts.nn.loss], which is
    not among the sources.  The absolute error is summed over the positions
    whose true value is not zero, masked positions adding nothing, and the
    sum is divided by the number of unmasked positions; when every position
    is masked the result is 0. *)
Definition masked_mae (y_true y_pred : list R) : R :=
  let positions := combine y_true y_pred in
  let count := length (filter (fun tp => unmasked (fst tp) = true) positions) in
  if (count =? 0)%nat then 0%R
  else (Rsum (map (fun tp => if unmasked (fst tp)
                             then Rabs (fst tp - snd tp) else 0) positions)
        / INR count)%R.

Definition masked_mae_loss (y_true y_pred : Tensor) : R :=
  masked_mae (t_data y_true) (t_data y_pred).

(** The mean absolute error of a list of (true, predicted) pairs. *)
Definition mean_absolute_error (positions : list (R * R)) : R :=
  (Rsum (map (fun tp => Rabs (fst tp - snd tp)) positions)
   / INR (length positions))%R.

(** [torch.nn.utils.clip_grad_norm_(parameters, max_norm)] with the 2-norm:
    the norm of the norms of the gradients that are present, and every such
    gradient multiplied in place by [min(1, max_norm / (total_norm + 1e-6))].
    Parameters without a gradient are passed over. *)
Definition sum_sq (l : list R) : R := foldr (fun x acc => x * x + acc)%R 0%R l.

Definition grad_norm (g : Tensor) : R := sqrt (sum_sq (t_data g)).

Definition total_norm (ps : list Param) : R :=
  sqrt (sum_sq (map grad_norm (omap p_grad ps))).

Definition clip_coef (max_norm tn : R) : R :=
  Rmin 1 (max_norm / (tn + / 1000000)).

Definition mul_ (k : R) (g : Tensor) : Tensor :=
  mkTensor (t_dtype g) (t_shape g) (map (Rmult k) (t_data g)).

Definition scale_grad (k : R) (p : Param) : Param :=
  mkParam (option_map (mul_ k) (p_grad p)).

(** ** DCRNN *)

Record DCRNN : Type := mkDCRNN {
  attrs : Seq2SeqAttrs;
  scaler : Scaler;
  encoder_model : Encoder;
  decoder_model : Decoder;
  use_curriculum_learning : bool;
  training : bool
}.

Definition set_cl_decay_steps (a : Seq2SeqAttrs) (v : Z) : Seq2SeqAttrs :=
  mkSeq2SeqAttrs (adj_mx a) (max_diffusion_step a) v (filter_type a)
    (num_nodes a) (num_rnn_layers a) (rnn_units a) (use_gc_for_ru a)
    (hidden_state_size a).

(** A freshly built module is in training mode. *)
Definition DCRNN__init__ (adj : AdjMx) (sc : Scaler)
    (model_kwargs : gmap string pyval) : result DCRNN :=
  a ← Seq2SeqAttrs__init__ adj model_kwargs;
  enc ← Encoder__init__ adj model_kwargs;
  dec ← Decoder__init__ adj model_kwargs;
  cl ← py_int (kwargs_get model_kwargs "cl_decay_steps" (VInt 1000));
  let ucl := py_bool (kwargs_get model_kwargs "use_curriculum_learning" (VBool false)) in
  Ok (mkDCRNN (set_cl_decay_steps a cl) sc enc dec ucl true).

(** The largest argument at which [np.exp] is finite in float64, the
    logarithm of the largest float64 (709.782712893384 to the last digit): on
    a larger argument [np.exp] returns [inf]. *)
Definition np_exp_max_arg : R := (709782712893384 / 1000000000000)%R.

(** [batches_seen] is [None] or a Python number ([training_step] passes
    [batch_idx], an int); dividing it by a [cl_decay_steps] of zero raises.
    Where [np.exp] overflows, the sum is [inf] and the quotient is 0.0;
    otherwise the float64 result is read as the real number it rounds. *)
Definition DCRNN__compute_sampling_threshold (self : DCRNN)
    (batches_seen : option R) : result R :=
  match batches_seen with
  | None => Raise TypeError
  | Some b =>
      let c := cl_decay_steps (attrs self) in
      if c =? 0 then Raise ZeroDivisionError
      else if Rlt_dec np_exp_max_arg (b / IZR c) then Ok 0%R
      else Ok (IZR c / (IZR c + exp (b / IZR c)))%R
  end.

Fixpoint encoder_loop (self : DCRNN) (inputs : Tensor) (ts : list nat)
    (encoder_hidden_state : option Tensor) : result (option Tensor) :=
  match ts with
  | [] => Ok encoder_hidden_state
  | t :: rest =>
      x ← tensor_index inputs t;
      '(_, h) ← Encoder_forward (encoder_model self) x encoder_hidden_state;
      encoder_loop self inputs rest (Some h)
  end.

Definition DCRNN_encoder (self : DCRNN) (inputs : Tensor)
    : result (option Tensor) :=
  encoder_loop self inputs (range (seq_len (encoder_model self))) None.

(** The reading of the specification: the Encoder run over a sequence of
    time steps in order, each per-step output dropped and only the hidden
    state carried on. *)
Fixpoint encoder_steps (enc : Encoder) (xs : list Tensor)
    (hidden_state : option Tensor) : result (option Tensor) :=
  match xs with
  | [] => Ok hidden_state
  | x :: rest =>
      '(_, h) ← Encoder_forward enc x hidden_state;
      encoder_steps enc rest (Some h)
  end.

(** The state of numpy's global generator: the values that the coming calls
    of [np.random.uniform(0, 1)] return. *)
Definition RandomState : Type := nat -> R.

Definition np_random_uniform (rs : RandomState) : R * RandomState :=
  (rs 0%nat, fun n => rs (S n)).

(** The variables of the decoding loop. *)
Record decoder_vars : Type := mkVars {
  decoder_input : Tensor;
  decoder_hidden_state : Tensor;
  outputs : list Tensor
}.

(** One pass through the body of the loop of [DCRNN.decoder], at index [t]. *)
Definition decoder_body (self : DCRNN) (labels : option Tensor)
    (batches_seen : option R) (t : nat) (v : decoder_vars) (rs : RandomState)
    : result (decoder_vars * RandomState) :=
  '(decoder_output, hidden) ←
    Decoder_forward (decoder_model self) (decoder_input v)
      (Some (decoder_hidden_state v));
  let v1 := mkVars decoder_output hidden (outputs v ++ [decoder_output]) in
  if training self && use_curriculum_learning self then
    let (c, rs1) := np_random_uniform rs in
    threshold ← DCRNN__compute_sampling_threshold self batches_seen;
    if Rlt_dec c threshold then
      label ← match labels with
              | None => Raise TypeError
              | Some l => tensor_index l t
              end;
      Ok (mkVars label hidden (outputs v1), rs1)
    else Ok (v1, rs1)
  else Ok (v1, rs).

Fixpoint decoder_loop (self : DCRNN) (labels : option Tensor)
    (batches_seen : option R) (ts : list nat) (v : decoder_vars)
    (rs : RandomState) : result (decoder_vars * RandomState) :=
  match ts with
  | [] => Ok (v, rs)
  | t :: rest =>
      '(v1, rs1) ← decoder_body self labels batches_seen t v rs;
      decoder_loop self labels batches_seen rest v1 rs1
  end.

(** The variables on entry to the loop. *)
Definition decoder_entry (self : DCRNN) (encoder_hidden_state : option Tensor)
    : result decoder_vars :=
  match encoder_hidden_state with
  | None => Raise AttributeError
  | Some h =>
      batch_size ← size_1 h;
      go_symbol ← torch_zeros [Z.of_nat batch_size;
                     num_nodes (attrs self) * output_dim (decoder_model self)];
      Ok (mkVars (type_as go_symbol h) h [])
  end.

Definition DCRNN_decoder (self : DCRNN) (encoder_hidden_state : option Tensor)
    (labels : option Tensor) (batches_seen : option R) (rs : RandomState)
    : result (Tensor * RandomState) :=
  v0 ← decoder_entry self encoder_hidden_state;
  '(v, rs1) ← decoder_loop self labels batches_seen
                (range (horizon (decoder_model self))) v0 rs;
  out ← torch_stack (outputs v);
  Ok (out, rs1).

(** The loop variables of [DCRNN.decoder] at the head of iteration [n], that
    is after the passes for [t = 0 .. n-1]. *)
Definition decoder_vars_at (self : DCRNN) (encoder_hidden_state : option Tensor)
    (labels : option Tensor) (batches_seen : option R) (rs : RandomState)
    (n : nat) : result (decoder_vars * RandomState) :=
  v0 ← decoder_entry self encoder_hidden_state;
  decoder_loop self labels batches_seen (seq 0 n) v0 rs.

Definition DCRNN_forward (self : DCRNN) (inputs : Tensor)
    (labels : option Tensor) (batches_seen : option R) (rs : RandomState)
    : result (Tensor * RandomState) :=
  encoder_hidden_state ← DCRNN_encoder self inputs;
  DCRNN_decoder self encoder_hidden_state labels batches_seen rs.

(** *** training_step *)

(** Tensor operations of torch that [training_step] applies to the raw batch;
    whether a view succeeds depends on strides, which tensors do not carry
    here, so they are taken as they are:
    [t.permute(1, 0, 2, 3)], [t.view(a, b, c)] and [t[..., :k]]. *)
Variable permute_1_0_2_3 : Tensor -> result Tensor.
Variable view3 : Tensor -> Z -> Z -> Z -> result Tensor.
Variable slice_last : Tensor -> Z -> result Tensor.

(** [self.parameters()] *)
Definition DCRNN_parameters (self : DCRNN) : list Param :=
  flat_map dcgru_parameters (enc_dcgru_layers (encoder_model self))
  ++ linear_parameters (projection_layer (decoder_model self))
  ++ flat_map dcgru_parameters (dec_dcgru_layers (decoder_model self)).

(** An update in place of every parameter of the model. *)
Definition update_dcgru (f : Param -> Param) (c : DCGRU) : DCGRU :=
  mkDCGRU (dcgru_call c) (map f (dcgru_parameters c)).

Definition update_linear (f : Param -> Param) (l : Linear) : Linear :=
  mkLinear (linear_call l) (map f (linear_parameters l)).

Definition update_parameters (f : Param -> Param) (self : DCRNN) : DCRNN :=
  let enc := encoder_model self in
  let dec := decoder_model self in
  mkDCRNN (attrs self) (scaler self)
    (mkEncoder (enc_attrs enc) (input_dim enc) (seq_len enc)
       (map (update_dcgru f) (enc_dcgru_layers enc)))
    (mkDecoder (dec_attrs dec) (output_dim dec) (horizon dec)
       (update_linear f (projection_layer dec))
       (map (update_dcgru f) (dec_dcgru_layers dec)))
    (use_curriculum_learning self) (training self).

Definition clip_grad_norm_ (self : DCRNN) (max_norm : R) : DCRNN :=
  let k := clip_coef max_norm (total_norm (DCRNN_parameters self)) in
  update_parameters (scale_grad k) self.

(** The result is the loss together with the model as the call leaves it. *)
Definition DCRNN_training_step (self : DCRNN) (batch : Tensor * Tensor)
    (batch_idx : Z) (rs : RandomState) : result (R * DCRNN * RandomState) :=
  let (x, y) := batch in
  x ← permute_1_0_2_3 x;
  y ← permute_1_0_2_3 y;
  batch_size ← size_1 x;
  x ← view3 x (seq_len (encoder_model self)) (Z.of_nat batch_size)
         (num_nodes (attrs self) * input_dim (encoder_model self));
  y ← slice_last y (output_dim (decoder_model self));
  y ← view3 y (horizon (decoder_model self)) (Z.of_nat batch_size)
         (num_nodes (attrs self) * output_dim (decoder_model self));
  '(pred, rs1) ← DCRNN_forward self x (Some y) (Some (IZR batch_idx)) rs;
  y ← inverse_transform (scaler self) y;
  pred ← inverse_transform (scaler self) pred;
  let loss := masked_mae_loss y pred in
  let self1 := clip_grad_norm_ self 5 in
  Ok (loss, self1, rs1).

(** *** configure_optimizers *)

Record OptimizerConfig : Type := mkOptimizerConfig {
  opt_lr : Q;
  opt_eps : Q;
  sched_milestones : list Z;
  sched_gamma : Q
}.

Definition DCRNN_configure_optimizers (self : DCRNN) : OptimizerConfig :=
  mkOptimizerConfig (1 # 100) (1 # 1000) [20; 30; 40; 50] (1 # 10).

(** [nn.Module.train(mode)]; [eval()] is [train(False)]. *)
Definition DCRNN_train (self : DCRNN) (mode : bool) : DCRNN :=
  mkDCRNN (attrs self) (scaler self) (encoder_model self) (decoder_model self)
    (use_curriculum_learning self) mode.

(** ** The lifetime of a model instance

    An instance of one of the three classes, and the calls that can be made
    on it.  [after_call] gives the instance as a call leaves it: no method
    assigns to an attribute, [training_step] scales gradient buffers in
    place, and [train] sets the mode.  A call that raises, or that the class
    of the instance does not have, leaves the instance as it was. *)

Inductive instance : Type :=
  | AnEncoder (e : Encoder)
  | ADecoder (d : Decoder)
  | ADCRNN (m : DCRNN).

Inductive constructed : instance -> Prop :=
  | constructed_Encoder adj kw e :
      Encoder__init__ adj kw = Ok e -> constructed (AnEncoder e)
  | constructed_Decoder adj kw d :
      Decoder__init__ adj kw = Ok d -> constructed (ADecoder d)
  | constructed_DCRNN adj sc kw m :
      DCRNN__init__ adj sc kw = Ok m -> constructed (ADCRNN m).

Inductive call : Type :=
  | call_Encoder_forward (inputs : Tensor) (hidden_state : option Tensor)
  | call_Decoder_forward (inputs : Tensor) (hidden_state : option Tensor)
  | call_encoder (inputs : Tensor)
  | call_decoder (encoder_hidden_state labels : option Tensor)
      (batches_seen : option R) (rs : RandomState)
  | call_forward (inputs : Tensor) (labels : option Tensor)
      (batches_seen : option R) (rs : RandomState)
  | call_training_step (batch : Tensor * Tensor) (batch_idx : Z)
      (rs : RandomState)
  | call_configure_optimizers
  | call_train (mode : bool).

Definition after_call (i : instance) (c : call) : instance :=
  match i, c with
  | ADCRNN m, call_training_step batch batch_idx rs =>
      match DCRNN_training_step m batch batch_idx rs with
      | Ok (_, m1, _) => ADCRNN m1
      | Raise _ => i
      end
  | ADCRNN m, call_train mode => ADCRNN (DCRNN_train m mode)
  | _, _ => i
  end.

Definition lifetime (i : instance) (calls : list call) : instance :=
  foldl after_call i calls.

(** The attribute records an instance holds: its own and, for a DCRNN, those
    of its encoder and decoder. *)
Definition attrs_of (i : instance) : list Seq2SeqAttrs :=
  match i with
  | AnEncoder e => [enc_attrs e]
  | ADecoder d => [dec_attrs d]
  | ADCRNN m => [attrs m; enc_attrs (encoder_model m); dec_attrs (decoder_model m)]
  end.

(** [torch.optim.lr_scheduler.MultiStepLR]: the learning rate of an epoch is
    the initial rate times [gamma] to the number of milestones reached. *)
Definition milestones_reached (cfg : OptimizerConfig) (epoch : Z) : nat :=
  length (filter (fun m => m <= epoch) (sched_milestones cfg)).

Definition learning_rate (cfg : OptimizerConfig) (epoch : Z) : Q :=
  (opt_lr cfg * sched_gamma cfg ^ Z.of_nat (milestones_reached cfg epoch))%Q.

(** ** TimeSeriesModel (torchts.nn.model)

    The base class of the models of the library.  [forward] is abstract: a
    subclass supplies it, together with the parameters of its layers. *)

(** [torch.broadcast_tensors], which [nn.MSELoss] applies to its arguments;
    on tensors of one shape it returns them as they are. *)
Variable broadcast_tensors : Tensor -> Tensor -> result (Tensor * Tensor).

(** [nn.MSELoss()(input, target)]: the mean of the squared differences of
    finite entries.  The mean of no entry at all is not a number and is left
    out of this reading. *)
Definition nn_MSELoss (input target : Tensor) : result R :=
  '(i, t) ← broadcast_tensors input target;
  Ok (Rsum (map (fun p => (fst p - snd p) * (fst p - snd p))%R
              (combine (t_data i) (t_data t)))
      / INR (length (t_data i)))%R.

(** [partial(optim.SGD, lr=1e-2)] and what an optimizer factory returns. *)
Record Optimizer : Type := mkOptimizer {
  optimizer_name : string;
  optimizer_params : list Param;
  optimizer_lr : Q
}.

Definition DEFAULT_LOSS : Tensor -> Tensor -> result R := nn_MSELoss.

Definition DEFAULT_OPT (params : list Param) : Optimizer :=
  mkOptimizer "SGD" params (1 # 100).

Record TimeSeriesModel : Type := mkTimeSeriesModel {
  tsm_forward : Tensor -> result Tensor;
  tsm_parameters : list Param;
  criterion : Tensor -> Tensor -> result R;
  optimizer : list Param -> Optimizer
}.

(** [__init__(self, criterion=DEFAULT_LOSS, optimizer=DEFAULT_OPT)] of a
    subclass with the given [forward] and parameters. *)
Definition TimeSeriesModel__init__ (forward : Tensor -> result Tensor)
    (parameters : list Param)
    (criterion : option (Tensor -> Tensor -> result R))
    (optimizer : option (list Param -> Optimizer)) : TimeSeriesModel :=
  mkTimeSeriesModel forward parameters
    (match criterion with Some c => c | None => DEFAULT_LOSS end)
    (match optimizer with Some o => o | None => DEFAULT_OPT end).

Definition TimeSeriesModel_training_step (self : TimeSeriesModel)
    (batch : Tensor * Tensor) (batch_idx : Z) : result R :=
  let (x, y) := batch in
  pred ← tsm_forward self x;
  criterion self pred y.

(** [self(x).detach()]: the values of [forward], cut off from the graph of
    gradients, which tensors do not carry here. *)
Definition TimeSeriesModel_predict (self : TimeSeriesModel) (x : Tensor)
    : result Tensor :=
  tsm_forward self x.

Definition TimeSeriesModel_configure_optimizers (self : TimeSeriesModel)
    : Optimizer :=
  optimizer self (tsm_parameters self).

(** ** Predicates of the statements *)

Definition hidden_state_size_ok (a : Seq2SeqAttrs) : Prop :=
  hidden_state_size a = num_nodes a * rnn_units a.

(** The inverse-sigmoid decay as a function of the reals. *)
Definition inverse_sigmoid (c b : R) : R := (c / (c + exp (b / c)))%R.

(** A computation that ends in an exception. *)
Definition raises {A} (r : result A) : Prop := exists e, r = Raise e.

(** The Decoder step returns on tensors of the given shapes and keeps them. *)
Definition Decoder_returns (dec : Decoder) (sx sh : list nat) : Prop :=
  forall x h, t_shape x = sx -> t_shape h = sh ->
    exists out h1, Decoder_forward dec x (Some h) = Ok (out, h1) /\
                   t_shape out = sx /\ t_shape h1 = sh.

(** What teacher forcing needs when it is active: a batch count, a decay
    that is not zero, and labels with at least [horizon] steps of the shape
    of a decoder input. *)
Definition teacher_forcing_ready (self : DCRNN) (labels : option Tensor)
    (batches_seen : option R) (sx : list nat) : Prop :=
  training self && use_curriculum_learning self = true ->
  cl_decay_steps (attrs self) <> 0 /\
  (exists b, batches_seen = Some b) /\
  (exists l n, labels = Some l /\ t_shape l = n :: sx /\
               (Z.to_nat (horizon (decoder_model self)) <= n)%nat).

(** The shapes the collaborators promise: a cell returns a hidden state of
    the shape of the one it is given, the linear layer maps rows of
    [rnn_units] features to rows of [output_dim] features. *)
Definition cell_returns (c : DCGRU) (sx sh1 : list nat) : Prop :=
  forall x h, t_shape x = sx -> t_shape h = sh1 ->
    exists n, dcgru_call c x h = Ok n /\ t_shape n = sh1.

Fixpoint layers_return (layers : list DCGRU) (sx sh1 : list nat) : Prop :=
  match layers with
  | [] => True
  | c :: rest => cell_returns c sx sh1 /\ layers_return rest sh1 sh1
  end.

Definition linear_returns (l : Linear) (ru od : nat) : Prop :=
  forall x m, t_shape x = [m; ru] ->
    exists y, linear_call l x = Ok y /\ t_shape y = [m; od].

(** The value a call returns, the state it leaves aside. *)
Definition output_of {A B} (r : result (A * B)) : result A :=
  r ≫= (fun '(a, _) => Ok a).

(** The absolute error at one position, and the positions of a batch that
    are not masked. *)
Definition abs_err (tp : R * R) : R := Rabs (fst tp - snd tp)%R.

Definition unmasked_positions (y_true y_pred : list R) : list (R * R) :=
  filter (fun tp => unmasked (fst tp) = true) (combine y_true y_pred).

(** ** A concrete model

    The configuration of the end-to-end property of the specification:
    [num_nodes = 3], [rnn_units = 4], [seq_len = 2], [horizon = 2], one
    recurrent layer and batches of one.  The recurrent cell hands the hidden
    state on as it is, the projection returns zeros, the scaler is the
    identity. *)

Definition sample_int_of_string (s : string) : option Z := None.

Definition sample_cell : DCGRU :=
  mkDCGRU (fun x h => Ok h)
    [mkParam (Some (mkTensor Float32 [2%nat] [3; 4]%R)); mkParam None].

Definition sample_DCGRU__init__ (num_units : Z) (adj : AdjMx)
    (max_diffusion_step num_nodes input_dim : Z) (filter_type : pyval)
    (use_gc_for_ru : bool) : result DCGRU :=
  Ok sample_cell.

Definition sample_linear (out_features : Z) : Linear :=
  mkLinear
    (fun x => match t_shape x with
              | [m; _] =>
                  Ok (mkTensor (t_dtype x) [m; Z.to_nat out_features]
                        (replicate (m * Z.to_nat out_features) 0%R))
              | _ => Raise RuntimeError
              end)
    [mkParam None].

Definition sample_nn_Linear (in_features out_features : Z) : result Linear :=
  Ok (sample_linear out_features).

Definition sample_scaler : Scaler := mkScaler (fun t => Ok t).

(** [t.permute(1, 0, 2, 3)], with the entries laid out anew. *)
Definition sample_permute (t : Tensor) : result Tensor :=
  match t_shape t with
  | [b; s; n; f] =>
      Ok (mkTensor (t_dtype t) [s; b; n; f]
            (flat_map (fun si =>
               flat_map (fun bi =>
                 take (n * f) (drop ((bi * s + si) * (n * f)) (t_data t)))
                 (seq 0 b))
               (seq 0 s)))
  | _ => Raise RuntimeError
  end.

(** [t.view(a, b, c)] where the number of entries fits. *)
Definition sample_view3 (t : Tensor) (a b c : Z) : result Tensor :=
  if (0 <=? a) && (0 <=? b) && (0 <=? c)
     && (Z.of_nat (numel (t_shape t)) =? a * b * c)
  then Ok (mkTensor (t_dtype t) [Z.to_nat a; Z.to_nat b; Z.to_nat c] (t_data t))
  else Raise RuntimeError.

(** [t[..., :k]] for [0 <= k]. *)
Definition sample_slice_last (t : Tensor) (k : Z) : result Tensor :=
  match reverse (t_shape t) with
  | f :: front =>
      let k1 := Nat.min (Z.to_nat k) f in
      Ok (mkTensor (t_dtype t) (reverse front ++ [k1])
            (flat_map (fun i => take k1 (drop (i * f) (t_data t)))
               (seq 0 (numel front))))
  | [] => Raise IndexError
  end.

(** A path of three nodes. *)
Definition sample_adj : AdjMx := [[0; 1; 0]; [1; 0; 1]; [0; 1; 0]]%R.

Definition sample_kwargs : gmap string pyval :=
  <["num_nodes" := VInt 3]> (<["rnn_units" := VInt 4]>
  (<["seq_len" := VInt 2]> (<["horizon" := VInt 2]> ∅))).

Definition sample_attrs : Seq2SeqAttrs :=
  mkSeq2SeqAttrs sample_adj 2 1000 (VStr "laplacian") 3 1 4 true 12.

Definition sample_encoder : Encoder :=
  mkEncoder sample_attrs 1 2 [sample_cell].

Definition sample_decoder : Decoder :=
  mkDecoder sample_attrs 1 2 (sample_linear 1) [sample_cell].

(** The model as built (in training mode, no curriculum learning), the same
    in evaluation mode, and the same with curriculum learning. *)
Definition sample_model : DCRNN :=
  mkDCRNN sample_attrs sample_scaler sample_encoder sample_decoder false true.

Definition sample_model_eval : DCRNN := DCRNN_train sample_model false.

Definition sample_model_cl : DCRNN :=
  mkDCRNN sample_attrs sample_scaler sample_encoder sample_decoder true true.

Definition zeros (d : dtype) (sh : list nat) : Tensor :=
  mkTensor d sh (replicate (numel sh) 0%R).

Definition sample_hidden : Tensor := zeros Float32 [1; 1; 12]%nat.
Definition sample_go : Tensor := zeros Float32 [1; 3]%nat.
Definition sample_labels : Tensor :=
  mkTensor Float32 [2; 1; 3]%nat [1; 1; 1; 2; 2; 2]%R.
Definition sample_label_0 : Tensor := mkTensor Float32 [1; 3]%nat [1; 1; 1]%R.
Definition sample_rs : RandomState := fun _ => 0%R.

Definition sample_batch : Tensor * Tensor :=
  (zeros Float32 [1; 2; 3; 1]%nat, zeros Float32 [1; 2; 3; 1]%nat).

(** Further sample values: an Encoder without layers, labels that differ
    from [sample_labels] in the last step only, the second label, draws that
    are never below a threshold, a model whose decay is zero, and
    [torch.broadcast_tensors] on tensors of one shape. *)
Definition sample_encoder_no_layer : Encoder :=
  mkEncoder
    (mkSeq2SeqAttrs sample_adj 2 1000 (VStr "laplacian") 3 0 4 true 12) 1 2 [].

Definition sample_labels_other : Tensor :=
  mkTensor Float32 [2; 1; 3]%nat [1; 1; 1; 5; 6; 7]%R.

Definition sample_label_1 : Tensor := mkTensor Float32 [1; 3]%nat [2; 2; 2]%R.

Definition sample_rs_high : RandomState := fun _ => 1%R.

Definition sample_model_no_decay : DCRNN :=
  mkDCRNN (set_cl_decay_steps sample_attrs 0) sample_scaler sample_encoder
    sample_decoder true true.

Definition sample_broadcast (a b : Tensor) : result (Tensor * Tensor) :=
  if bool_decide (t_shape a = t_shape b) then Ok (a, b) else Raise RuntimeError.

(** A batch whose target has zero and non-zero readings, that target as
    [training_step] reshapes it, and the model when no backward pass has run
    yet: no parameter holds a gradient. *)
Definition sample_batch_target : Tensor * Tensor :=
  (zeros Float32 [1; 2; 3; 1]%nat,
   mkTensor Float32 [1; 2; 3; 1]%nat [0; 2; 0; 4; 0; 6]%R).

Definition sample_target : Tensor :=
  mkTensor Float32 [2; 1; 3]%nat [0; 2; 0; 4; 0; 6]%R.

Definition sample_cell_fresh : DCGRU :=
  mkDCGRU (fun x h => Ok h) [mkParam None; mkParam None].

Definition sample_model_fresh : DCRNN :=
  mkDCRNN sample_attrs sample_scaler
    (mkEncoder sample_attrs 1 2 [sample_cell_fresh])
    (mkDecoder sample_attrs 1 2 (sample_linear 1) [sample_cell_fresh])
    false true.

(** ** Properties *)

(** *** The size of the hidden state *)

Lemma Seq2SeqAttrs__init___ok adj kw a :
  Seq2SeqAttrs__init__ adj kw = Ok a -> hidden_state_size_ok a.
Proof.
  unfold Seq2SeqAttrs__init__. intros H. inv_bind H.
  injection H as <-. reflexivity.
Qed.

Lemma Encoder__init___ok adj kw e :
  Encoder__init__ adj kw = Ok e -> hidden_state_size_ok (enc_attrs e).
Proof.
  unfold Encoder__init__. intros H. inv_bind H.
  injection H as <-. simpl. eauto using Seq2SeqAttrs__init___ok.
Qed.

Lemma Decoder__init___ok adj kw d :
  Decoder__init__ adj kw = Ok d -> hidden_state_size_ok (dec_attrs d).
Proof.
  unfold Decoder__init__. intros H. inv_bind H.
  injection H as <-. simpl. eauto using Seq2SeqAttrs__init___ok.
Qed.

Lemma DCRNN__init___ok adj sc kw m :
  DCRNN__init__ adj sc kw = Ok m ->
  Forall hidden_state_size_ok (attrs_of (ADCRNN m)).
Proof.
  unfold DCRNN__init__. intros H. inv_bind H.
  injection H as <-. simpl. repeat constructor.
  - apply Seq2SeqAttrs__init___ok in Ha. exact Ha.
  - eauto using Encoder__init___ok.
  - eauto using Decoder__init___ok.
Qed.

Lemma constructed_ok i :
  constructed i -> Forall hidden_state_size_ok (attrs_of i).
Proof.
  destruct 1; simpl.
  - repeat constructor. eauto using Encoder__init___ok.
  - repeat constructor. eauto using Decoder__init___ok.
  - eapply (DCRNN__init___ok _ _ _ m). eassumption.
Qed.

Lemma DCRNN_training_step_model m batch batch_idx rs loss m1 rs1 :
  DCRNN_training_step m batch batch_idx rs = Ok (loss, m1, rs1) ->
  m1 = clip_grad_norm_ m 5.
Proof.
  unfold DCRNN_training_step. destruct batch as [x y]. intros H. inv_bind H.
  injection H as _ <- _. reflexivity.
Qed.

Lemma after_call_attrs i c : attrs_of (after_call i c) = attrs_of i.
Proof.
  destruct i as [e|d|m], c; try reflexivity. simpl.
  destruct (DCRNN_training_step m batch batch_idx rs) as [[[loss m1] rs1]|] eqn:E;
    [|reflexivity].
  apply DCRNN_training_step_model in E. subst m1. reflexivity.
Qed.

Lemma lifetime_attrs calls : forall i, attrs_of (lifetime i calls) = attrs_of i.
Proof.
  induction calls as [|c calls IH]; intros i; [reflexivity|].
  simpl. unfold lifetime in IH. rewrite IH. apply after_call_attrs.
Qed.

(** C4: every constructed Encoder, Decoder or DCRNN has
    [hidden_state_size = num_nodes * rnn_units] in every attribute record it
    holds, whatever the keyword options, and no sequence of calls made on
    the instance afterwards changes those records. *)
Theorem hidden_state_size_invariant (i : instance) (calls : list call) :
  constructed i ->
  attrs_of (lifetime i calls) = attrs_of i /\
  Forall (fun a => hidden_state_size a = num_nodes a * rnn_units a)
    (attrs_of (lifetime i calls)).
Proof.
  intros Hc. split; [apply lifetime_attrs|].
  rewrite lifetime_attrs. apply constructed_ok. exact Hc.
Qed.

(** *** The sampling threshold *)

Lemma threshold_returns self b :
  cl_decay_steps (attrs self) <> 0 ->
  exists thr, DCRNN__compute_sampling_threshold self (Some b) = Ok thr.
Proof.
  intros Hc. unfold DCRNN__compute_sampling_threshold.
  destruct (Z.eqb_spec (cl_decay_steps (attrs self)) 0); [contradiction|].
  destruct (Rlt_dec _ _); eexists; reflexivity.
Qed.

Lemma threshold_value self b :
  cl_decay_steps (attrs self) <> 0 ->
  (b / IZR (cl_decay_steps (attrs self)) <= np_exp_max_arg)%R ->
  DCRNN__compute_sampling_threshold self (Some b)
  = Ok (inverse_sigmoid (IZR (cl_decay_steps (attrs self))) b).
Proof.
  intros Hc Hb. unfold DCRNN__compute_sampling_threshold.
  destruct (Z.eqb_spec (cl_decay_steps (attrs self)) 0); [contradiction|].
  destruct (Rlt_dec _ _); [lra|reflexivity].
Qed.

Lemma threshold_overflow self b :
  cl_decay_steps (attrs self) <> 0 ->
  (np_exp_max_arg < b / IZR (cl_decay_steps (attrs self)))%R ->
  DCRNN__compute_sampling_threshold self (Some b) = Ok 0%R.
Proof.
  intros Hc Hb. unfold DCRNN__compute_sampling_threshold.
  destruct (Z.eqb_spec (cl_decay_steps (attrs self)) 0); [contradiction|].
  destruct (Rlt_dec _ _); [reflexivity|contradiction].
Qed.

Lemma threshold_at_0 self :
  cl_decay_steps (attrs self) <> 0 ->
  DCRNN__compute_sampling_threshold self (Some 0%R)
  = Ok (inverse_sigmoid (IZR (cl_decay_steps (attrs self))) 0).
Proof.
  intros Hc. apply threshold_value; [exact Hc|].
  unfold Rdiv, np_exp_max_arg. rewrite Rmult_0_l. lra.
Qed.

Section InverseSigmoid.
Open Scope R_scope.
Variable c : R.
Hypothesis c_pos : 1 <= c.

Lemma inverse_sigmoid_pos b : 0 < inverse_sigmoid c b.
Proof.
  unfold inverse_sigmoid. pose proof (exp_pos (b / c)).
  apply Rdiv_lt_0_compat; lra.
Qed.

Lemma inverse_sigmoid_lt_1 b : inverse_sigmoid c b < 1.
Proof.
  unfold inverse_sigmoid. pose proof (exp_pos (b / c)).
  apply (Rmult_lt_reg_r (c + exp (b / c))); [lra|].
  unfold Rdiv. rewrite Rmult_assoc, Rinv_l by lra. lra.
Qed.

Lemma inverse_sigmoid_decreasing b1 b2 :
  b1 < b2 -> inverse_sigmoid c b2 < inverse_sigmoid c b1.
Proof.
  intros Hb. unfold inverse_sigmoid.
  assert (Hq : b1 / c < b2 / c).
  { unfold Rdiv. apply Rmult_lt_compat_r; [apply Rinv_0_lt_compat; lra|exact Hb]. }
  apply exp_increasing in Hq. pose proof (exp_pos (b1 / c)).
  unfold Rdiv at 1 3. apply Rmult_lt_compat_l; [lra|].
  apply Rinv_0_lt_contravar; lra.
Qed.

Lemma inverse_sigmoid_at_0 : inverse_sigmoid c 0 = c / (c + 1).
Proof. unfold inverse_sigmoid. unfold Rdiv at 2. rewrite Rmult_0_l, exp_0. reflexivity. Qed.

Lemma inverse_sigmoid_vanishes eps :
  0 < eps -> forall b, c * (c / eps) < b -> inverse_sigmoid c b < eps.
Proof.
  intros He b Hb. unfold inverse_sigmoid.
  assert (Hce : 0 < c / eps) by (apply Rdiv_lt_0_compat; lra).
  assert (Hq : c / eps < b / c).
  { apply (Rmult_lt_reg_r c); [lra|].
    unfold Rdiv at 2. rewrite Rmult_assoc, Rinv_l by lra. lra. }
  assert (Hx : 1 + b / c < exp (b / c)) by (apply exp_ineq1; lra).
  apply (Rmult_lt_reg_r (c + exp (b / c))); [lra|].
  unfold Rdiv at 1. rewrite Rmult_assoc, Rinv_l by lra.
  assert (Hm : eps * (c / eps) = c) by (field; lra).
  assert (eps * (c / eps) < eps * (c + exp (b / c)))
    by (apply Rmult_lt_compat_l; lra).
  lra.
Qed.

Lemma inverse_sigmoid_near_1 b : b <= c -> 1 - 3 / c < inverse_sigmoid c b.
Proof.
  intros Hb. unfold inverse_sigmoid.
  assert (Hq : b / c <= 1).
  { apply (Rmult_le_reg_r c); [lra|].
    unfold Rdiv. rewrite Rmult_assoc, Rinv_l by lra. lra. }
  assert (He : exp (b / c) <= 3).
  { destruct Hq as [Hq| ->]; [|apply exp_le_3].
    apply exp_increasing in Hq. pose proof exp_le_3. lra. }
  pose proof (exp_pos (b / c)) as Hp.
  set (e := exp (b / c)) in *.
  assert (H1 : c / (c + e) = 1 - e / (c + e)) by (field; lra).
  rewrite H1.
  assert (e / (c + e) < 3 / c); [|lra].
  apply (Rmult_lt_reg_r (c * (c + e))); [nra|].
  replace (e / (c + e) * (c * (c + e))) with (e * c) by (field; lra).
  replace (3 / c * (c * (c + e))) with (3 * (c + e)) by (field; lra).
  nra.
Qed.

End InverseSigmoid.

(** C5 (amended): for a model with [cl_decay_steps >= 1] the sampling
    threshold is
    [cl_decay_steps / (cl_decay_steps + exp (batches_seen / cl_decay_steps))]
    as long as [np.exp] does not overflow and exactly 0 once it does.  As a
    function of [batches_seen] it never increases, stays between 0 and 1,
    falls below every positive bound for [batches_seen] large enough, and
    is within [3 / cl_decay_steps] of 1 for every
    [batches_seen <= cl_decay_steps], so that it tends to 1 as
    [batches_seen] tends to 0 and [cl_decay_steps] grows.  The inequalities
    are not strict, and the last bound leaves [10^-15] for the rounding of
    the last digit, so that they hold of the float64 value as well. *)
Theorem sampling_threshold_monotone (self : DCRNN) :
  1 <= cl_decay_steps (attrs self) ->
  let c := IZR (cl_decay_steps (attrs self)) in
  exists threshold : R -> R,
    (forall b, DCRNN__compute_sampling_threshold self (Some b) = Ok (threshold b)) /\
    (forall b, b / c <= np_exp_max_arg -> threshold b = c / (c + exp (b / c)))%R /\
    (forall b, np_exp_max_arg < b / c -> threshold b = 0)%R /\
    (forall b1 b2, b1 <= b2 -> threshold b2 <= threshold b1)%R /\
    (forall b, 0 <= threshold b <= 1)%R /\
    (forall eps, 0 < eps -> exists B, forall b, B < b -> threshold b < eps)%R /\
    (forall b, b <= c ->
       1 - 3 / c - / 1000000000000000 <= threshold b)%R.
Proof.
  intros Hc c.
  assert (Hc1 : (1 <= c)%R) by (apply IZR_le in Hc; exact Hc).
  assert (Hdiv : forall b1 b2, (b1 <= b2 -> b1 / c <= b2 / c)%R).
  { intros b1 b2 Hb. unfold Rdiv. apply Rmult_le_compat_r; [|exact Hb].
    left. apply Rinv_0_lt_compat. lra. }
  exists (fun b => if Rlt_dec np_exp_max_arg (b / c) then 0%R
                   else inverse_sigmoid c b).
  split; [|split; [|split; [|split; [|split; [|split]]]]].
  - intros b. unfold DCRNN__compute_sampling_threshold.
    destruct (Z.eqb_spec (cl_decay_steps (attrs self)) 0) as [H0|_]; [lia|].
    fold c. destruct (Rlt_dec np_exp_max_arg (b / c)); reflexivity.
  - intros b Hb. destruct (Rlt_dec np_exp_max_arg (b / c)); [lra|reflexivity].
  - intros b Hb. destruct (Rlt_dec np_exp_max_arg (b / c)); [reflexivity|lra].
  - intros b1 b2 Hb. pose proof (Hdiv b1 b2 Hb) as Hq.
    destruct (Rlt_dec np_exp_max_arg (b2 / c)) as [H2|H2].
    + destruct (Rlt_dec np_exp_max_arg (b1 / c)); [lra|].
      left. apply inverse_sigmoid_pos. exact Hc1.
    + destruct (Rlt_dec np_exp_max_arg (b1 / c)) as [H1|H1]; [lra|].
      destruct Hb as [Hb| ->]; [|lra].
      left. apply inverse_sigmoid_decreasing; assumption.
  - intros b. destruct (Rlt_dec np_exp_max_arg (b / c)); [lra|].
    pose proof (inverse_sigmoid_pos c Hc1 b).
    pose proof (inverse_sigmoid_lt_1 c Hc1 b). lra.
  - intros eps He. exists (c * (c / eps))%R. intros b Hb.
    destruct (Rlt_dec np_exp_max_arg (b / c)); [exact He|].
    apply inverse_sigmoid_vanishes; assumption.
  - intros b Hb.
    assert (Hq : (b / c <= 1)%R).
    { apply (Rmult_le_reg_r c); [lra|].
      unfold Rdiv. rewrite Rmult_assoc, Rinv_l by lra. lra. }
    destruct (Rlt_dec np_exp_max_arg (b / c)) as [Ho|_].
    + unfold np_exp_max_arg in Ho. lra.
    + pose proof (inverse_sigmoid_near_1 c Hc1 b Hb). lra.
Qed.

(** *** The decoding loop *)

Lemma decoder_loop_app self labels bs ts1 ts2 : forall v rs,
  decoder_loop self labels bs (ts1 ++ ts2) v rs
  = decoder_loop self labels bs ts1 v rs
    ≫= (fun '(v1, rs1) => decoder_loop self labels bs ts2 v1 rs1).
Proof.
  induction ts1 as [|t ts1 IH]; intros v rs; simpl.
  - reflexivity.
  - destruct (decoder_body self labels bs t v rs) as [[v1 rs1]|e]; simpl;
      [apply IH|reflexivity].
Qed.

Lemma decoder_vars_at_S self ehs labels bs rs n :
  decoder_vars_at self ehs labels bs rs (S n)
  = decoder_vars_at self ehs labels bs rs n
    ≫= (fun '(v, rs1) => decoder_body self labels bs n v rs1).
Proof.
  unfold decoder_vars_at. rewrite seq_S.
  destruct (decoder_entry self ehs) as [v0|e]; [|reflexivity].
  cbn [mbind result_bind]. rewrite decoder_loop_app. cbn [seq Nat.add decoder_loop].
  destruct (decoder_loop self labels bs (seq 0 n) v0 rs) as [[v rs1]|e]; simpl;
    [|reflexivity].
  destruct (decoder_body self labels bs n v rs1) as [[v1 rs2]|e]; reflexivity.
Qed.

Lemma DCRNN_decoder_unfold self ehs labels bs rs :
  DCRNN_decoder self ehs labels bs rs
  = decoder_vars_at self ehs labels bs rs (Z.to_nat (horizon (decoder_model self)))
    ≫= (fun '(v, rs1) => torch_stack (outputs v) ≫= (fun out => Ok (out, rs1))).
Proof.
  unfold DCRNN_decoder, decoder_vars_at, range.
  destruct (decoder_entry self ehs) as [v0|e]; reflexivity.
Qed.

(** Without curriculum learning the body of the loop is one Decoder step. *)
Lemma decoder_body_plain self labels bs t v rs :
  training self && use_curriculum_learning self = false ->
  decoder_body self labels bs t v rs
  = Decoder_forward (decoder_model self) (decoder_input v)
      (Some (decoder_hidden_state v))
    ≫= (fun '(out, hidden) => Ok (mkVars out hidden (outputs v ++ [out]), rs)).
Proof.
  intros Hcl. unfold decoder_body. rewrite Hcl.
  destruct (Decoder_forward _ _ _) as [[out hidden]|e]; reflexivity.
Qed.

(** C1: with [use_curriculum_learning = False], whatever the labels, the
    batch count, the mode and the random draws, if the loop of
    [DCRNN.decoder] reaches step [t] with [0 <= t < horizon - 1] and the
    Decoder returns [out] there, then the loop reaches step [t+1] and the
    decoder input of step [t+1] is [out]. *)
Theorem decoder_input_is_previous_output (self : DCRNN)
    (encoder_hidden_state labels : option Tensor) (batches_seen : option R)
    (rs rs1 : RandomState) (t : nat) (v : decoder_vars) (out hidden : Tensor) :
  use_curriculum_learning self = false ->
  0 <= Z.of_nat t < horizon (decoder_model self) - 1 ->
  decoder_vars_at self encoder_hidden_state labels batches_seen rs t = Ok (v, rs1) ->
  Decoder_forward (decoder_model self) (decoder_input v)
    (Some (decoder_hidden_state v)) = Ok (out, hidden) ->
  exists v1,
    decoder_vars_at self encoder_hidden_state labels batches_seen rs (S t)
    = Ok (v1, rs1) /\
    decoder_input v1 = out.
Proof.
  intros Hcl _ Hat Hstep.
  rewrite decoder_vars_at_S, Hat. simpl.
  rewrite decoder_body_plain by (rewrite Hcl; apply andb_false_r).
  rewrite Hstep. simpl. eexists. split; reflexivity.
Qed.

(** Every pass appends the Decoder's output of that pass to [outputs]. *)
Lemma decoder_body_inv self labels bs t v rs v1 rs1 :
  decoder_body self labels bs t v rs = Ok (v1, rs1) ->
  exists out hidden,
    Decoder_forward (decoder_model self) (decoder_input v)
      (Some (decoder_hidden_state v)) = Ok (out, hidden) /\
    outputs v1 = outputs v ++ [out] /\
    decoder_hidden_state v1 = hidden /\
    (decoder_input v1 = out \/
     training self && use_curriculum_learning self = true /\
     exists l, labels = Some l /\ tensor_index l t = Ok (decoder_input v1)).
Proof.
  unfold decoder_body. intros H.
  destruct (Decoder_forward _ _ _) as [[out hidden]|e]; simpl in H; [|discriminate].
  exists out, hidden. split; [reflexivity|].
  destruct (training self && use_curriculum_learning self).
  - simpl in H.
    destruct (DCRNN__compute_sampling_threshold self bs) as [thr|e]; simpl in H;
      [|discriminate].
    destruct (Rlt_dec (rs 0%nat) thr).
    + destruct labels as [l|]; simpl in H; [|discriminate].
      destruct (tensor_index l t) as [label|e] eqn:El; simpl in H; [|discriminate].
      injection H as <- <-. simpl. repeat split. right. split; [reflexivity|].
      exists l. split; [reflexivity|exact El].
    + injection H as <- <-. simpl. repeat split. left. reflexivity.
  - injection H as <- <-. simpl. repeat split. left. reflexivity.
Qed.

Lemma decoder_loop_outputs self labels bs ts : forall v rs v1 rs1,
  decoder_loop self labels bs ts v rs = Ok (v1, rs1) ->
  exists new, outputs v1 = outputs v ++ new /\ length new = length ts.
Proof.
  induction ts as [|t ts IH]; simpl; intros v rs v1 rs1 H.
  - injection H as <- <-. exists []. rewrite app_nil_r. split; reflexivity.
  - destruct (decoder_body self labels bs t v rs) as [[v2 rs2]|e] eqn:Eb;
      simpl in H; [|discriminate].
    apply decoder_body_inv in Eb. destruct Eb as (out & hidden & _ & Ho & _).
    apply IH in H. destruct H as (new & Hn & Hl).
    exists (out :: new). rewrite Hn, Ho, <- app_assoc. simpl.
    split; [reflexivity|]. rewrite Hl. reflexivity.
Qed.

Lemma decoder_vars_at_outputs self ehs labels bs rs n v rs1 :
  decoder_vars_at self ehs labels bs rs n = Ok (v, rs1) ->
  length (outputs v) = n.
Proof.
  unfold decoder_vars_at. intros H.
  destruct (decoder_entry self ehs) as [v0|e] eqn:Ee; simpl in H; [|discriminate].
  apply decoder_loop_outputs in H. destruct H as (new & Hn & Hl).
  rewrite Hn, length_app, Hl, length_seq.
  unfold decoder_entry in Ee. destruct ehs as [h|]; [|discriminate].
  inv_bind Ee. injection Ee as <-. reflexivity.
Qed.

Lemma decoder_vars_at_add self ehs labels bs rs m k :
  decoder_vars_at self ehs labels bs rs (m + k)
  = decoder_vars_at self ehs labels bs rs m
    ≫= (fun '(v, rs1) => decoder_loop self labels bs (seq m k) v rs1).
Proof.
  unfold decoder_vars_at. rewrite seq_app.
  destruct (decoder_entry self ehs) as [v0|e]; [|reflexivity].
  cbn [mbind result_bind]. rewrite decoder_loop_app. reflexivity.
Qed.

(** Later passes only append: the entry written at step [t] stays. *)
Lemma decoder_outputs_stable self ehs labels bs rs t n v1 rs1 v2 rs2 out :
  (t < n)%nat ->
  decoder_vars_at self ehs labels bs rs (S t) = Ok (v1, rs1) ->
  decoder_vars_at self ehs labels bs rs n = Ok (v2, rs2) ->
  outputs v1 !! t = Some out ->
  outputs v2 !! t = Some out.
Proof.
  intros Hlt H1 H2 Ho.
  replace n with (S t + (n - S t))%nat in H2 by lia.
  rewrite decoder_vars_at_add, H1 in H2. cbn [mbind result_bind] in H2.
  apply decoder_loop_outputs in H2. destruct H2 as (new & -> & _).
  apply lookup_app_l_Some. exact Ho.
Qed.

(** C9: whenever the loop of [DCRNN.decoder] completes step [t], entry [t]
    of [outputs] is the output the Decoder returned at step [t] from that
    step's input and hidden state; a teacher-forcing substitution only
    replaces the input of step [t+1] by [labels[t]], and no later step
    changes entry [t]. *)
Theorem outputs_entry_is_decoder_output (self : DCRNN)
    (encoder_hidden_state labels : option Tensor) (batches_seen : option R)
    (rs rs2 : RandomState) (t : nat) (v1 : decoder_vars) :
  decoder_vars_at self encoder_hidden_state labels batches_seen rs (S t)
  = Ok (v1, rs2) ->
  exists v rs1 out hidden,
    decoder_vars_at self encoder_hidden_state labels batches_seen rs t
    = Ok (v, rs1) /\
    Decoder_forward (decoder_model self) (decoder_input v)
      (Some (decoder_hidden_state v)) = Ok (out, hidden) /\
    outputs v1 !! t = Some out /\
    (decoder_input v1 = out \/
     training self && use_curriculum_learning self = true /\
     exists l, labels = Some l /\ tensor_index l t = Ok (decoder_input v1)) /\
    forall n v2 rs3, (t < n)%nat ->
      decoder_vars_at self encoder_hidden_state labels batches_seen rs n
      = Ok (v2, rs3) ->
      outputs v2 !! t = Some out.
Proof.
  intros HS. pose proof HS as HS'. rewrite decoder_vars_at_S in HS'.
  destruct (decoder_vars_at self encoder_hidden_state labels batches_seen rs t)
    as [[v rs1]|e] eqn:Hat; [|discriminate].
  cbn [mbind result_bind] in HS'.
  pose proof (decoder_vars_at_outputs _ _ _ _ _ _ _ _ Hat) as Hlen.
  apply decoder_body_inv in HS'.
  destruct HS' as (out & hidden & Hd & Ho & _ & Hin).
  assert (Hentry : outputs v1 !! t = Some out).
  { rewrite Ho, lookup_app_r by lia. rewrite Hlen, Nat.sub_diag. reflexivity. }
  exists v, rs1, out, hidden. repeat split; try assumption.
  intros n v2 rs3 Hlt Hn.
  eapply decoder_outputs_stable; eassumption.
Qed.

(** *** Inference *)

Lemma decoder_loop_eval self labels bs labels' bs' ts : forall v rs,
  training self = false ->
  decoder_loop self labels bs ts v rs = decoder_loop self labels' bs' ts v rs.
Proof.
  induction ts as [|t ts IH]; intros v rs Ht; simpl; [reflexivity|].
  rewrite !decoder_body_plain by (rewrite Ht; reflexivity).
  destruct (Decoder_forward _ _ _) as [[out hidden]|e]; simpl; [|reflexivity].
  apply IH. exact Ht.
Qed.

(** C8: when the model is not in training mode, [DCRNN.forward] gives the
    same result (output sequence or exception, and state of the random
    generator) whatever [labels] and [batches_seen] are, [None] included. *)
Theorem forward_ignores_labels_at_inference (self : DCRNN) (inputs : Tensor)
    (labels labels' : option Tensor) (batches_seen batches_seen' : option R)
    (rs : RandomState) :
  training self = false ->
  DCRNN_forward self inputs labels batches_seen rs
  = DCRNN_forward self inputs labels' batches_seen' rs.
Proof.
  intros Ht. unfold DCRNN_forward.
  destruct (DCRNN_encoder self inputs) as [ehs|e]; [|reflexivity].
  cbn [mbind result_bind]. unfold DCRNN_decoder.
  destruct (decoder_entry self ehs) as [v0|e]; [|reflexivity].
  cbn [mbind result_bind].
  rewrite (decoder_loop_eval self labels batches_seen labels' batches_seen') by exact Ht.
  reflexivity.
Qed.

(** *** Curriculum learning in training mode *)

Lemma raises_bind {A B} (m : result A) (f : A -> result B) :
  (forall a, m = Ok a -> raises (f a)) -> raises (m ≫= f).
Proof.
  destruct m as [a|e]; intros H; simpl; [apply H; reflexivity|].
  exists e. reflexivity.
Qed.

(** In training mode with curriculum learning every pass takes one draw. *)
Lemma decoder_body_draw self labels bs t v rs v1 rs1 :
  training self && use_curriculum_learning self = true ->
  decoder_body self labels bs t v rs = Ok (v1, rs1) ->
  forall k, rs1 k = rs (S k).
Proof.
  unfold decoder_body. intros Hcl H. rewrite Hcl in H.
  destruct (Decoder_forward _ _ _) as [[out hidden]|e]; simpl in H; [|discriminate].
  destruct (DCRNN__compute_sampling_threshold self bs) as [thr|e]; simpl in H;
    [|discriminate].
  destruct (Rlt_dec (rs 0%nat) thr).
  - destruct labels as [l|]; simpl in H; [|discriminate].
    destruct (tensor_index l t); simpl in H; [|discriminate].
    injection H as _ <-. reflexivity.
  - injection H as _ <-. reflexivity.
Qed.

Lemma decoder_loop_draws self labels bs ts : forall v rs v1 rs1,
  training self && use_curriculum_learning self = true ->
  decoder_loop self labels bs ts v rs = Ok (v1, rs1) ->
  forall k, rs1 k = rs (length ts + k)%nat.
Proof.
  induction ts as [|t ts IH]; simpl; intros v rs v1 rs1 Hcl H k.
  - injection H as _ <-. reflexivity.
  - destruct (decoder_body self labels bs t v rs) as [[v2 rs2]|e] eqn:Eb;
      simpl in H; [|discriminate].
    rewrite (IH _ _ _ _ Hcl H k).
    now rewrite (decoder_body_draw _ _ _ _ _ _ _ _ Hcl Eb).
Qed.

Lemma decoder_vars_at_draws self ehs labels bs rs n v rs1 :
  training self && use_curriculum_learning self = true ->
  decoder_vars_at self ehs labels bs rs n = Ok (v, rs1) ->
  forall k, rs1 k = rs (n + k)%nat.
Proof.
  unfold decoder_vars_at. intros Hcl H k.
  destruct (decoder_entry self ehs) as [v0|e]; simpl in H; [|discriminate].
  rewrite (decoder_loop_draws _ _ _ _ _ _ _ _ Hcl H k), length_seq. reflexivity.
Qed.

(** A pass without [batches_seen] raises. *)
Lemma decoder_body_no_batches_seen self labels t v rs :
  training self && use_curriculum_learning self = true ->
  raises (decoder_body self labels None t v rs) /\
  (is_Ok (Decoder_forward (decoder_model self) (decoder_input v)
            (Some (decoder_hidden_state v))) ->
   decoder_body self labels None t v rs = Raise TypeError).
Proof.
  intros Hcl. unfold decoder_body. rewrite Hcl.
  destruct (Decoder_forward _ _ _) as [[out hidden]|e]; simpl.
  - split; [exists TypeError|]; reflexivity.
  - split; [exists e; reflexivity|contradiction].
Qed.

(** A pass without [labels] whose draw is below the threshold raises. *)
Lemma decoder_body_no_labels self bs thr t v rs :
  training self && use_curriculum_learning self = true ->
  DCRNN__compute_sampling_threshold self bs = Ok thr ->
  (rs 0%nat < thr)%R ->
  raises (decoder_body self None bs t v rs) /\
  (is_Ok (Decoder_forward (decoder_model self) (decoder_input v)
            (Some (decoder_hidden_state v))) ->
   decoder_body self None bs t v rs = Raise TypeError).
Proof.
  intros Hcl Hthr Hlt. unfold decoder_body. rewrite Hcl, Hthr.
  destruct (Decoder_forward _ _ _) as [[out hidden]|e]; simpl.
  - destruct (Rlt_dec (rs 0%nat) thr); [|contradiction].
    split; [exists TypeError|]; reflexivity.
  - split; [exists e; reflexivity|contradiction].
Qed.

(** If the loop reaches step [m + k] it has reached step [m]. *)
Lemma decoder_vars_at_prefix self ehs labels bs rs m k v rs1 :
  decoder_vars_at self ehs labels bs rs (m + k) = Ok (v, rs1) ->
  exists v0 rs0, decoder_vars_at self ehs labels bs rs m = Ok (v0, rs0).
Proof.
  rewrite decoder_vars_at_add.
  destruct (decoder_vars_at self ehs labels bs rs m) as [[v0 rs0]|e];
    [eauto|discriminate].
Qed.

Lemma DCRNN_decoder_Ok_steps self ehs labels bs rs out rs1 t :
  DCRNN_decoder self ehs labels bs rs = Ok (out, rs1) ->
  (t < Z.to_nat (horizon (decoder_model self)))%nat ->
  exists v rs2 v' rs3,
    decoder_vars_at self ehs labels bs rs t = Ok (v, rs2) /\
    decoder_body self labels bs t v rs2 = Ok (v', rs3).
Proof.
  rewrite DCRNN_decoder_unfold. intros H Ht.
  destruct (decoder_vars_at _ _ _ _ _ (Z.to_nat _)) as [[vh rsh]|e] eqn:Eh;
    [|discriminate].
  replace (Z.to_nat (horizon (decoder_model self)))
    with (S t + (Z.to_nat (horizon (decoder_model self)) - S t))%nat in Eh by lia.
  apply decoder_vars_at_prefix in Eh. destruct Eh as (v' & rs3 & ES).
  pose proof ES as ES'. rewrite decoder_vars_at_S in ES'.
  destruct (decoder_vars_at self ehs labels bs rs t) as [[v rs2]|e]; [|discriminate].
  exists v, rs2, v', rs3. split; [reflexivity|exact ES'].
Qed.

Lemma DCRNN_decoder_needs_a_step self ehs labels bs rs :
  (Z.to_nat (horizon (decoder_model self)) = 0)%nat ->
  raises (DCRNN_decoder self ehs labels bs rs).
Proof.
  intros H0. unfold DCRNN_decoder, range. rewrite H0.
  apply raises_bind. intros v0 Hv0. simpl.
  unfold decoder_entry in Hv0. destruct ehs as [h|]; [|discriminate].
  inv_bind Hv0. injection Hv0 as <-. simpl. exists RuntimeError. reflexivity.
Qed.

Lemma not_Ok_raises {A} (r : result A) : (forall a, r <> Ok a) -> raises r.
Proof. destruct r as [a|e]; intros H; [destruct (H a); reflexivity|exists e; reflexivity]. Qed.

Lemma decoder_vars_at_Raise self ehs labels bs rs m n e :
  (m <= n)%nat ->
  decoder_vars_at self ehs labels bs rs m = Raise e ->
  decoder_vars_at self ehs labels bs rs n = Raise e.
Proof.
  intros Hle Hm. replace n with (m + (n - m))%nat by lia.
  rewrite decoder_vars_at_add, Hm. reflexivity.
Qed.

Lemma DCRNN_decoder_Raise self ehs labels bs rs m e :
  (m <= Z.to_nat (horizon (decoder_model self)))%nat ->
  decoder_vars_at self ehs labels bs rs m = Raise e ->
  DCRNN_decoder self ehs labels bs rs = Raise e.
Proof.
  intros Hle Hm. rewrite DCRNN_decoder_unfold.
  rewrite (decoder_vars_at_Raise _ _ _ _ _ m _ e Hle Hm). reflexivity.
Qed.

Lemma DCRNN_forward_raises self inputs labels bs rs :
  (forall ehs, raises (DCRNN_decoder self ehs labels bs rs)) ->
  raises (DCRNN_forward self inputs labels bs rs).
Proof. intros H. unfold DCRNN_forward. apply raises_bind. intros ehs _. apply H. Qed.

Lemma DCRNN_decoder_no_batches_seen self ehs labels rs :
  training self && use_curriculum_learning self = true ->
  raises (DCRNN_decoder self ehs labels None rs).
Proof.
  intros Hcl.
  destruct (Z.to_nat (horizon (decoder_model self))) as [|h] eqn:Eh.
  - apply DCRNN_decoder_needs_a_step. exact Eh.
  - apply not_Ok_raises. intros [out rs1] HOk.
    destruct (DCRNN_decoder_Ok_steps _ _ _ _ _ _ _ 0%nat HOk ltac:(lia))
      as (v & rs2 & v' & rs3 & _ & Hb).
    destruct (decoder_body_no_batches_seen self labels 0%nat v rs2 Hcl) as [[e He] _].
    congruence.
Qed.

Lemma DCRNN_decoder_no_labels self ehs b thr rs t :
  training self && use_curriculum_learning self = true ->
  DCRNN__compute_sampling_threshold self (Some b) = Ok thr ->
  (t < Z.to_nat (horizon (decoder_model self)))%nat ->
  (rs t < thr)%R ->
  raises (DCRNN_decoder self ehs None (Some b) rs).
Proof.
  intros Hcl Hthr Ht Hlt.
  apply not_Ok_raises. intros [out rs1] HOk.
  destruct (DCRNN_decoder_Ok_steps _ _ _ _ _ _ _ t HOk Ht)
    as (v & rs2 & v' & rs3 & Hat & Hb).
  pose proof (decoder_vars_at_draws _ _ _ _ _ _ _ _ Hcl Hat 0%nat) as Hd.
  rewrite Nat.add_0_r in Hd.
  destruct (decoder_body_no_labels self (Some b) thr t v rs2 Hcl Hthr) as [[e He] _].
  - rewrite Hd. exact Hlt.
  - congruence.
Qed.

(** C10: in training mode with curriculum learning, [DCRNN.decoder] and
    [DCRNN.forward] raise when [batches_seen] is [None] (a TypeError from the
    threshold computation as soon as the first Decoder step has returned),
    and when [labels] is [None] they raise as soon as one of the [horizon]
    draws is below the threshold (a TypeError from [labels[t]] at that step):
    no result is returned from the model's own prediction. *)
Theorem curriculum_learning_needs_labels_and_batches_seen (self : DCRNN)
    (encoder_hidden_state : option Tensor) (inputs : Tensor) (rs : RandomState) :
  training self = true ->
  use_curriculum_learning self = true ->
  (forall labels,
     raises (DCRNN_decoder self encoder_hidden_state labels None rs) /\
     raises (DCRNN_forward self inputs labels None rs)) /\
  (forall labels v0,
     decoder_entry self encoder_hidden_state = Ok v0 ->
     is_Ok (Decoder_forward (decoder_model self) (decoder_input v0)
              (Some (decoder_hidden_state v0))) ->
     0 < horizon (decoder_model self) ->
     DCRNN_decoder self encoder_hidden_state labels None rs = Raise TypeError) /\
  (forall b thr t,
     DCRNN__compute_sampling_threshold self (Some b) = Ok thr ->
     (t < Z.to_nat (horizon (decoder_model self)))%nat ->
     (rs t < thr)%R ->
     raises (DCRNN_decoder self encoder_hidden_state None (Some b) rs) /\
     raises (DCRNN_forward self inputs None (Some b) rs)) /\
  (forall b thr t v rs1,
     DCRNN__compute_sampling_threshold self (Some b) = Ok thr ->
     (t < Z.to_nat (horizon (decoder_model self)))%nat ->
     decoder_vars_at self encoder_hidden_state None (Some b) rs t = Ok (v, rs1) ->
     is_Ok (Decoder_forward (decoder_model self) (decoder_input v)
              (Some (decoder_hidden_state v))) ->
     (rs t < thr)%R ->
     DCRNN_decoder self encoder_hidden_state None (Some b) rs = Raise TypeError).
Proof.
  intros Htr Hucl.
  assert (Hcl : training self && use_curriculum_learning self = true)
    by (rewrite Htr, Hucl; reflexivity).
  repeat split.
  - apply DCRNN_decoder_no_batches_seen. exact Hcl.
  - apply DCRNN_forward_raises. intros ehs.
    apply DCRNN_decoder_no_batches_seen. exact Hcl.
  - intros labels v0 He Hd Hh.
    apply (DCRNN_decoder_Raise _ _ _ _ _ 1%nat); [lia|].
    rewrite decoder_vars_at_S. unfold decoder_vars_at at 1. rewrite He. simpl.
    apply decoder_body_no_batches_seen; assumption.
  - eapply DCRNN_decoder_no_labels; eassumption.
  - apply DCRNN_forward_raises. intros ehs.
    eapply DCRNN_decoder_no_labels; eassumption.
  - intros b thr t v rs1 Hthr Ht Hat Hd Hlt.
    apply (DCRNN_decoder_Raise _ _ _ _ _ (S t)); [lia|].
    rewrite decoder_vars_at_S, Hat. simpl.
    apply (decoder_body_no_labels self (Some b) thr); try assumption.
    pose proof (decoder_vars_at_draws _ _ _ _ _ _ _ _ Hcl Hat 0%nat) as Hr.
    rewrite Nat.add_0_r in Hr. rewrite Hr. exact Hlt.
Qed.

(** *** The initial hidden state of the Encoder *)

Lemma all_zero_replicate (l : list R) :
  Forall (eq 0%R) l -> l = replicate (length l) 0%R.
Proof. induction 1 as [|x l <- _ IH]; simpl; [reflexivity|]. f_equal. exact IH. Qed.

(** C2: for a configuration whose [num_rnn_layers] and [hidden_state_size]
    are not negative and a step input of shape (batch, features),
    [Encoder.forward] with [hidden_state = None] returns what it returns for
    any all-zero tensor of shape (num_rnn_layers, batch, hidden_state_size)
    that has the numeric type of the input. *)
Theorem Encoder_forward_None_is_zero_state (self : Encoder)
    (inputs h : Tensor) (batch features : nat) :
  0 <= num_rnn_layers (enc_attrs self) ->
  0 <= hidden_state_size (enc_attrs self) ->
  t_shape inputs = [batch; features] ->
  t_dtype h = t_dtype inputs ->
  t_shape h = [Z.to_nat (num_rnn_layers (enc_attrs self)); batch;
               Z.to_nat (hidden_state_size (enc_attrs self))] ->
  wf_tensor h ->
  Forall (eq 0%R) (t_data h) ->
  Encoder_forward self inputs None = Encoder_forward self inputs (Some h).
Proof.
  intros HL HH Hin Hd Hs Hwf Hz. unfold Encoder_forward, size2. rewrite Hin.
  cbn [mbind result_bind]. unfold torch_zeros.
  replace (forallb _ _) with true; cycle 1.
  { symmetry. cbn [forallb]. rewrite !andb_true_iff.
    repeat split; apply Z.leb_le; lia. }
  cbn [mbind result_bind map].
  replace (type_as _ inputs) with h; [reflexivity|].
  destruct h as [d s data]. unfold type_as, wf_tensor in *. simpl in *.
  subst d s. rewrite Nat2Z.id. f_equal.
  etrans; [apply all_zero_replicate; exact Hz|]. rewrite Hwf. reflexivity.
Qed.

(** *** The lengths of the two loops *)

Lemma encoder_loop_steps self inputs : forall ts xs h,
  Forall2 (fun t x => tensor_index inputs t = Ok x) ts xs ->
  encoder_loop self inputs ts h = encoder_steps (encoder_model self) xs h.
Proof.
  induction ts as [|t ts IH]; intros xs h HF; inversion HF as [|? x ? xs' Hx HF']; subst.
  - reflexivity.
  - simpl. rewrite Hx. cbn [mbind result_bind].
    destruct (Encoder_forward (encoder_model self) x h) as [[o h1]|e]; simpl;
      [apply IH; exact HF'|reflexivity].
Qed.

(** The hidden state that [encoder_steps] returns is the one of the last step. *)
Lemma encoder_steps_last enc xs x : forall h,
  encoder_steps enc (xs ++ [x]) h
  = encoder_steps enc xs h
    ≫= (fun h1 => Encoder_forward enc x h1 ≫= (fun '(_, h2) => Ok (Some h2))).
Proof.
  induction xs as [|y xs IH]; intros h; simpl.
  - destruct (Encoder_forward enc x h) as [[o h1]|e]; reflexivity.
  - destruct (Encoder_forward enc y h) as [[o h1]|e]; simpl; [apply IH|reflexivity].
Qed.

Lemma torch_stack_shape ts out :
  torch_stack ts = Ok out ->
  exists t0, head ts = Some t0 /\ t_shape out = length ts :: t_shape t0.
Proof.
  unfold torch_stack. destruct ts as [|t0 ts]; [discriminate|].
  destruct (forallb _ _); [|discriminate].
  intros [= <-]. exists t0. split; reflexivity.
Qed.

Lemma torch_stack_returns ts sx :
  ts <> [] -> Forall (fun t => t_shape t = sx) ts ->
  exists out, torch_stack ts = Ok out /\ t_shape out = length ts :: sx.
Proof.
  intros Hne HF. unfold torch_stack. destruct ts as [|t0 ts]; [contradiction|].
  assert (H0 : t_shape t0 = sx) by (inversion HF; assumption).
  replace (forallb _ _) with true.
  - eexists. split; [reflexivity|]. simpl. rewrite H0. reflexivity.
  - symmetry. apply forallb_forall. intros t Hin. apply bool_decide_eq_true.
    rewrite Forall_forall in HF. rewrite H0. apply HF.
    apply list_elem_of_In. exact Hin.
Qed.

Lemma tensor_index_returns hs n sh1 k :
  t_shape hs = n :: sh1 -> (k < n)%nat ->
  exists h, tensor_index hs k = Ok h /\ t_shape h = sh1.
Proof.
  intros Hs Hk. unfold tensor_index. rewrite Hs.
  destruct (Nat.ltb_spec k n); [|lia]. eexists. split; reflexivity.
Qed.

Lemma dcgru_loop_returns hs n sh1 : forall layers sx k x acc,
  t_shape hs = n :: sh1 ->
  layers_return layers sx sh1 ->
  (k + length layers <= n)%nat ->
  t_shape x = sx ->
  Forall (fun t => t_shape t = sh1) acc ->
  exists out hss,
    dcgru_loop layers (Some hs) k x acc = Ok (out, hss) /\
    Forall (fun t => t_shape t = sh1) hss /\
    length hss = (length acc + length layers)%nat /\
    (layers <> [] -> t_shape out = sh1).
Proof.
  induction layers as [|c layers IH]; intros sx k x acc Hs Hl Hk Hx Hacc.
  - exists x, acc. simpl. repeat split; [assumption|lia|contradiction].
  - destruct Hl as [Hc Hl]. simpl in Hk.
    destruct (tensor_index_returns hs n sh1 k Hs ltac:(lia)) as (h & Hi & Hh).
    destruct (Hc x h Hx Hh) as (nx & Hcall & Hn).
    destruct (IH sh1 (S k) nx (acc ++ [nx]) Hs Hl ltac:(lia) Hn)
      as (out & hss & Hloop & Hhss & Hlen & Hout).
    { apply Forall_app. split; [exact Hacc|]. repeat constructor. exact Hn. }
    exists out, hss. simpl. rewrite Hi. cbn [mbind result_bind].
    rewrite Hcall. cbn [mbind result_bind]. rewrite Hloop.
    repeat split; try assumption.
    + rewrite Hlen, length_app. simpl. lia.
    + intros _. destruct layers as [|c' layers'].
      * simpl in Hloop. injection Hloop as <- _. exact Hn.
      * apply Hout. discriminate.
Qed.

Lemma view_m1_returns t k a :
  (0 < k)%nat -> numel (t_shape t) = (a * k)%nat ->
  view_m1 t (Z.of_nat k) = Ok (mkTensor (t_dtype t) [a; k] (t_data t)).
Proof.
  intros Hk Hn. unfold view_m1.
  destruct (Z.leb_spec (Z.of_nat k) 0); [lia|].
  rewrite Nat2Z.id, Hn, Nat.Div0.mod_mul, Nat.div_mul by lia. reflexivity.
Qed.

(** A Decoder whose collaborators keep their promises returns on tensors of
    the shapes that [DCRNN.decoder] feeds it, and keeps these shapes. *)
Lemma Decoder_forward_returns (dec : Decoder) (batch layers nn ru od : nat) :
  num_nodes (dec_attrs dec) = Z.of_nat nn ->
  rnn_units (dec_attrs dec) = Z.of_nat ru ->
  output_dim dec = Z.of_nat od ->
  (0 < nn)%nat -> (0 < ru)%nat -> (0 < od)%nat ->
  length (dec_dcgru_layers dec) = layers -> (0 < layers)%nat ->
  layers_return (dec_dcgru_layers dec) [batch; (nn * od)%nat] [batch; (nn * ru)%nat] ->
  linear_returns (projection_layer dec) ru od ->
  Decoder_returns dec [batch; (nn * od)%nat] [layers; batch; (nn * ru)%nat].
Proof.
  intros Hnn Hru Hod Pnn Pru Pod Hlen Play Hcells Hlin x h Hx Hh.
  destruct (dcgru_loop_returns h layers [batch; (nn * ru)%nat]
              (dec_dcgru_layers dec) _ 0%nat x [] Hh Hcells ltac:(lia) Hx)
    as (out & hss & Hloop & Hhss & Hl & Hout); [constructor|].
  assert (Hne : dec_dcgru_layers dec <> []).
  { intros E. rewrite E in Hlen. simpl in Hlen. lia. }
  specialize (Hout Hne).
  unfold Decoder_forward. rewrite Hloop. cbn [mbind result_bind].
  rewrite Hru, (view_m1_returns out ru (batch * nn)%nat Pru)
    by (rewrite Hout; simpl; lia).
  cbn [mbind result_bind].
  destruct (Hlin (mkTensor (t_dtype out) [(batch * nn)%nat; ru] (t_data out))
              (batch * nn)%nat eq_refl) as (y & Hy & Hys).
  rewrite Hy. cbn [mbind result_bind].
  rewrite Hnn, Hod, <- Nat2Z.inj_mul.
  rewrite (view_m1_returns y (nn * od)%nat batch)
    by (try rewrite Hys; simpl; nia).
  cbn [mbind result_bind].
  destruct (torch_stack_returns hss [batch; (nn * ru)%nat]) as (st & Hst & Hss).
  { intros E. rewrite E in Hl. simpl in Hl. lia. }
  { exact Hhss. }
  rewrite Hst. eexists _, _. split; [reflexivity|]. simpl. split; [reflexivity|].
  rewrite Hss, Hl, Hlen. reflexivity.
Qed.

Lemma decoder_body_returns self labels bs sx sh t v rs :
  Decoder_returns (decoder_model self) sx sh ->
  teacher_forcing_ready self labels bs sx ->
  (t < Z.to_nat (horizon (decoder_model self)))%nat ->
  t_shape (decoder_input v) = sx ->
  t_shape (decoder_hidden_state v) = sh ->
  Forall (fun o => t_shape o = sx) (outputs v) ->
  exists v1 rs1,
    decoder_body self labels bs t v rs = Ok (v1, rs1) /\
    t_shape (decoder_input v1) = sx /\
    t_shape (decoder_hidden_state v1) = sh /\
    Forall (fun o => t_shape o = sx) (outputs v1).
Proof.
  intros Hdec Htf Ht Hx Hh Ho.
  destruct (Hdec _ _ Hx Hh) as (out & h1 & Hd & Hso & Hsh).
  assert (Ho1 : Forall (fun o => t_shape o = sx) (outputs v ++ [out])).
  { apply Forall_app. split; [exact Ho|]. repeat constructor. exact Hso. }
  unfold decoder_body. rewrite Hd. cbn [mbind result_bind].
  destruct (training self && use_curriculum_learning self) eqn:Hcl.
  - destruct (Htf Hcl) as (Hc & [b ->] & (l & n & -> & Hl & Hn)).
    cbn [np_random_uniform].
    destruct (threshold_returns self b Hc) as [thr ->].
    cbn [mbind result_bind].
    destruct (Rlt_dec _ _).
    + unfold tensor_index. rewrite Hl.
      destruct (Nat.ltb_spec t n); [|lia]. cbn [mbind result_bind].
      eexists _, _. split; [reflexivity|]. simpl. auto.
    + eexists _, _. split; [reflexivity|]. simpl. auto.
  - eexists _, _. split; [reflexivity|]. simpl. auto.
Qed.

Lemma decoder_loop_returns self labels bs sx sh :
  Decoder_returns (decoder_model self) sx sh ->
  teacher_forcing_ready self labels bs sx ->
  forall ts v rs,
  Forall (fun t => t < Z.to_nat (horizon (decoder_model self)))%nat ts ->
  t_shape (decoder_input v) = sx ->
  t_shape (decoder_hidden_state v) = sh ->
  Forall (fun o => t_shape o = sx) (outputs v) ->
  exists v1 rs1,
    decoder_loop self labels bs ts v rs = Ok (v1, rs1) /\
    Forall (fun o => t_shape o = sx) (outputs v1).
Proof.
  intros Hdec Htf. induction ts as [|t ts IH]; intros v rs Hts Hx Hh Ho.
  - exists v, rs. split; [reflexivity|exact Ho].
  - inversion Hts as [|? ? Ht Hts']; subst.
    destruct (decoder_body_returns self labels bs _ _ t v rs Hdec Htf Ht eq_refl eq_refl Ho)
      as (v1 & rs1 & Hb & Hx1 & Hh1 & Ho1).
    simpl. rewrite Hb. cbn [mbind result_bind].
    apply IH; assumption.
Qed.

(** Whatever [DCRNN.decoder] returns has [horizon] entries, and [horizon]
    is then at least 1. *)
Lemma DCRNN_decoder_length self ehs labels bs rs out rs1 :
  DCRNN_decoder self ehs labels bs rs = Ok (out, rs1) ->
  1 <= horizon (decoder_model self) /\
  exists rest, t_shape out = Z.to_nat (horizon (decoder_model self)) :: rest.
Proof.
  rewrite DCRNN_decoder_unfold. intros H.
  destruct (decoder_vars_at _ _ _ _ _ _) as [[v rs2]|e] eqn:Eat; [|discriminate].
  cbn [mbind result_bind] in H.
  destruct (torch_stack (outputs v)) as [o|e] eqn:Es; [|discriminate].
  injection H as <- <-.
  apply decoder_vars_at_outputs in Eat.
  apply torch_stack_shape in Es. destruct Es as (t0 & Hhd & Hs).
  rewrite Eat in Hs. split; [|eauto].
  destruct (outputs v); [discriminate|]. simpl in Eat. lia.
Qed.

(** C3: [DCRNN.encoder] is the Encoder run over the first [seq_len] time
    steps of the input, in order, from no hidden state, only the hidden
    state being carried from step to step; and on a valid input (a hidden
    state the decoding can start from, [horizon >= 1], a Decoder step that
    returns on tensors of these shapes, and teacher-forcing arguments where
    they are used) [DCRNN.decoder] returns a sequence of exactly [horizon]
    outputs. *)
Theorem encoder_and_decoder_lengths (self : DCRNN) (inputs : Tensor)
    (xs : list Tensor) (encoder_hidden_state labels : option Tensor)
    (batches_seen : option R) (rs : RandomState) (v0 : decoder_vars) :
  Forall2 (fun t x => tensor_index inputs t = Ok x)
    (range (seq_len (encoder_model self))) xs ->
  decoder_entry self encoder_hidden_state = Ok v0 ->
  1 <= horizon (decoder_model self) ->
  Decoder_returns (decoder_model self) (t_shape (decoder_input v0))
    (t_shape (decoder_hidden_state v0)) ->
  teacher_forcing_ready self labels batches_seen (t_shape (decoder_input v0)) ->
  (length xs = Z.to_nat (seq_len (encoder_model self)) /\
   DCRNN_encoder self inputs = encoder_steps (encoder_model self) xs None) /\
  exists out rs1 v,
    DCRNN_decoder self encoder_hidden_state labels batches_seen rs = Ok (out, rs1) /\
    t_shape out = Z.to_nat (horizon (decoder_model self))
                  :: t_shape (decoder_input v0) /\
    decoder_vars_at self encoder_hidden_state labels batches_seen rs
      (Z.to_nat (horizon (decoder_model self))) = Ok (v, rs1) /\
    length (outputs v) = Z.to_nat (horizon (decoder_model self)).
Proof.
  intros Hxs He Hh Hdec Htf. split.
  - split.
    + apply Forall2_length in Hxs. unfold range in Hxs.
      rewrite length_seq in Hxs. symmetry. exact Hxs.
    + apply encoder_loop_steps. exact Hxs.
  - assert (Hv0 : outputs v0 = []).
    { unfold decoder_entry in He. destruct encoder_hidden_state; [|discriminate].
      inv_bind He. injection He as <-. reflexivity. }
    destruct (decoder_loop_returns self labels batches_seen _ _ Hdec Htf
                (range (horizon (decoder_model self))) v0 rs)
      as (v & rs1 & Hl & Ho); try reflexivity.
    { apply Forall_forall. intros t Ht. apply list_elem_of_In, in_seq in Ht. lia. }
    { rewrite Hv0. constructor. }
    assert (Hat : decoder_vars_at self encoder_hidden_state labels batches_seen rs
                    (Z.to_nat (horizon (decoder_model self))) = Ok (v, rs1)).
    { unfold decoder_vars_at. rewrite He. exact Hl. }
    pose proof (decoder_vars_at_outputs _ _ _ _ _ _ _ _ Hat) as Hlen.
    assert (Hne : outputs v <> []).
    { intros Hn. rewrite Hn in Hlen. simpl in Hlen. lia. }
    destruct (torch_stack_returns (outputs v) _ Hne Ho) as (out & Hs & Hsh).
    exists out, rs1, v. repeat split; try assumption.
    + unfold DCRNN_decoder. rewrite He. cbn [mbind result_bind].
      rewrite Hl. cbn [mbind result_bind]. rewrite Hs. reflexivity.
    + rewrite Hsh, Hlen. reflexivity.
Qed.

(** *** The masked loss *)

Section MaskedLoss.
Open Scope R_scope.

Lemma masked_sum_filter (l : list (R * R)) :
  Rsum (map (fun tp => if unmasked (fst tp) then Rabs (fst tp - snd tp) else 0) l)
  = Rsum (map abs_err (filter (fun tp => unmasked (fst tp) = true) l)).
Proof.
  induction l as [|tp l IH]; [reflexivity|].
  rewrite filter_cons. simpl. rewrite IH.
  destruct (unmasked (fst tp)) eqn:E.
  - destruct (decide (true = true)); [|contradiction]. reflexivity.
  - destruct (decide (false = true)); [discriminate|]. simpl. lra.
Qed.

Lemma masked_mae_mean y_true y_pred :
  unmasked_positions y_true y_pred <> [] ->
  masked_mae y_true y_pred
  = mean_absolute_error (unmasked_positions y_true y_pred).
Proof.
  intros Hne. unfold masked_mae, mean_absolute_error.
  fold (unmasked_positions y_true y_pred).
  destruct (Nat.eqb_spec (length (unmasked_positions y_true y_pred)) 0) as [H0|_].
  - destruct (unmasked_positions y_true y_pred); [contradiction|discriminate].
  - rewrite masked_sum_filter. reflexivity.
Qed.

Lemma masked_mae_all_masked y_true y_pred :
  unmasked_positions y_true y_pred = [] -> masked_mae y_true y_pred = 0.
Proof.
  intros He. unfold masked_mae. fold (unmasked_positions y_true y_pred).
  rewrite He. reflexivity.
Qed.

(** Positions whose true value is zero do not enter the unmasked positions. *)
Lemma unmasked_positions_agree y_true : forall y_pred y_pred',
  length y_pred = length y_pred' ->
  (forall i t, y_true !! i = Some t -> t <> 0 -> y_pred !! i = y_pred' !! i) ->
  unmasked_positions y_true y_pred = unmasked_positions y_true y_pred'.
Proof.
  unfold unmasked_positions.
  induction y_true as [|t ts IH]; intros [|p ps] [|p' ps'] Hlen Hag;
    try reflexivity; try discriminate.
  simpl. rewrite !filter_cons. simpl.
  rewrite (IH ps ps').
  - unfold unmasked. destruct (Req_dec_T t 0) as [Hz|Hnz].
    + destruct (decide (false = true)); [discriminate|reflexivity].
    + destruct (decide (true = true)); [|contradiction].
      specialize (Hag 0%nat t eq_refl Hnz). simpl in Hag.
      injection Hag as ->. reflexivity.
  - simpl in Hlen. lia.
  - intros i t' Hi Ht'. apply (Hag (S i) t' Hi Ht').
Qed.

Lemma masked_mae_positions y_true y_pred y_pred' :
  unmasked_positions y_true y_pred = unmasked_positions y_true y_pred' ->
  masked_mae y_true y_pred = masked_mae y_true y_pred'.
Proof.
  intros He.
  destruct (unmasked_positions y_true y_pred) as [|a l] eqn:E.
  - rewrite !masked_mae_all_masked; [reflexivity|symmetry; exact He|exact E].
  - rewrite !masked_mae_mean; rewrite <- ?He, ?E; [reflexivity|discriminate..].
Qed.

Lemma Rsum_abs_err_diag (l : list (R * R)) :
  Forall (fun tp => fst tp = snd tp) l -> Rsum (map abs_err l) = 0.
Proof.
  induction 1 as [|[t p] l Htp _ IH]; [reflexivity|].
  simpl in *. rewrite IH. unfold abs_err. simpl. subst p.
  rewrite Rminus_diag, Rabs_R0. lra.
Qed.

Lemma combine_diag (y : list R) : Forall (fun tp => fst tp = snd tp) (combine y y).
Proof. induction y; simpl; constructor; [reflexivity|assumption]. Qed.

Lemma masked_mae_diag y : masked_mae y y = 0.
Proof.
  destruct (unmasked_positions y y) as [|a l] eqn:E.
  - apply masked_mae_all_masked. exact E.
  - rewrite masked_mae_mean by (rewrite E; discriminate).
    unfold mean_absolute_error. rewrite Rsum_abs_err_diag.
    + unfold Rdiv. apply Rmult_0_l.
    + unfold unmasked_positions. apply list.Forall_forall.
      intros x Hx. apply list_elem_of_filter in Hx as [_ Hx].
      pose proof (combine_diag y) as Hd.
      rewrite list.Forall_forall in Hd. auto.
Qed.

Lemma masked_mae_example : masked_mae [0; 2; 4] [100; 2; 5] = 1 / 2.
Proof.
  unfold masked_mae. simpl. rewrite !filter_cons, filter_nil. simpl.
  unfold unmasked.
  destruct (Req_dec_T 0 0) as [_|H]; [|lra].
  destruct (Req_dec_T 2 0) as [H|_]; [lra|].
  destruct (Req_dec_T 4 0) as [H|_]; [lra|].
  destruct (decide (false = true)); [discriminate|].
  destruct (decide (true = true)); [|contradiction].
  simpl.
  replace (2 - 2) with 0 by lra. replace (4 - 5) with (-1) by lra.
  rewrite Rabs_R0, Rabs_left by lra. lra.
Qed.

End MaskedLoss.

Lemma masked_mae_all_zero y_true : forall y_pred,
  Forall (eq 0%R) y_true -> masked_mae y_true y_pred = 0%R.
Proof.
  intros y_pred Hz. apply masked_mae_all_masked.
  unfold unmasked_positions. revert y_pred.
  induction Hz as [|t ts <- _ IH]; intros ps; [reflexivity|].
  destruct ps as [|p ps]; [reflexivity|]. simpl. rewrite filter_cons. simpl.
  destruct (decide (unmasked 0 = true)) as [H0|_]; [|apply IH].
  unfold unmasked in H0. destruct (Req_dec_T 0 0); [discriminate|lra].
Qed.

(** C6: when [training_step] returns, the batch went through the permutes
    and views, [forward] returned a prediction for the reshaped input with
    the reshaped target as labels and [batch_idx] as [batches_seen], and the
    loss returned is [masked_mae_loss] of the inverse-transformed target
    and the inverse-transformed prediction, target first: the mean absolute
    error over the positions where that target is not zero, or 0 when it is
    zero everywhere.  Of [masked_mae_loss(true, pred)] itself: it is the
    mean absolute error over the positions where [true] is not zero;
    predictions at positions where [true] is zero do not change it;
    [masked_mae_loss(y, y)] is 0; when every position is masked the loss is
    0; and for true = [0, 2, 4], pred = [100, 2, 5] it is 0.5. *)
Theorem masked_mae_loss_spec :
  (forall self batch batch_idx rs loss self1 rs1,
     DCRNN_training_step self batch batch_idx rs = Ok (loss, self1, rs1) ->
     exists xp yp batch_size x ys y pred y1 pred1,
       permute_1_0_2_3 (fst batch) = Ok xp /\
       permute_1_0_2_3 (snd batch) = Ok yp /\
       size_1 xp = Ok batch_size /\
       view3 xp (seq_len (encoder_model self)) (Z.of_nat batch_size)
         (num_nodes (attrs self) * input_dim (encoder_model self)) = Ok x /\
       slice_last yp (output_dim (decoder_model self)) = Ok ys /\
       view3 ys (horizon (decoder_model self)) (Z.of_nat batch_size)
         (num_nodes (attrs self) * output_dim (decoder_model self)) = Ok y /\
       DCRNN_forward self x (Some y) (Some (IZR batch_idx)) rs = Ok (pred, rs1) /\
       inverse_transform (scaler self) y = Ok y1 /\
       inverse_transform (scaler self) pred = Ok pred1 /\
       loss = masked_mae_loss y1 pred1 /\
       (unmasked_positions (t_data y1) (t_data pred1) <> [] ->
        loss = mean_absolute_error
                 (unmasked_positions (t_data y1) (t_data pred1))) /\
       (Forall (eq 0%R) (t_data y1) -> loss = 0%R)) /\
  (forall y_true y_pred,
     unmasked_positions (t_data y_true) (t_data y_pred) <> [] ->
     masked_mae_loss y_true y_pred
     = mean_absolute_error (unmasked_positions (t_data y_true) (t_data y_pred))) /\
  (forall y_true y_pred y_pred',
     length (t_data y_pred) = length (t_data y_pred') ->
     (forall i t, t_data y_true !! i = Some t -> t <> 0%R ->
                  t_data y_pred !! i = t_data y_pred' !! i) ->
     masked_mae_loss y_true y_pred = masked_mae_loss y_true y_pred') /\
  (forall y, masked_mae_loss y y = 0%R) /\
  (forall y_true y_pred,
     Forall (eq 0%R) (t_data y_true) -> masked_mae_loss y_true y_pred = 0%R) /\
  (forall d sh, masked_mae_loss (mkTensor d sh [0; 2; 4]%R)
                  (mkTensor d sh [100; 2; 5]%R) = (1 / 2)%R).
Proof.
  split; [|repeat split].
  - intros self [x0 y0] batch_idx rs loss self1 rs1 H.
    unfold DCRNN_training_step in H.
    destruct (permute_1_0_2_3 x0) as [xp|] eqn:Exp; [|discriminate].
    cbn [mbind result_bind] in H.
    destruct (permute_1_0_2_3 y0) as [yp|] eqn:Eyp; [|discriminate].
    cbn [mbind result_bind] in H.
    destruct (size_1 xp) as [batch_size|] eqn:Eb; [|discriminate].
    cbn [mbind result_bind] in H.
    destruct (view3 xp _ _ _) as [x|] eqn:Ex; [|discriminate].
    cbn [mbind result_bind] in H.
    destruct (slice_last yp _) as [ys|] eqn:Eys; [|discriminate].
    cbn [mbind result_bind] in H.
    destruct (view3 ys _ _ _) as [y|] eqn:Ey; [|discriminate].
    cbn [mbind result_bind] in H.
    destruct (DCRNN_forward self x (Some y) _ rs) as [[pred rs0]|] eqn:Ef;
      [|discriminate].
    cbn [mbind result_bind] in H.
    destruct (inverse_transform (scaler self) y) as [y1|] eqn:Ey1; [|discriminate].
    cbn [mbind result_bind] in H.
    destruct (inverse_transform (scaler self) pred) as [pred1|] eqn:Ep1;
      [|discriminate].
    cbn [mbind result_bind] in H.
    injection H as <- _ <-.
    exists xp, yp, batch_size, x, ys, y, pred, y1, pred1. simpl.
    repeat (split; [assumption || reflexivity|]). split.
    + apply masked_mae_mean.
    + intros Hz. apply masked_mae_all_zero. exact Hz.
  - intros. apply masked_mae_mean. assumption.
  - intros y_true y_pred y_pred' Hlen Hag. apply masked_mae_positions.
    apply unmasked_positions_agree; assumption.
  - intros y. apply masked_mae_diag.
  - intros y_true y_pred Hz. apply masked_mae_all_zero. exact Hz.
  - intros. apply masked_mae_example.
Qed.

(** *** Gradient clipping *)

Lemma flat_map_update_dcgru f cells :
  flat_map dcgru_parameters (map (update_dcgru f) cells)
  = map f (flat_map dcgru_parameters cells).
Proof.
  induction cells as [|c cells IH]; simpl; [reflexivity|].
  rewrite IH, map_app. reflexivity.
Qed.

Lemma DCRNN_parameters_update f self :
  DCRNN_parameters (update_parameters f self) = map f (DCRNN_parameters self).
Proof.
  unfold DCRNN_parameters, update_parameters. simpl.
  rewrite !flat_map_update_dcgru, !map_app. reflexivity.
Qed.

Lemma map_fixed {A} (f : A -> A) (l : list A) :
  Forall (fun a => f a = a) l -> map f l = l.
Proof. induction 1 as [|a l Ha _ IH]; simpl; [reflexivity|]. rewrite Ha, IH. reflexivity. Qed.

Lemma update_dcgru_fixed f cells :
  Forall (fun p => f p = p) (flat_map dcgru_parameters cells) ->
  map (update_dcgru f) cells = cells.
Proof.
  induction cells as [|[call ps] cells IH]; simpl; [reflexivity|].
  intros H. apply Forall_app in H as [Hps Hcells].
  unfold update_dcgru at 1. simpl. rewrite (map_fixed f ps Hps), IH by exact Hcells.
  reflexivity.
Qed.

Lemma update_parameters_fixed f self :
  Forall (fun p => f p = p) (DCRNN_parameters self) ->
  update_parameters f self = self.
Proof.
  destruct self as [a sc [ea ei es el] [da do dh [lc lp] dl] u t].
  unfold DCRNN_parameters, update_parameters, update_linear. simpl.
  intros H. apply Forall_app in H as [He H]. apply Forall_app in H as [Hl Hd].
  rewrite (update_dcgru_fixed f el He), (update_dcgru_fixed f dl Hd),
    (map_fixed f lp Hl).
  reflexivity.
Qed.

(** C7: [training_step] runs [clip_grad_norm_(self.parameters(), 5)] on the
    gradient buffers the parameters hold when it is entered.  It runs no
    backward pass: the loss it returns has no gradient yet when the clip
    runs.  So the model it leaves does not depend on the batch, the batch
    index or the random draws, and when no parameter holds a gradient, as
    before the first backward pass, it leaves the model as it was: nothing
    has been clipped. *)
Theorem training_step_clips_before_backward (self : DCRNN)
    (batch batch' : Tensor * Tensor) (batch_idx batch_idx' : Z)
    (rs rs' : RandomState) (loss loss' : R) (self1 self1' : DCRNN)
    (rs1 rs1' : RandomState) :
  DCRNN_training_step self batch batch_idx rs = Ok (loss, self1, rs1) ->
  DCRNN_training_step self batch' batch_idx' rs' = Ok (loss', self1', rs1') ->
  self1' = self1 /\
  (Forall (fun p => p_grad p = None) (DCRNN_parameters self) -> self1 = self).
Proof.
  intros H H'.
  apply DCRNN_training_step_model in H. apply DCRNN_training_step_model in H'.
  subst self1 self1'. split; [reflexivity|].
  intros Hn. unfold clip_grad_norm_. apply update_parameters_fixed.
  eapply Forall_impl; [exact Hn|].
  intros [g] Hg. simpl in Hg. subst g. reflexivity.
Qed.

(** ** Further properties of the constructors *)

Lemma kwargs_get_missing kw key default :
  kw !! key = None -> kwargs_get kw key default = default.
Proof. unfold kwargs_get. intros ->. reflexivity. Qed.

Lemma Seq2SeqAttrs__init___needs_rnn_units adj kw :
  kw !! "rnn_units" = None -> raises (Seq2SeqAttrs__init__ adj kw).
Proof.
  intros Hk. unfold Seq2SeqAttrs__init__.
  repeat (apply raises_bind; intros ? ?). cbv zeta.
  repeat (apply raises_bind; intros ? ?).
  match goal with
  | H : py_int (kwargs_get kw "rnn_units" _) = Ok _ |- _ =>
      rewrite (kwargs_get_missing _ _ _ Hk) in H; discriminate H
  end.
Qed.

(** X1: construction raises whenever the option [rnn_units] is missing, for
    each of the three classes, and whenever [seq_len] is missing for an
    Encoder and hence for a DCRNN; a Decoder does not read [seq_len]. *)
Theorem required_options (adj : AdjMx) (sc : Scaler) (kw : gmap string pyval) :
  (kw !! "rnn_units" = None ->
   raises (Seq2SeqAttrs__init__ adj kw) /\ raises (Encoder__init__ adj kw) /\
   raises (Decoder__init__ adj kw) /\ raises (DCRNN__init__ adj sc kw)) /\
  (kw !! "seq_len" = None ->
   raises (Encoder__init__ adj kw) /\ raises (DCRNN__init__ adj sc kw)) /\
  Decoder__init__ adj (delete "seq_len" kw) = Decoder__init__ adj kw.
Proof.
  split; [|split].
  - intros Hk. pose proof (Seq2SeqAttrs__init___needs_rnn_units adj kw Hk) as [e He].
    repeat split.
    + exists e. exact He.
    + unfold Encoder__init__. rewrite He. exists e. reflexivity.
    + unfold Decoder__init__. rewrite He. exists e. reflexivity.
    + unfold DCRNN__init__. rewrite He. exists e. reflexivity.
  - intros Hk.
    assert (He : raises (Encoder__init__ adj kw)).
    { unfold Encoder__init__. repeat (apply raises_bind; intros ? ?).
      match goal with
      | H : py_int (kwargs_get kw "seq_len" _) = Ok _ |- _ =>
          rewrite (kwargs_get_missing _ _ _ Hk) in H; discriminate H
      end. }
    split; [exact He|].
    unfold DCRNN__init__. apply raises_bind. intros a _.
    destruct He as [e ->]. exists e. reflexivity.
  - unfold Decoder__init__, Seq2SeqAttrs__init__, kwargs_get.
    rewrite !lookup_delete_ne by discriminate. reflexivity.
Qed.

Lemma set_cl_decay_steps_id a : set_cl_decay_steps a (cl_decay_steps a) = a.
Proof. destruct a. reflexivity. Qed.

Lemma Seq2SeqAttrs__init___cl_decay_steps adj kw a :
  Seq2SeqAttrs__init__ adj kw = Ok a ->
  py_int (kwargs_get kw "cl_decay_steps" (VInt 1000)) = Ok (cl_decay_steps a).
Proof.
  unfold Seq2SeqAttrs__init__. intros H. inv_bind H.
  injection H as <-. simpl. assumption.
Qed.

Lemma DCRNN__init___inv (adj : AdjMx) (sc : Scaler)
    (kw : gmap string pyval) (m : DCRNN) :
  DCRNN__init__ adj sc kw = Ok m ->
  Seq2SeqAttrs__init__ adj kw = Ok (attrs m) /\
  enc_attrs (encoder_model m) = attrs m /\
  dec_attrs (decoder_model m) = attrs m /\
  adj_mx (attrs m) = adj /\
  scaler m = sc /\
  training m = true /\
  Encoder__init__ adj kw = Ok (encoder_model m) /\
  Decoder__init__ adj kw = Ok (decoder_model m).
Proof.
  unfold DCRNN__init__. intros H. inv_bind H. injection H as <-. simpl.
  rename a into a0, a0 into enc, a1 into dec, a2 into cl.
  pose proof (Seq2SeqAttrs__init___cl_decay_steps _ _ _ Ha) as Hcl.
  assert (cl = cl_decay_steps a0) by congruence. subst cl.
  rewrite set_cl_decay_steps_id.
  assert (He : enc_attrs enc = a0).
  { unfold Encoder__init__ in Ha0. rewrite Ha in Ha0. simpl in Ha0.
    inv_bind Ha0. injection Ha0 as <-. reflexivity. }
  assert (Hd : dec_attrs dec = a0).
  { unfold Decoder__init__ in Ha1. rewrite Ha in Ha1. simpl in Ha1.
    inv_bind Ha1. injection Ha1 as <-. reflexivity. }
  repeat split; try assumption; try reflexivity.
  unfold Seq2SeqAttrs__init__ in Ha. inv_bind Ha. injection Ha as <-. reflexivity.
Qed.

(** X2: a constructed DCRNN, its encoder and its decoder hold one and the
    same attribute record (storing [cl_decay_steps] a second time changes
    nothing), built for the adjacency matrix given; the model keeps the
    scaler given and starts in training mode. *)
Theorem DCRNN__init___shares_attrs (adj : AdjMx) (sc : Scaler)
    (kw : gmap string pyval) (m : DCRNN) :
  DCRNN__init__ adj sc kw = Ok m ->
  Seq2SeqAttrs__init__ adj kw = Ok (attrs m) /\
  enc_attrs (encoder_model m) = attrs m /\
  dec_attrs (decoder_model m) = attrs m /\
  adj_mx (attrs m) = adj /\
  scaler m = sc /\
  training m = true /\
  Encoder__init__ adj kw = Ok (encoder_model m) /\
  Decoder__init__ adj kw = Ok (decoder_model m).
Proof.
  unfold DCRNN__init__. intros H. inv_bind H. injection H as <-. simpl.
  rename a into a0, a0 into enc, a1 into dec, a2 into cl.
  pose proof (Seq2SeqAttrs__init___cl_decay_steps _ _ _ Ha) as Hcl.
  assert (cl = cl_decay_steps a0) by congruence. subst cl.
  rewrite set_cl_decay_steps_id.
  assert (He : enc_attrs enc = a0).
  { unfold Encoder__init__ in Ha0. rewrite Ha in Ha0. simpl in Ha0.
    inv_bind Ha0. injection Ha0 as <-. reflexivity. }
  assert (Hd : dec_attrs dec = a0).
  { unfold Decoder__init__ in Ha1. rewrite Ha in Ha1. simpl in Ha1.
    inv_bind Ha1. injection Ha1 as <-. reflexivity. }
  repeat split; try assumption; try reflexivity.
  unfold Seq2SeqAttrs__init__ in Ha. inv_bind Ha. injection Ha as <-. reflexivity.
Qed.

Lemma mapM_Ok_Forall2 {A B} (f : A -> result B) (l : list A) : forall ys,
  mapM f l = Ok ys -> Forall2 (fun x y => f x = Ok y) l ys.
Proof.
  induction l as [|x l IH]; simpl; intros ys H.
  - injection H as <-. constructor.
  - destruct (f x) as [y|e] eqn:Ef; simpl in H; [|discriminate].
    destruct (mapM f l) as [k|e]; simpl in H; [|discriminate].
    injection H as <-. constructor; [exact Ef|apply IH; reflexivity].
Qed.

Lemma Forall2_range_lookup {B} (P : nat -> B -> Prop) n (ys : list B) :
  Forall2 P (seq 0 n) ys ->
  length ys = n /\ forall i y, ys !! i = Some y -> P i y.
Proof.
  intros HF. split.
  - apply Forall2_length in HF. rewrite length_seq in HF. symmetry. exact HF.
  - intros i y Hy.
    destruct (Forall2_lookup_r _ _ _ _ _ HF Hy) as (x & Hx & HP).
    apply lookup_seq in Hx. destruct Hx as [-> _]. exact HP.
Qed.

Lemma Encoder__init___layers adj kw e :
  Encoder__init__ adj kw = Ok e ->
  Forall2 (fun i c =>
      DCGRU__init__ (rnn_units (enc_attrs e)) adj (max_diffusion_step (enc_attrs e))
        (num_nodes (enc_attrs e))
        (if (i =? 0)%nat then input_dim e else rnn_units (enc_attrs e))
        (filter_type (enc_attrs e)) (use_gc_for_ru (enc_attrs e)) = Ok c)
    (range (num_rnn_layers (enc_attrs e))) (enc_dcgru_layers e).
Proof.
  intros H. unfold Encoder__init__ in H. inv_bind H. injection H as <-.
  simpl. apply mapM_Ok_Forall2 in Ha2. exact Ha2.
Qed.

Lemma Decoder__init___layers adj kw d :
  Decoder__init__ adj kw = Ok d ->
  Forall2 (fun i c =>
      DCGRU__init__ (rnn_units (dec_attrs d)) adj (max_diffusion_step (dec_attrs d))
        (num_nodes (dec_attrs d))
        (if (i =? 0)%nat then output_dim d else rnn_units (dec_attrs d))
        (filter_type (dec_attrs d)) (use_gc_for_ru (dec_attrs d)) = Ok c)
    (range (num_rnn_layers (dec_attrs d))) (dec_dcgru_layers d).
Proof.
  intros H. unfold Decoder__init__ in H. inv_bind H. injection H as <-.
  simpl. apply mapM_Ok_Forall2 in Ha3. exact Ha3.
Qed.

(** X3: a constructed Encoder or Decoder has [max(0, num_rnn_layers)] cells;
    cell 0 was built for [input_dim] (Encoder) or [output_dim] (Decoder)
    input features and every other cell for [rnn_units], all with the
    [rnn_units], adjacency matrix, diffusion steps, node count, filter type
    and gate flag of the attribute record. *)
Theorem constructed_layers (adj : AdjMx) (kw : gmap string pyval) :
  (forall e, Encoder__init__ adj kw = Ok e ->
     let a := enc_attrs e in
     length (enc_dcgru_layers e) = Z.to_nat (num_rnn_layers a) /\
     forall i c, enc_dcgru_layers e !! i = Some c ->
       DCGRU__init__ (rnn_units a) adj (max_diffusion_step a) (num_nodes a)
         (if (i =? 0)%nat then input_dim e else rnn_units a)
         (filter_type a) (use_gc_for_ru a) = Ok c) /\
  (forall d, Decoder__init__ adj kw = Ok d ->
     let a := dec_attrs d in
     length (dec_dcgru_layers d) = Z.to_nat (num_rnn_layers a) /\
     forall i c, dec_dcgru_layers d !! i = Some c ->
       DCGRU__init__ (rnn_units a) adj (max_diffusion_step a) (num_nodes a)
         (if (i =? 0)%nat then output_dim d else rnn_units a)
         (filter_type a) (use_gc_for_ru a) = Ok c).
Proof.
  split.
  - intros e H. apply Encoder__init___layers in H.
    apply (Forall2_range_lookup _ _ _ H).
  - intros d H. apply Decoder__init___layers in H.
    apply (Forall2_range_lookup _ _ _ H).
Qed.

(** ** Further properties of the two forward passes *)

Lemma Encoder_forward_no_layers self inputs hs :
  enc_dcgru_layers self = [] -> raises (Encoder_forward self inputs hs).
Proof.
  intros Hl. unfold Encoder_forward. rewrite Hl.
  apply raises_bind. intros [b f] _. apply raises_bind. intros h _.
  simpl. exists RuntimeError. reflexivity.
Qed.

Lemma Decoder_forward_no_layers self inputs hs :
  dec_dcgru_layers self = [] -> raises (Decoder_forward self inputs hs).
Proof.
  intros Hl. unfold Decoder_forward. rewrite Hl. simpl.
  repeat (apply raises_bind; intros ? _). exists RuntimeError. reflexivity.
Qed.

(** X4: an Encoder or Decoder constructed with [num_rnn_layers <= 0] has no
    cell, and its [forward] raises on every input and hidden state. *)
Theorem forward_needs_a_layer (adj : AdjMx) (kw : gmap string pyval)
    (inputs : Tensor) (hidden_state : option Tensor) :
  (forall e, Encoder__init__ adj kw = Ok e ->
     num_rnn_layers (enc_attrs e) <= 0 ->
     enc_dcgru_layers e = [] /\ raises (Encoder_forward e inputs hidden_state)) /\
  (forall d, Decoder__init__ adj kw = Ok d ->
     num_rnn_layers (dec_attrs d) <= 0 ->
     dec_dcgru_layers d = [] /\ raises (Decoder_forward d inputs hidden_state)).
Proof.
  split.
  - intros e He Hn. apply Encoder__init___layers in He.
    apply Forall2_length in He. unfold range in He. rewrite length_seq in He.
    assert (Hl : enc_dcgru_layers e = []).
    { destruct (enc_dcgru_layers e); [reflexivity|]. simpl in He. lia. }
    split; [exact Hl|]. apply Encoder_forward_no_layers. exact Hl.
  - intros d Hd Hn. apply Decoder__init___layers in Hd.
    apply Forall2_length in Hd. unfold range in Hd. rewrite length_seq in Hd.
    assert (Hl : dec_dcgru_layers d = []).
    { destruct (dec_dcgru_layers d); [reflexivity|]. simpl in Hd. lia. }
    split; [exact Hl|]. apply Decoder_forward_no_layers. exact Hl.
Qed.

(** X5: [Decoder.forward] called without a hidden state (the default of its
    signature) raises on every input: a TypeError from [None[0]] when the
    Decoder has a cell. *)
Theorem Decoder_forward_needs_hidden_state (self : Decoder) (inputs : Tensor) :
  raises (Decoder_forward self inputs None) /\
  (dec_dcgru_layers self <> [] -> Decoder_forward self inputs None = Raise TypeError).
Proof.
  destruct (dec_dcgru_layers self) as [|c layers] eqn:El.
  - split; [|contradiction]. apply Decoder_forward_no_layers. exact El.
  - assert (H : Decoder_forward self inputs None = Raise TypeError)
      by (unfold Decoder_forward; rewrite El; reflexivity).
    split; [exists TypeError|intros _]; exact H.
Qed.

Lemma dcgru_loop_short hs n rest : forall layers k x acc,
  t_shape hs = n :: rest ->
  (k <= n < k + length layers)%nat ->
  raises (dcgru_loop layers (Some hs) k x acc).
Proof.
  induction layers as [|c layers IH]; intros k x acc Hs Hn; simpl in *; [lia|].
  unfold tensor_index. rewrite Hs.
  destruct (Nat.ltb_spec k n) as [Hk|Hk].
  - cbn [mbind result_bind]. apply raises_bind. intros y _.
    apply IH; [exact Hs|lia].
  - exists IndexError. reflexivity.
Qed.

(** X6: a hidden state with fewer slices than the module has cells makes
    [Encoder.forward] and [Decoder.forward] raise; with no slice at all the
    Decoder raises an IndexError at once. *)
Theorem forward_short_hidden_state (enc : Encoder) (dec : Decoder)
    (inputs h : Tensor) (n : nat) (rest : list nat) :
  t_shape h = n :: rest ->
  ((n < length (enc_dcgru_layers enc))%nat ->
   raises (Encoder_forward enc inputs (Some h))) /\
  ((n < length (dec_dcgru_layers dec))%nat ->
   raises (Decoder_forward dec inputs (Some h))) /\
  (n = 0%nat -> dec_dcgru_layers dec <> [] ->
   Decoder_forward dec inputs (Some h) = Raise IndexError).
Proof.
  intros Hs. split; [|split].
  - intros Hn. unfold Encoder_forward.
    apply raises_bind. intros [b f] _. cbn [mbind result_bind].
    apply raises_bind. intros [out hss] Hl. exfalso.
    destruct (dcgru_loop_short h n rest (enc_dcgru_layers enc) 0%nat inputs []
                Hs ltac:(lia)) as [e He].
    congruence.
  - intros Hn. unfold Decoder_forward.
    apply raises_bind. intros [out hss] Hl. exfalso.
    destruct (dcgru_loop_short h n rest (dec_dcgru_layers dec) 0%nat inputs []
                Hs ltac:(lia)) as [e He].
    congruence.
  - intros -> Hne. unfold Decoder_forward.
    destruct (dec_dcgru_layers dec) as [|c layers]; [contradiction|].
    simpl. unfold tensor_index. rewrite Hs. reflexivity.
Qed.

Lemma dcgru_loop_inv hs : forall layers k x acc out hss,
  dcgru_loop layers hs k x acc = Ok (out, hss) ->
  exists news,
    hss = acc ++ news /\ length news = length layers /\
    last (x :: news) = Some out /\
    Forall (fun y => exists c x1 h1,
              c ∈ layers /\ dcgru_call c x1 h1 = Ok y) news.
Proof.
  induction layers as [|c layers IH]; intros k x acc out hss H; simpl in H.
  - injection H as <- <-. exists []. rewrite app_nil_r. repeat split. constructor.
  - inv_bind H. apply IH in H. destruct H as (news & -> & Hlen & Hlast & Hall).
    exists (a0 :: news). rewrite <- app_assoc. simpl. repeat split.
    + rewrite Hlen. reflexivity.
    + exact Hlast.
    + constructor.
      * exists c, x, a. split; [apply list_elem_of_here|exact Ha0].
      * eapply Forall_impl; [exact Hall|]. simpl.
        intros y (c1 & x1 & h1 & Hin & Hc). exists c1, x1, h1.
        split; [apply list_elem_of_further; exact Hin|exact Hc].
Qed.

Lemma torch_stack_inv ts out :
  torch_stack ts = Ok out ->
  exists t0, head ts = Some t0 /\
    Forall (fun t => t_shape t = t_shape t0) ts /\
    t_shape out = length ts :: t_shape t0 /\
    t_data out = concat (map t_data ts).
Proof.
  unfold torch_stack. destruct ts as [|t0 ts]; [discriminate|].
  destruct (forallb _ _) eqn:Ef; [|discriminate].
  intros [= <-]. exists t0. repeat split.
  apply list.Forall_forall. intros t Ht.
  rewrite forallb_forall in Ef. apply list_elem_of_In in Ht.
  apply Ef in Ht. apply bool_decide_eq_true in Ht. exact Ht.
Qed.

Lemma concat_last_slice (pre : list Tensor) (y : Tensor) (n : nat) :
  Forall (fun t => length (t_data t) = n) pre ->
  length (t_data y) = n ->
  take n (drop (length pre * n) (concat (map t_data (pre ++ [y])))) = t_data y.
Proof.
  intros Hpre Hy. rewrite map_app, concat_app. simpl. rewrite app_nil_r.
  assert (Hl : length (concat (map t_data pre)) = (length pre * n)%nat).
  { induction Hpre as [|t pre Ht _ IH]; simpl; [reflexivity|].
    rewrite length_app, IH, Ht. reflexivity. }
  rewrite <- Hl, drop_app_length. apply take_ge. lia.
Qed.

(** X7: when [Encoder.forward] returns, the Encoder has a cell, the hidden
    state returned has one slice per cell, each of the shape of the output,
    and, the cells returning well-formed tensors, its last slice holds the
    entries of the output: the output is the top layer's new hidden state. *)
Theorem Encoder_forward_output_is_top_slice (self : Encoder)
    (inputs : Tensor) (hidden_state : option Tensor) (output stacked : Tensor) :
  Encoder_forward self inputs hidden_state = Ok (output, stacked) ->
  enc_dcgru_layers self <> [] /\
  t_shape stacked = length (enc_dcgru_layers self) :: t_shape output /\
  ((forall c x h y, c ∈ enc_dcgru_layers self -> dcgru_call c x h = Ok y ->
                    wf_tensor y) ->
   tensor_index stacked (length (enc_dcgru_layers self) - 1)
   = Ok (mkTensor (t_dtype stacked) (t_shape output) (t_data output))).
Proof.
  unfold Encoder_forward. intros H. inv_bind H. injection H as <- <-.
  match goal with
  | Hl : dcgru_loop _ _ _ _ _ = Ok (?o, ?l), Hs : torch_stack _ = Ok ?s |- _ =>
      rename o into out, l into hss, s into st, Hs into Hst;
      apply dcgru_loop_inv in Hl; destruct Hl as (news & Hh & Hlen & Hlast & Hall)
  end.
  simpl in Hh. subst hss.
  apply torch_stack_inv in Hst. destruct Hst as (t0 & Hhd & Hsh & Hs & Hd).
  destruct (enc_dcgru_layers self) as [|c0 layers] eqn:El.
  { destruct news; [discriminate Hhd|discriminate Hlen]. }
  destruct (exists_last (l := news)) as (pre & y & ->).
  { intros ->. discriminate Hlen. }
  rewrite app_comm_cons, last_snoc in Hlast. injection Hlast as ->.
  assert (Hout : t_shape out = t_shape t0).
  { rewrite list.Forall_forall in Hsh. apply Hsh.
    apply elem_of_app. right. apply list_elem_of_here. }
  split; [discriminate|]. split.
  - rewrite Hs, Hlen, Hout. reflexivity.
  - intros Hwf. unfold tensor_index. rewrite Hs, Hlen.
    assert (Hlt : (length (c0 :: layers) - 1 <? length (c0 :: layers))%nat = true)
      by (apply Nat.ltb_lt; simpl; lia).
    rewrite Hlt.
    rewrite <- Hout, Hd. f_equal. f_equal.
    rewrite length_app in Hlen. simpl in Hlen.
    replace (length (c0 :: layers) - 1)%nat with (length pre) by (simpl; lia).
    apply concat_last_slice.
    + apply list.Forall_forall. intros t Ht.
      rewrite list.Forall_forall in Hall, Hsh.
      destruct (Hall t) as (c & x1 & h1 & Hin & Hc);
        [apply elem_of_app; left; exact Ht|].
      pose proof (Hwf c x1 h1 t Hin Hc) as Hw. unfold wf_tensor in Hw.
      rewrite Hw, Hout. f_equal. apply Hsh.
      apply elem_of_app. left. exact Ht.
    + rewrite list.Forall_forall in Hall.
      destruct (Hall out) as (c & x1 & h1 & Hin & Hc);
        [apply elem_of_app; right; apply list_elem_of_here|].
      apply (Hwf c x1 h1 out Hin Hc).
Qed.

Lemma view_m1_inv t k y :
  view_m1 t k = Ok y ->
  0 < k /\ t_shape y = [(numel (t_shape t) / Z.to_nat k)%nat; Z.to_nat k] /\
  t_data y = t_data t /\ t_dtype y = t_dtype t.
Proof.
  unfold view_m1. destruct (Z.leb_spec k 0); [discriminate|].
  destruct (_ =? _)%nat; [|discriminate]. intros [= <-]. repeat split. lia.
Qed.

(** What a returning Decoder step tells. *)
Lemma Decoder_forward_inv self inputs hs out st :
  Decoder_forward self inputs hs = Ok (out, st) ->
  dec_dcgru_layers self <> [] /\
  0 < rnn_units (dec_attrs self) /\
  0 < num_nodes (dec_attrs self) * output_dim self /\
  (exists m, t_shape out
             = [m; Z.to_nat (num_nodes (dec_attrs self) * output_dim self)]) /\
  (exists sh, t_shape st = length (dec_dcgru_layers self) :: sh).
Proof.
  unfold Decoder_forward. intros H. inv_bind H. injection H as <- <-.
  match goal with
  | Hl : dcgru_loop _ _ _ _ _ = Ok (_, ?l), Hst : torch_stack _ = Ok _,
    Hv1 : view_m1 _ (rnn_units _) = Ok _, Hv2 : view_m1 _ (_ * _) = Ok ?o |- _ =>
      rename l into hss;
      apply dcgru_loop_inv in Hl; destruct Hl as (news & Hh & Hlen & _ & _);
      apply torch_stack_inv in Hst; destruct Hst as (t0 & Hhd & _ & Hs & _);
      apply view_m1_inv in Hv1, Hv2;
      destruct Hv1 as (Hru & _), Hv2 as (Hk & Hso & _)
  end.
  simpl in Hh. subst hss.
  repeat split; try assumption.
  - intros El. rewrite El in Hlen. destruct news; [discriminate Hhd|discriminate Hlen].
  - eexists. exact Hso.
  - eexists. rewrite Hs, Hlen. reflexivity.
Qed.

(** X8: [Decoder.forward] can only return when the Decoder has a cell,
    [rnn_units > 0] and [num_nodes * output_dim > 0]; its output is then a
    matrix with [num_nodes * output_dim] columns and the hidden state it
    returns has one slice per cell. *)
Theorem Decoder_forward_returns_only_if (self : Decoder) (inputs : Tensor)
    (hidden_state : option Tensor) (output stacked : Tensor) :
  Decoder_forward self inputs hidden_state = Ok (output, stacked) ->
  dec_dcgru_layers self <> [] /\
  0 < rnn_units (dec_attrs self) /\
  0 < num_nodes (dec_attrs self) * output_dim self /\
  (exists m, t_shape output
             = [m; Z.to_nat (num_nodes (dec_attrs self) * output_dim self)]) /\
  (exists sh, t_shape stacked = length (dec_dcgru_layers self) :: sh).
Proof.
  unfold Decoder_forward. intros H. inv_bind H. injection H as <- <-.
  match goal with
  | Hl : dcgru_loop _ _ _ _ _ = Ok (_, ?l), Hst : torch_stack _ = Ok _,
    Hv1 : view_m1 _ (rnn_units _) = Ok _, Hv2 : view_m1 _ (_ * _) = Ok ?o |- _ =>
      rename l into hss;
      apply dcgru_loop_inv in Hl; destruct Hl as (news & Hh & Hlen & _ & _);
      apply torch_stack_inv in Hst; destruct Hst as (t0 & Hhd & _ & Hs & _);
      apply view_m1_inv in Hv1, Hv2;
      destruct Hv1 as (Hru & _), Hv2 as (Hk & Hso & _)
  end.
  simpl in Hh. subst hss.
  repeat split; try assumption.
  - intros El. rewrite El in Hlen. destruct news; [discriminate Hhd|discriminate Hlen].
  - eexists. exact Hso.
  - eexists. rewrite Hs, Hlen. reflexivity.
Qed.

(** X9: whatever [DCRNN.decoder] returns is a tensor of shape
    (horizon, m, num_nodes * output_dim) for some m, with [horizon >= 1],
    in either mode and for any labels, batch count and draws. *)
Theorem DCRNN_decoder_output_shape (self : DCRNN)
    (encoder_hidden_state labels : option Tensor) (batches_seen : option R)
    (rs rs1 : RandomState) (out : Tensor) :
  DCRNN_decoder self encoder_hidden_state labels batches_seen rs = Ok (out, rs1) ->
  1 <= horizon (decoder_model self) /\
  exists m,
    t_shape out = [Z.to_nat (horizon (decoder_model self)); m;
                   Z.to_nat (num_nodes (dec_attrs (decoder_model self))
                             * output_dim (decoder_model self))].
Proof.
  intros H. pose proof (DCRNN_decoder_length _ _ _ _ _ _ _ H) as [Hh _].
  split; [exact Hh|].
  destruct (DCRNN_decoder_Ok_steps _ _ _ _ _ _ _ 0%nat H ltac:(lia))
    as (v0 & rs2 & v1 & rs3 & Hat0 & Hb).
  pose proof (decoder_vars_at_outputs _ _ _ _ _ _ _ _ Hat0) as Hl0.
  assert (HS : decoder_vars_at self encoder_hidden_state labels batches_seen rs 1
               = Ok (v1, rs3)).
  { rewrite decoder_vars_at_S, Hat0. exact Hb. }
  apply decoder_body_inv in Hb. destruct Hb as (o & hidden & Hd & Ho & _).
  destruct (outputs v0); [|discriminate Hl0]. simpl in Ho.
  rewrite DCRNN_decoder_unfold in H.
  destruct (decoder_vars_at _ _ _ _ _ (Z.to_nat _)) as [[v rsh]|e] eqn:Eat;
    [|discriminate].
  cbn [mbind result_bind] in H.
  destruct (torch_stack (outputs v)) as [st|e] eqn:Es; [|discriminate].
  injection H as <- <-.
  assert (Hv : outputs v !! 0%nat = Some o).
  { eapply (decoder_outputs_stable _ _ _ _ _ 0%nat); [|exact HS|exact Eat|].
    - lia.
    - rewrite Ho. reflexivity. }
  apply torch_stack_shape in Es. destruct Es as (t0 & Hhd & Hs).
  rewrite (decoder_vars_at_outputs _ _ _ _ _ _ _ _ Eat) in Hs.
  assert (t0 = o).
  { destruct (outputs v); [discriminate|]. simpl in *. congruence. }
  subst t0. apply Decoder_forward_inv in Hd.
  destruct Hd as (_ & _ & _ & (m & Hm) & _).
  exists m. rewrite Hs, Hm. reflexivity.
Qed.

(** ** Further properties of the encoding loop *)

Lemma encoder_loop_Some self inputs : forall ts h r,
  encoder_loop self inputs ts (Some h) = Ok r -> exists h1, r = Some h1.
Proof.
  induction ts as [|t ts IH]; intros h r H; simpl in H.
  - injection H as <-. eauto.
  - inv_bind H. eapply IH. exact H.
Qed.

(** X10: [DCRNN.encoder] returns [None] exactly when [seq_len <= 0] (it then
    reads no input at all), and [DCRNN.forward] raises an AttributeError in
    that case, the decoder having no hidden state to take a size from. *)
Theorem encoder_without_steps (self : DCRNN) (inputs : Tensor)
    (labels : option Tensor) (batches_seen : option R) (rs : RandomState) :
  (DCRNN_encoder self inputs = Ok None <-> seq_len (encoder_model self) <= 0) /\
  (seq_len (encoder_model self) <= 0 ->
   DCRNN_forward self inputs labels batches_seen rs = Raise AttributeError).
Proof.
  assert (H0 : seq_len (encoder_model self) <= 0 -> DCRNN_encoder self inputs = Ok None).
  { intros Hs. unfold DCRNN_encoder, range.
    replace (Z.to_nat (seq_len (encoder_model self))) with 0%nat by lia.
    reflexivity. }
  split; [split|].
  - intros H. unfold DCRNN_encoder, range in H.
    destruct (Z.to_nat (seq_len (encoder_model self))) as [|n] eqn:En; [lia|].
    exfalso. simpl in H. inv_bind H.
    apply encoder_loop_Some in H. destruct H as [h1 H]. discriminate H.
  - exact H0.
  - intros Hs. unfold DCRNN_forward. rewrite (H0 Hs). reflexivity.
Qed.

Lemma encoder_loop_short self inputs n rest : forall len k h,
  t_shape inputs = n :: rest ->
  (k <= n < k + len)%nat ->
  raises (encoder_loop self inputs (seq k len) h).
Proof.
  induction len as [|len IH]; intros k h Hs Hn; [lia|].
  simpl. unfold tensor_index. rewrite Hs.
  destruct (Nat.ltb_spec k n) as [Hk|Hk].
  - cbn [mbind result_bind]. apply raises_bind. intros [o h1] _.
    apply IH; [exact Hs|lia].
  - exists IndexError. reflexivity.
Qed.

(** X11: an input with fewer time steps than [seq_len] makes [DCRNN.encoder]
    and [DCRNN.forward] raise; an input with no time step at all raises an
    IndexError before the Encoder is run. *)
Theorem encoder_short_input (self : DCRNN) (inputs : Tensor) (n : nat)
    (rest : list nat) (labels : option Tensor) (batches_seen : option R)
    (rs : RandomState) :
  t_shape inputs = n :: rest ->
  Z.of_nat n < seq_len (encoder_model self) ->
  raises (DCRNN_encoder self inputs) /\
  raises (DCRNN_forward self inputs labels batches_seen rs) /\
  (n = 0%nat -> DCRNN_encoder self inputs = Raise IndexError).
Proof.
  intros Hs Hn.
  assert (He : raises (DCRNN_encoder self inputs)).
  { unfold DCRNN_encoder, range. apply (encoder_loop_short self inputs n rest).
    - exact Hs.
    - lia. }
  split; [exact He|split].
  - unfold DCRNN_forward. destruct He as [e ->]. exists e. reflexivity.
  - intros ->. unfold DCRNN_encoder, range.
    destruct (Z.to_nat (seq_len (encoder_model self))) as [|len] eqn:El; [lia|].
    simpl. unfold tensor_index. rewrite Hs. reflexivity.
Qed.

Lemma encoder_loop_ext self inputs inputs' : forall ts h,
  Forall (fun t => tensor_index inputs t = tensor_index inputs' t) ts ->
  encoder_loop self inputs ts h = encoder_loop self inputs' ts h.
Proof.
  induction ts as [|t ts IH]; intros h HF; [reflexivity|].
  inversion HF as [|? ? Ht HF']; subst. simpl. rewrite Ht.
  destruct (tensor_index inputs' t) as [x|e]; [|reflexivity].
  cbn [mbind result_bind].
  destruct (Encoder_forward (encoder_model self) x h) as [[o h1]|e]; [|reflexivity].
  cbn [mbind result_bind]. apply IH. exact HF'.
Qed.

(** X12: [DCRNN.encoder] and [DCRNN.forward] read the first [seq_len] time
    steps of the input only: two inputs with the same first [seq_len] steps
    give the same result, whatever follows in either. *)
Theorem encoder_reads_seq_len_steps (self : DCRNN) (inputs inputs' : Tensor)
    (labels : option Tensor) (batches_seen : option R) (rs : RandomState) :
  (forall t, Z.of_nat t < seq_len (encoder_model self) ->
             tensor_index inputs t = tensor_index inputs' t) ->
  DCRNN_encoder self inputs = DCRNN_encoder self inputs' /\
  DCRNN_forward self inputs labels batches_seen rs
  = DCRNN_forward self inputs' labels batches_seen rs.
Proof.
  intros H.
  assert (He : DCRNN_encoder self inputs = DCRNN_encoder self inputs').
  { unfold DCRNN_encoder. apply encoder_loop_ext.
    apply list.Forall_forall. intros t Ht. apply H.
    unfold range in Ht. apply list_elem_of_In, in_seq in Ht. lia. }
  split; [exact He|]. unfold DCRNN_forward. rewrite He. reflexivity.
Qed.

(** ** Further properties of the decoding loop *)

Lemma decoder_loop_plain_rs self labels bs ts : forall v rs v1 rs1,
  training self && use_curriculum_learning self = false ->
  decoder_loop self labels bs ts v rs = Ok (v1, rs1) -> rs1 = rs.
Proof.
  induction ts as [|t ts IH]; intros v rs v1 rs1 Hcl H; simpl in H.
  - injection H as _ <-. reflexivity.
  - rewrite decoder_body_plain in H by exact Hcl.
    destruct (Decoder_forward _ _ _) as [[o hd]|e]; simpl in H; [|discriminate].
    apply (IH _ _ _ _ Hcl H).
Qed.

(** X13: a call of [DCRNN.decoder] that returns has taken exactly [horizon]
    draws from the random generator in training mode with curriculum
    learning, one per step whether or not the label was substituted, and
    none at all otherwise. *)
Theorem decoder_draws (self : DCRNN) (encoder_hidden_state labels : option Tensor)
    (batches_seen : option R) (rs rs1 : RandomState) (out : Tensor) :
  DCRNN_decoder self encoder_hidden_state labels batches_seen rs = Ok (out, rs1) ->
  (training self && use_curriculum_learning self = true ->
   forall k, rs1 k = rs (Z.to_nat (horizon (decoder_model self)) + k)%nat) /\
  (training self && use_curriculum_learning self = false -> rs1 = rs).
Proof.
  rewrite DCRNN_decoder_unfold. intros H.
  destruct (decoder_vars_at _ _ _ _ _ _) as [[v rs2]|e] eqn:Eat; [|discriminate].
  cbn [mbind result_bind] in H.
  destruct (torch_stack (outputs v)) as [st|e]; [|discriminate].
  injection H as _ <-. split.
  - intros Hcl k. apply (decoder_vars_at_draws _ _ _ _ _ _ _ _ Hcl Eat).
  - intros Hcl. unfold decoder_vars_at in Eat.
    destruct (decoder_entry self encoder_hidden_state) as [v0|e]; [|discriminate].
    apply (decoder_loop_plain_rs _ _ _ _ _ _ _ _ Hcl Eat).
Qed.

Lemma decoder_body_unforced self labels b thr t v rs :
  training self && use_curriculum_learning self = true ->
  DCRNN__compute_sampling_threshold self (Some b) = Ok thr ->
  ~ (rs 0%nat < thr)%R ->
  decoder_body self labels (Some b) t v rs
  = Decoder_forward (decoder_model self) (decoder_input v)
      (Some (decoder_hidden_state v))
    ≫= (fun '(out, hidden) =>
          Ok (mkVars out hidden (outputs v ++ [out]), fun n => rs (S n))).
Proof.
  intros Hcl Hthr Hge. unfold decoder_body. rewrite Hcl, Hthr.
  destruct (Decoder_forward _ _ _) as [[out hidden]|e]; [|reflexivity].
  cbn [mbind result_bind np_random_uniform].
  destruct (Rlt_dec (rs 0%nat) thr); [contradiction|reflexivity].
Qed.

Lemma decoder_loop_plain_output self self' labels labels' bs bs' ts :
  forall v rs rs',
  decoder_model self' = decoder_model self ->
  training self && use_curriculum_learning self = false ->
  training self' && use_curriculum_learning self' = false ->
  output_of (decoder_loop self labels bs ts v rs)
  = output_of (decoder_loop self' labels' bs' ts v rs').
Proof.
  induction ts as [|t ts IH]; intros v rs rs' Hd Hcl Hcl'; [reflexivity|].
  simpl decoder_loop. rewrite !decoder_body_plain by assumption. rewrite Hd.
  destruct (Decoder_forward _ _ _) as [[out hidden]|e]; [|reflexivity].
  cbn [mbind result_bind]. apply IH; assumption.
Qed.

Lemma decoder_loop_unforced self labels labels' b bs' thr ts : forall v rs rs',
  training self && use_curriculum_learning self = true ->
  DCRNN__compute_sampling_threshold self (Some b) = Ok thr ->
  (forall i, (i < length ts)%nat -> ~ (rs i < thr)%R) ->
  output_of (decoder_loop self labels (Some b) ts v rs)
  = output_of (decoder_loop (DCRNN_train self false) labels' bs' ts v rs').
Proof.
  induction ts as [|t ts IH]; intros v rs rs' Hcl Hthr Hge; [reflexivity|].
  simpl decoder_loop.
  rewrite (decoder_body_plain (DCRNN_train self false)) by reflexivity.
  change (decoder_model (DCRNN_train self false)) with (decoder_model self).
  rewrite (decoder_body_unforced self labels b thr) by
    (try assumption; apply Hge; simpl; lia).
  destruct (Decoder_forward _ _ _) as [[out hidden]|e]; [|reflexivity].
  cbn [mbind result_bind]. apply IH; [exact Hcl|exact Hthr|].
  intros i Hi. apply (Hge (S i)). simpl. lia.
Qed.

Lemma output_of_bind {A B C} (r r' : result (A * B)) (f : A -> result C) :
  output_of r = output_of r' ->
  output_of (r ≫= (fun '(a, b) => f a ≫= (fun c => Ok (c, b))))
  = output_of (r' ≫= (fun '(a, b) => f a ≫= (fun c => Ok (c, b)))).
Proof.
  destruct r as [[a b]|e], r' as [[a' b']|e']; simpl; intros H;
    try discriminate; try (injection H as <-); try reflexivity.
  destruct (f a); reflexivity.
Qed.

(** X14: when every one of the [horizon] draws is at or above the threshold,
    [DCRNN.decoder] returns the output (or raises the exception) of the same
    model in evaluation mode: neither the labels nor, beyond the threshold,
    the batch count take part, and missing labels do no harm. *)
Theorem unforced_decoding_is_plain (self : DCRNN)
    (encoder_hidden_state labels labels' : option Tensor) (b thr : R)
    (batches_seen' : option R) (rs rs' : RandomState) :
  DCRNN__compute_sampling_threshold self (Some b) = Ok thr ->
  (forall t, (t < Z.to_nat (horizon (decoder_model self)))%nat ->
             ~ (rs t < thr)%R) ->
  output_of (DCRNN_decoder self encoder_hidden_state labels (Some b) rs)
  = output_of (DCRNN_decoder (DCRNN_train self false) encoder_hidden_state
                 labels' batches_seen' rs').
Proof.
  intros Hthr Hge. unfold DCRNN_decoder.
  change (decoder_entry (DCRNN_train self false) encoder_hidden_state)
    with (decoder_entry self encoder_hidden_state).
  change (decoder_model (DCRNN_train self false)) with (decoder_model self).
  destruct (decoder_entry self encoder_hidden_state) as [v0|e]; [|reflexivity].
  cbn [mbind result_bind].
  apply (output_of_bind _ _ (fun v => torch_stack (outputs v))).
  destruct (training self && use_curriculum_learning self) eqn:Hcl.
  - apply (decoder_loop_unforced self labels labels' b batches_seen' thr);
      try assumption.
    unfold range. rewrite length_seq. exact Hge.
  - apply decoder_loop_plain_output; [reflexivity|exact Hcl|reflexivity].
Qed.

Lemma decoder_body_same_label self l l' bs t v rs :
  tensor_index l t = tensor_index l' t ->
  decoder_body self (Some l) bs t v rs = decoder_body self (Some l') bs t v rs.
Proof. intros H. unfold decoder_body. rewrite H. reflexivity. Qed.

Lemma decoder_loop_same_labels self l l' bs ts : forall v rs,
  Forall (fun t => tensor_index l t = tensor_index l' t) ts ->
  decoder_loop self (Some l) bs ts v rs = decoder_loop self (Some l') bs ts v rs.
Proof.
  induction ts as [|t ts IH]; intros v rs HF; [reflexivity|].
  inversion HF as [|? ? Ht HF']; subst. simpl.
  rewrite (decoder_body_same_label self l l' bs t v rs Ht).
  destruct (decoder_body self (Some l') bs t v rs) as [[v1 rs1]|e]; [|reflexivity].
  cbn [mbind result_bind]. apply IH. exact HF'.
Qed.

(** A pass with either of two label tensors of one shape ends alike, up to
    the decoder input it leaves for the next pass. *)
Lemma decoder_body_last_label self l l' bs t v rs :
  t_shape l = t_shape l' ->
  match decoder_body self (Some l) bs t v rs,
        decoder_body self (Some l') bs t v rs with
  | Ok (v1, rs1), Ok (v2, rs2) => outputs v1 = outputs v2 /\ rs1 = rs2
  | Raise e1, Raise e2 => e1 = e2
  | _, _ => False
  end.
Proof.
  intros Hs. unfold decoder_body.
  destruct (Decoder_forward _ _ _) as [[out hidden]|e]; [|reflexivity].
  cbn [mbind result_bind].
  destruct (training self && use_curriculum_learning self); [|split; reflexivity].
  cbn [np_random_uniform].
  destruct (DCRNN__compute_sampling_threshold self bs) as [thr|e]; [|reflexivity].
  cbn [mbind result_bind].
  destruct (Rlt_dec (rs 0%nat) thr); [|split; reflexivity].
  unfold tensor_index. rewrite Hs.
  destruct (t_shape l') as [|d rest]; [reflexivity|].
  destruct (t <? d)%nat; [split|]; reflexivity.
Qed.

(** X15: the labels of the last step never reach the output: two label
    tensors of one shape that agree on the steps before [horizon - 1] make
    [DCRNN.decoder] return the same result, in any mode and for any draws. *)
Theorem last_label_is_not_used (self : DCRNN)
    (encoder_hidden_state : option Tensor) (l l' : Tensor)
    (batches_seen : option R) (rs : RandomState) :
  t_shape l = t_shape l' ->
  (forall t, Z.of_nat t < horizon (decoder_model self) - 1 ->
             tensor_index l t = tensor_index l' t) ->
  DCRNN_decoder self encoder_hidden_state (Some l) batches_seen rs
  = DCRNN_decoder self encoder_hidden_state (Some l') batches_seen rs.
Proof.
  intros Hs Hag. unfold DCRNN_decoder, range.
  destruct (decoder_entry self encoder_hidden_state) as [v0|e]; [|reflexivity].
  cbn [mbind result_bind].
  destruct (Z.to_nat (horizon (decoder_model self))) as [|h] eqn:Eh; [reflexivity|].
  rewrite seq_S, !decoder_loop_app.
  rewrite (decoder_loop_same_labels self l l' batches_seen (seq 0 h)).
  2:{ apply list.Forall_forall. intros t Ht. apply Hag.
      apply list_elem_of_In, in_seq in Ht. lia. }
  destruct (decoder_loop self (Some l') batches_seen (seq 0 h) v0 rs)
    as [[v rs1]|e]; [|reflexivity].
  cbn [mbind result_bind Nat.add decoder_loop].
  pose proof (decoder_body_last_label self l l' batches_seen h v rs1 Hs) as Hb.
  destruct (decoder_body self (Some l) batches_seen h v rs1) as [[v1 rs2]|e1],
           (decoder_body self (Some l') batches_seen h v rs1) as [[v2 rs3]|e2];
    try contradiction; cbn [mbind result_bind].
  - destruct Hb as [-> ->]. reflexivity.
  - subst e2. reflexivity.
Qed.

Lemma decoder_body_threshold_raises self labels bs t v rs e :
  training self && use_curriculum_learning self = true ->
  DCRNN__compute_sampling_threshold self bs = Raise e ->
  raises (decoder_body self labels bs t v rs) /\
  (is_Ok (Decoder_forward (decoder_model self) (decoder_input v)
            (Some (decoder_hidden_state v))) ->
   decoder_body self labels bs t v rs = Raise e).
Proof.
  intros Hcl Hthr. unfold decoder_body. rewrite Hcl, Hthr.
  destruct (Decoder_forward _ _ _) as [[out hidden]|e1]; simpl.
  - split; [exists e|]; reflexivity.
  - split; [exists e1; reflexivity|contradiction].
Qed.

(** X16: with [cl_decay_steps = 0], [training_step] of a model in training
    mode with curriculum learning raises on every batch, for every batch
    index and every draw: the threshold divides [batch_idx], an int, by zero.
    When the batch is reshaped, the encoder returns, decoding can start, the
    first Decoder step returns and [horizon] is positive, the exception is
    that ZeroDivisionError. *)
Theorem training_step_zero_decay_steps (self : DCRNN) (batch : Tensor * Tensor)
    (batch_idx : Z) (rs : RandomState) :
  training self = true ->
  use_curriculum_learning self = true ->
  cl_decay_steps (attrs self) = 0 ->
  raises (DCRNN_training_step self batch batch_idx rs) /\
  (forall xp yp batch_size x ys y encoder_hidden_state v0,
     permute_1_0_2_3 (fst batch) = Ok xp ->
     permute_1_0_2_3 (snd batch) = Ok yp ->
     size_1 xp = Ok batch_size ->
     view3 xp (seq_len (encoder_model self)) (Z.of_nat batch_size)
       (num_nodes (attrs self) * input_dim (encoder_model self)) = Ok x ->
     slice_last yp (output_dim (decoder_model self)) = Ok ys ->
     view3 ys (horizon (decoder_model self)) (Z.of_nat batch_size)
       (num_nodes (attrs self) * output_dim (decoder_model self)) = Ok y ->
     DCRNN_encoder self x = Ok encoder_hidden_state ->
     decoder_entry self encoder_hidden_state = Ok v0 ->
     is_Ok (Decoder_forward (decoder_model self) (decoder_input v0)
              (Some (decoder_hidden_state v0))) ->
     0 < horizon (decoder_model self) ->
     DCRNN_training_step self batch batch_idx rs = Raise ZeroDivisionError).
Proof.
  intros Htr Hucl Hc.
  assert (Hcl : training self && use_curriculum_learning self = true)
    by (rewrite Htr, Hucl; reflexivity).
  assert (Hthr : DCRNN__compute_sampling_threshold self (Some (IZR batch_idx))
                 = Raise ZeroDivisionError).
  { unfold DCRNN__compute_sampling_threshold. rewrite Hc. reflexivity. }
  destruct batch as [x0 y0]. split.
  - assert (Hd : forall labels ehs rs0,
               raises (DCRNN_decoder self ehs labels (Some (IZR batch_idx)) rs0)).
    { intros labels ehs rs0.
      destruct (Z.to_nat (horizon (decoder_model self))) as [|h] eqn:Eh.
      - apply DCRNN_decoder_needs_a_step. exact Eh.
      - apply not_Ok_raises. intros [out rs1] HOk.
        destruct (DCRNN_decoder_Ok_steps _ _ _ _ _ _ _ 0%nat HOk ltac:(lia))
          as (v & rs2 & v' & rs3 & _ & Hb).
        destruct (decoder_body_threshold_raises self labels (Some (IZR batch_idx))
                    0%nat v rs2 _ Hcl Hthr) as [[e1 He1] _].
        congruence. }
    unfold DCRNN_training_step.
    repeat match goal with
    | |- raises (?m ≫= _) =>
        let E := fresh "E" in
        destruct m as [?|?] eqn:E;
        [cbn [mbind result_bind]|eexists; reflexivity]
    end.
    match goal with
    | E : DCRNN_forward self ?x ?l _ rs = Ok _ |- _ =>
        destruct (DCRNN_forward_raises self x l (Some (IZR batch_idx)) rs
                    (fun ehs => Hd l ehs rs)) as [e He];
        rewrite He in E; discriminate
    end.
  - intros xp yp batch_size x ys y ehs v0 Hxp Hyp Hb Hx Hys Hy He Hv0 Hok Hh.
    simpl in Hxp, Hyp. unfold DCRNN_training_step.
    rewrite Hxp. cbn [mbind result_bind]. rewrite Hyp. cbn [mbind result_bind].
    rewrite Hb. cbn [mbind result_bind]. rewrite Hx. cbn [mbind result_bind].
    rewrite Hys. cbn [mbind result_bind]. rewrite Hy. cbn [mbind result_bind].
    assert (Hf : DCRNN_forward self x (Some y) (Some (IZR batch_idx)) rs
                 = Raise ZeroDivisionError).
    { unfold DCRNN_forward. rewrite He. cbn [mbind result_bind].
      apply (DCRNN_decoder_Raise _ _ _ _ _ 1%nat); [lia|].
      rewrite decoder_vars_at_S. unfold decoder_vars_at at 1. rewrite Hv0. simpl.
      apply decoder_body_threshold_raises; assumption. }
    rewrite Hf. reflexivity.
Qed.

(** ** Further properties of training_step *)

Lemma dcgru_loop_update f hs : forall layers k x acc,
  dcgru_loop (map (update_dcgru f) layers) hs k x acc
  = dcgru_loop layers hs k x acc.
Proof.
  induction layers as [|c layers IH]; intros k x acc; [reflexivity|].
  simpl. destruct (match hs with Some _ => _ | None => _ end); [|reflexivity].
  cbn [mbind result_bind]. destruct (dcgru_call c x a); [|reflexivity].
  cbn [mbind result_bind]. apply IH.
Qed.

Lemma Encoder_forward_update f self inputs hs :
  Encoder_forward (encoder_model (update_parameters f self)) inputs hs
  = Encoder_forward (encoder_model self) inputs hs.
Proof.
  unfold Encoder_forward. simpl.
  destruct (size2 inputs) as [[b n]|e]; [|reflexivity]. cbn [mbind result_bind].
  destruct (match hs with Some _ => _ | None => _ end); [|reflexivity].
  cbn [mbind result_bind]. rewrite dcgru_loop_update. reflexivity.
Qed.

Lemma Decoder_forward_update f self inputs hs :
  Decoder_forward (decoder_model (update_parameters f self)) inputs hs
  = Decoder_forward (decoder_model self) inputs hs.
Proof. unfold Decoder_forward. simpl. rewrite dcgru_loop_update. reflexivity. Qed.

Lemma encoder_loop_update f self inputs : forall ts h,
  encoder_loop (update_parameters f self) inputs ts h
  = encoder_loop self inputs ts h.
Proof.
  induction ts as [|t ts IH]; intros h; [reflexivity|].
  cbn [encoder_loop].
  destruct (tensor_index inputs t); [|reflexivity]. cbn [mbind result_bind].
  rewrite Encoder_forward_update.
  destruct (Encoder_forward _ _ _) as [[o h1]|e]; [|reflexivity].
  cbn [mbind result_bind]. apply IH.
Qed.

Lemma decoder_loop_update f self labels bs : forall ts v rs,
  decoder_loop (update_parameters f self) labels bs ts v rs
  = decoder_loop self labels bs ts v rs.
Proof.
  induction ts as [|t ts IH]; intros v rs; [reflexivity|].
  cbn [decoder_loop].
  replace (decoder_body (update_parameters f self) labels bs t v rs)
    with (decoder_body self labels bs t v rs).
  - destruct (decoder_body self labels bs t v rs) as [[v1 rs1]|e]; [|reflexivity].
    cbn [mbind result_bind]. apply IH.
  - unfold decoder_body. rewrite Decoder_forward_update. reflexivity.
Qed.

Lemma DCRNN_forward_update f self inputs labels bs rs :
  DCRNN_forward (update_parameters f self) inputs labels bs rs
  = DCRNN_forward self inputs labels bs rs.
Proof.
  unfold DCRNN_forward, DCRNN_encoder, DCRNN_decoder.
  rewrite encoder_loop_update.
  change (seq_len (encoder_model (update_parameters f self)))
    with (seq_len (encoder_model self)).
  destruct (encoder_loop self inputs _ None) as [ehs|e]; [|reflexivity].
  cbn [mbind result_bind].
  change (decoder_entry (update_parameters f self) ehs) with (decoder_entry self ehs).
  destruct (decoder_entry self ehs) as [v0|e]; [|reflexivity].
  cbn [mbind result_bind]. rewrite decoder_loop_update. reflexivity.
Qed.

(** X17: [training_step] changes gradient buffers only: the model it leaves
    computes the same [forward] on every input as the model it was given,
    keeps its mode, its curriculum flag and its scaler, and a parameter has
    a gradient afterwards exactly if it had one before. *)
Theorem training_step_keeps_forward (self : DCRNN) (batch : Tensor * Tensor)
    (batch_idx : Z) (rs : RandomState) (loss : R) (self1 : DCRNN)
    (rs1 : RandomState) :
  DCRNN_training_step self batch batch_idx rs = Ok (loss, self1, rs1) ->
  (forall inputs labels batches_seen rs0,
     DCRNN_forward self1 inputs labels batches_seen rs0
     = DCRNN_forward self inputs labels batches_seen rs0) /\
  training self1 = training self /\
  use_curriculum_learning self1 = use_curriculum_learning self /\
  scaler self1 = scaler self /\
  Forall2 (fun p p1 => p_grad p = None <-> p_grad p1 = None)
    (DCRNN_parameters self) (DCRNN_parameters self1).
Proof.
  intros H. apply DCRNN_training_step_model in H. subst self1.
  unfold clip_grad_norm_. repeat split.
  - intros. apply DCRNN_forward_update.
  - rewrite DCRNN_parameters_update. apply Forall2_fmap_r, Forall_Forall2_diag.
    apply list.Forall_forall. intros [[g|]] _; simpl; split; congruence.
Qed.

Lemma decoder_body_forced self l bs thr t v rs out hidden x :
  training self && use_curriculum_learning self = true ->
  DCRNN__compute_sampling_threshold self bs = Ok thr ->
  Decoder_forward (decoder_model self) (decoder_input v)
    (Some (decoder_hidden_state v)) = Ok (out, hidden) ->
  (rs 0%nat < thr)%R ->
  tensor_index l t = Ok x ->
  decoder_body self (Some l) bs t v rs
  = Ok (mkVars x hidden (outputs v ++ [out]), fun n => rs (S n)).
Proof.
  intros Hcl Hthr Hd Hlt Hx. unfold decoder_body.
  rewrite Hd, Hcl, Hthr, Hx. cbn [mbind result_bind np_random_uniform].
  destruct (Rlt_dec (rs 0%nat) thr); [reflexivity|contradiction].
Qed.

(** X18: in training mode with curriculum learning, a step whose draw is
    below the threshold hands [labels[t]] to step [t+1] as decoder input,
    together with the hidden state the Decoder returned, and still records
    the Decoder's own output. *)
Theorem teacher_forcing_feeds_label (self : DCRNN)
    (encoder_hidden_state : option Tensor) (l : Tensor)
    (batches_seen : option R) (thr : R) (rs rs1 : RandomState) (t : nat)
    (v : decoder_vars) (out hidden x : Tensor) :
  training self = true ->
  use_curriculum_learning self = true ->
  DCRNN__compute_sampling_threshold self batches_seen = Ok thr ->
  decoder_vars_at self encoder_hidden_state (Some l) batches_seen rs t
  = Ok (v, rs1) ->
  Decoder_forward (decoder_model self) (decoder_input v)
    (Some (decoder_hidden_state v)) = Ok (out, hidden) ->
  (rs t < thr)%R ->
  tensor_index l t = Ok x ->
  decoder_vars_at self encoder_hidden_state (Some l) batches_seen rs (S t)
  = Ok (mkVars x hidden (outputs v ++ [out]), fun n => rs1 (S n)).
Proof.
  intros Htr Hucl Hthr Hat Hd Hlt Hx.
  assert (Hcl : training self && use_curriculum_learning self = true)
    by (rewrite Htr, Hucl; reflexivity).
  rewrite decoder_vars_at_S, Hat. cbn [mbind result_bind].
  apply (decoder_body_forced self l batches_seen thr); try assumption.
  pose proof (decoder_vars_at_draws _ _ _ _ _ _ _ _ Hcl Hat 0%nat) as Hr.
  rewrite Nat.add_0_r in Hr. rewrite Hr. exact Hlt.
Qed.

(** ** The learning-rate schedule *)

Lemma milestones_reached_cases self epoch :
  let n := milestones_reached (DCRNN_configure_optimizers self) epoch in
  (epoch < 20 /\ n = 0%nat) \/ (20 <= epoch < 30 /\ n = 1%nat) \/
  (30 <= epoch < 40 /\ n = 2%nat) \/ (40 <= epoch < 50 /\ n = 3%nat) \/
  (50 <= epoch /\ n = 4%nat).
Proof.
  unfold milestones_reached. simpl. rewrite !filter_cons, filter_nil.
  repeat case_decide; simpl; lia.
Qed.

(** X19: under the optimizer configuration of [DCRNN.configure_optimizers]
    the learning rate is 0.01 before epoch 20, is divided by 10 at each of
    the epochs 20, 30, 40 and 50, stays at 0.000001 from epoch 50 on, and
    never increases from one epoch to a later one. *)
Theorem learning_rate_schedule (self : DCRNN) :
  let lr := learning_rate (DCRNN_configure_optimizers self) in
  (forall e, e < 20 -> (lr e == 1 # 100)%Q) /\
  (forall e, 20 <= e < 30 -> (lr e == 1 # 1000)%Q) /\
  (forall e, 30 <= e < 40 -> (lr e == 1 # 10000)%Q) /\
  (forall e, 40 <= e < 50 -> (lr e == 1 # 100000)%Q) /\
  (forall e, 50 <= e -> (lr e == 1 # 1000000)%Q) /\
  (forall e1 e2, e1 <= e2 -> (lr e2 <= lr e1)%Q).
Proof.
  cbv zeta. unfold learning_rate.
  repeat split; intros;
    repeat match goal with
    | |- context [milestones_reached _ ?e] =>
        let H := fresh "H" in
        destruct (milestones_reached_cases self e)
          as [[? H]|[[? H]|[[? H]|[[? H]|[? H]]]]];
        cbv zeta in H; rewrite H; clear H
    end; try lia; vm_compute; try reflexivity; try discriminate.
Qed.

(** ** TimeSeriesModel *)

Lemma Rsum_squares (l : list (R * R)) :
  (0 <= Rsum (map (fun p => (fst p - snd p) * (fst p - snd p)) l))%R /\
  (Rsum (map (fun p => (fst p - snd p) * (fst p - snd p))%R l) = 0%R <->
   Forall (fun p => fst p = snd p) l).
Proof.
  induction l as [|[a b] l [IH0 IH]]; simpl.
  - split; [lra|]. split; [constructor|reflexivity].
  - pose proof (Rle_0_sqr (a - b)) as Hsq. unfold Rsqr in Hsq.
    split; [lra|]. split.
    + intros H.
      assert (Hz : ((a - b) * (a - b) = 0)%R) by lra.
      apply Rmult_integral in Hz.
      constructor; [simpl; lra|]. apply IH. lra.
    + intros H. inversion H as [|? ? Hab Hl]; subst. simpl in Hab. subst b.
      apply IH in Hl. rewrite Hl. lra.
Qed.

Lemma combine_diag_eq (l1 : list R) : forall l2,
  length l1 = length l2 ->
  Forall (fun p => fst p = snd p) (combine l1 l2) <-> l1 = l2.
Proof.
  induction l1 as [|a l1 IH]; intros [|b l2] Hlen; try discriminate.
  - split; [reflexivity|constructor].
  - simpl in Hlen. injection Hlen as Hlen. simpl. split.
    + intros H. inversion H as [|? ? Hab Hl]; subst. simpl in Hab. subst b.
      f_equal. apply IH; assumption.
    + intros [= <- <-]. constructor; [reflexivity|]. apply IH; [exact Hlen|reflexivity].
Qed.

(** X20: for a model built with the default criterion (mean squared error),
    [training_step] on a batch whose prediction and target have one shape,
    finite entries and at least one entry returns a loss that is not
    negative, and that is zero when prediction and target have the same
    entries. *)
Theorem default_training_step_loss (forward : Tensor -> result Tensor)
    (parameters : list Param) (opt : option (list Param -> Optimizer))
    (x y pred : Tensor) (batch_idx : Z) :
  forward x = Ok pred ->
  broadcast_tensors pred y = Ok (pred, y) ->
  length (t_data pred) = length (t_data y) ->
  t_data pred <> [] ->
  exists loss,
    TimeSeriesModel_training_step
      (TimeSeriesModel__init__ forward parameters None opt) (x, y) batch_idx
    = Ok loss /\
    (0 <= loss)%R /\
    (t_data pred = t_data y -> loss = 0%R).
Proof.
  intros Hf Hb Hlen Hne.
  unfold TimeSeriesModel_training_step. simpl. rewrite Hf. simpl.
  unfold DEFAULT_LOSS, nn_MSELoss. rewrite Hb. simpl.
  eexists. split; [reflexivity|].
  destruct (Rsum_squares (combine (t_data pred) (t_data y))) as [H0 Hz].
  assert (Hn : (0 < INR (length (t_data pred)))%R).
  { apply lt_0_INR. destruct (t_data pred); [contradiction|simpl; lia]. }
  split.
  - apply Rmult_le_pos; [exact H0|]. left. apply Rinv_0_lt_compat. exact Hn.
  - intros He. apply (combine_diag_eq _ _ Hlen), Hz in He.
    rewrite He. unfold Rdiv. apply Rmult_0_l.
Qed.

(** ** forward returns *)

Lemma Encoder_forward_returns (enc : Encoder) (batch features layers nn ru : nat)
    (x : Tensor) (hs : option Tensor) :
  num_rnn_layers (enc_attrs enc) = Z.of_nat layers ->
  hidden_state_size (enc_attrs enc) = Z.of_nat (nn * ru) ->
  length (enc_dcgru_layers enc) = layers -> (0 < layers)%nat ->
  layers_return (enc_dcgru_layers enc) [batch; features] [batch; (nn * ru)%nat] ->
  t_shape x = [batch; features] ->
  match hs with
  | None => True
  | Some h => t_shape h = [layers; batch; (nn * ru)%nat]
  end ->
  exists out st, Encoder_forward enc x hs = Ok (out, st) /\
                 t_shape st = [layers; batch; (nn * ru)%nat].
Proof.
  intros HL HH Hlen Hpos Hcells Hx Hhs. unfold Encoder_forward, size2.
  rewrite Hx. cbn [mbind result_bind].
  assert (Hh : exists h, match hs with
                         | Some h => Ok h
                         | None =>
                             torch_zeros [num_rnn_layers (enc_attrs enc);
                                          Z.of_nat batch;
                                          hidden_state_size (enc_attrs enc)]
                             ≫= (fun z => Ok (type_as z x))
                         end = Ok h /\ t_shape h = [layers; batch; (nn * ru)%nat]).
  { destruct hs as [h|]; [eauto|].
    rewrite HL, HH. unfold torch_zeros.
    replace (forallb _ _) with true; cycle 1.
    { symmetry. cbn [forallb]. rewrite !andb_true_iff.
      repeat split; apply Z.leb_le; lia. }
    eexists. split; [reflexivity|]. simpl. rewrite !Nat2Z.id. reflexivity. }
  destruct Hh as (h & -> & Hsh). cbn [mbind result_bind].
  destruct (dcgru_loop_returns h layers [batch; (nn * ru)%nat]
              (enc_dcgru_layers enc) _ 0%nat x [] Hsh Hcells ltac:(lia) Hx)
    as (out & hss & Hloop & Hhss & Hl & _); [constructor|].
  rewrite Hloop. cbn [mbind result_bind].
  destruct (torch_stack_returns hss [batch; (nn * ru)%nat]) as (st & Hst & Hss).
  { intros E. rewrite E in Hl. simpl in Hl. lia. }
  { exact Hhss. }
  rewrite Hst. eexists _, _. split; [reflexivity|].
  rewrite Hss, Hl, Hlen. reflexivity.
Qed.

Lemma encoder_loop_returns self (batch features layers nn ru n : nat)
    (rest : list nat) inputs :
  num_rnn_layers (enc_attrs (encoder_model self)) = Z.of_nat layers ->
  hidden_state_size (enc_attrs (encoder_model self)) = Z.of_nat (nn * ru) ->
  length (enc_dcgru_layers (encoder_model self)) = layers -> (0 < layers)%nat ->
  layers_return (enc_dcgru_layers (encoder_model self))
    [batch; features] [batch; (nn * ru)%nat] ->
  t_shape inputs = [n; batch; features] ->
  forall len k hs,
  (k + len <= n)%nat ->
  match hs with
  | None => (0 < len)%nat
  | Some h => t_shape h = [layers; batch; (nn * ru)%nat]
  end ->
  exists h1, encoder_loop self inputs (seq k len) hs = Ok (Some h1) /\
             t_shape h1 = [layers; batch; (nn * ru)%nat].
Proof.
  intros HL HH Hlen Hpos Hcells Hin.
  induction len as [|len IH]; intros k hs Hk Hhs.
  - destruct hs as [h|]; [|lia]. exists h. split; [reflexivity|exact Hhs].
  - simpl.
    destruct (tensor_index_returns inputs n [batch; features] k Hin ltac:(lia))
      as (x & Hi & Hx).
    rewrite Hi. cbn [mbind result_bind].
    destruct (Encoder_forward_returns (encoder_model self) batch features layers
                nn ru x hs HL HH Hlen Hpos Hcells Hx) as (out & st & He & Hst).
    { destruct hs; [exact Hhs|exact I]. }
    rewrite He. cbn [mbind result_bind].
    apply IH; [lia|exact Hst].
Qed.

Lemma DCRNN_decoder_returns self h labels bs rs (batch layers nn od ru : nat) :
  num_nodes (attrs self) = Z.of_nat nn ->
  output_dim (decoder_model self) = Z.of_nat od ->
  1 <= horizon (decoder_model self) ->
  t_shape h = [layers; batch; (nn * ru)%nat] ->
  Decoder_returns (decoder_model self) [batch; (nn * od)%nat]
    [layers; batch; (nn * ru)%nat] ->
  teacher_forcing_ready self labels bs [batch; (nn * od)%nat] ->
  exists out rs1,
    DCRNN_decoder self (Some h) labels bs rs = Ok (out, rs1) /\
    t_shape out = [Z.to_nat (horizon (decoder_model self)); batch; (nn * od)%nat].
Proof.
  intros Hnn Hod Hh Hsh Hdec Htf. unfold DCRNN_decoder, decoder_entry, size_1.
  rewrite Hsh, Hnn, Hod. cbn [mbind result_bind]. unfold torch_zeros.
  replace (forallb _ _) with true; cycle 1.
  { symmetry. cbn [forallb]. rewrite !andb_true_iff.
    repeat split; apply Z.leb_le; lia. }
  cbn [mbind result_bind].
  set (v0 := mkVars _ h []).
  assert (Hv0 : t_shape (decoder_input v0) = [batch; (nn * od)%nat]).
  { simpl. rewrite <- Nat2Z.inj_mul, !Nat2Z.id. reflexivity. }
  destruct (decoder_loop_returns self labels bs _ _ Hdec Htf
              (range (horizon (decoder_model self))) v0 rs)
    as (v & rs1 & Hl & Ho); try assumption.
  { apply list.Forall_forall. intros t Ht. apply list_elem_of_In, in_seq in Ht. lia. }
  { constructor. }
  rewrite Hl. cbn [mbind result_bind].
  pose proof (decoder_loop_outputs _ _ _ _ _ _ _ _ Hl) as (new & Hn & Hlen).
  simpl in Hn. unfold range in Hlen. rewrite length_seq in Hlen.
  assert (Hne : outputs v <> []).
  { rewrite Hn. intros E. rewrite E in Hlen. simpl in Hlen. lia. }
  destruct (torch_stack_returns (outputs v) _ Hne Ho) as (out & Hs & Hso).
  rewrite Hs. exists out, rs1. split; [reflexivity|].
  rewrite Hso, Hn, Hlen. reflexivity.
Qed.

(** X21: for a constructed model with positive [num_nodes], [rnn_units],
    [output_dim], [num_rnn_layers], [seq_len] and [horizon], whose cells and
    projection layer keep the shapes they promise, [forward] on an input of
    shape (n, batch, features) with [n >= seq_len] returns, and its output
    has shape (horizon, batch, num_nodes * output_dim); in training mode
    with curriculum learning this needs a batch count, a decay that is not
    zero and labels of at least [horizon] steps of that shape. *)
Theorem forward_returns (adj : AdjMx) (sc : Scaler) (kw : gmap string pyval)
    (self : DCRNN) (inputs : Tensor) (labels : option Tensor)
    (batches_seen : option R) (rs : RandomState)
    (n batch features nn ru od : nat) :
  DCRNN__init__ adj sc kw = Ok self ->
  num_nodes (attrs self) = Z.of_nat nn ->
  rnn_units (attrs self) = Z.of_nat ru ->
  output_dim (decoder_model self) = Z.of_nat od ->
  (0 < nn)%nat -> (0 < ru)%nat -> (0 < od)%nat ->
  1 <= num_rnn_layers (attrs self) ->
  1 <= seq_len (encoder_model self) <= Z.of_nat n ->
  1 <= horizon (decoder_model self) ->
  layers_return (enc_dcgru_layers (encoder_model self))
    [batch; features] [batch; (nn * ru)%nat] ->
  layers_return (dec_dcgru_layers (decoder_model self))
    [batch; (nn * od)%nat] [batch; (nn * ru)%nat] ->
  linear_returns (projection_layer (decoder_model self)) ru od ->
  t_shape inputs = [n; batch; features] ->
  teacher_forcing_ready self labels batches_seen [batch; (nn * od)%nat] ->
  exists out rs1,
    DCRNN_forward self inputs labels batches_seen rs = Ok (out, rs1) /\
    t_shape out = [Z.to_nat (horizon (decoder_model self)); batch; (nn * od)%nat].
Proof.
  intros Hinit Hnn Hru Hod Pnn Pru Pod HL Hseq Hhor Henc Hdec Hlin Hin Htf.
  destruct (DCRNN__init___inv _ _ _ _ Hinit)
    as (Ha & Hea & Hda & _ & _ & _ & He & Hd).
  pose proof (Seq2SeqAttrs__init___ok _ _ _ Ha) as Hsz.
  unfold hidden_state_size_ok in Hsz.
  apply Encoder__init___layers in He. apply Forall2_length in He.
  apply Decoder__init___layers in Hd. apply Forall2_length in Hd.
  unfold range in He, Hd. rewrite length_seq in He, Hd.
  rewrite Hea in He. rewrite Hda in Hd.
  set (layers := Z.to_nat (num_rnn_layers (attrs self))) in *.
  destruct (encoder_loop_returns self batch features layers nn ru n [] inputs)
    with (len := Z.to_nat (seq_len (encoder_model self))) (k := 0%nat)
         (hs := @None Tensor)
    as (h & Hloop & Hsh); try assumption; try lia.
  - rewrite Hea. unfold layers. lia.
  - rewrite Hea, Hsz, Hnn, Hru, Nat2Z.inj_mul. reflexivity.
  - unfold DCRNN_forward, DCRNN_encoder, range. rewrite Hloop.
    cbn [mbind result_bind].
    apply (DCRNN_decoder_returns self h labels batches_seen rs batch layers nn od ru);
      try assumption.
    apply (Decoder_forward_returns (decoder_model self) batch layers nn ru od);
      try assumption.
    + rewrite Hda. exact Hnn.
    + rewrite Hda. exact Hru.
    + symmetry. exact Hd.
    + unfold layers. lia.
Qed.

End Model.

Lemma sample_model_constructed :
  DCRNN__init__ sample_int_of_string sample_DCGRU__init__ sample_nn_Linear
    sample_adj sample_scaler sample_kwargs = Ok sample_model.
Proof. vm_compute. reflexivity. Qed.

Lemma sample_model_cl_constructed :
  DCRNN__init__ sample_int_of_string sample_DCGRU__init__ sample_nn_Linear
    sample_adj sample_scaler (<["use_curriculum_learning" := VBool true]> sample_kwargs)
  = Ok sample_model_cl.
Proof. vm_compute. reflexivity. Qed.

(** The end-to-end property of the specification: an output sequence of shape
    (2, 1, 3). *)
Lemma sample_forward :
  DCRNN_forward sample_model (zeros Float32 [2; 1; 3]%nat) None None sample_rs
  = Ok (zeros Float32 [2; 1; 3]%nat, sample_rs).
Proof. reflexivity. Qed.

Lemma sample_cell_returns sx sh1 : cell_returns sample_cell sx sh1.
Proof. intros x h _ Hh. exists h. split; [reflexivity|exact Hh]. Qed.

Lemma sample_linear_returns ru od :
  linear_returns (sample_linear (Z.of_nat od)) ru od.
Proof.
  intros x m Hx. simpl. rewrite Hx, Nat2Z.id. eexists. split; reflexivity.
Qed.

Lemma sample_Decoder_returns :
  Decoder_returns sample_decoder [1; 3]%nat [1; 1; 12]%nat.
Proof.
  apply (Decoder_forward_returns sample_decoder 1 1 3 4 1);
    try reflexivity; try lia.
  - split; [apply sample_cell_returns|exact I].
  - apply (sample_linear_returns 4 1).
Qed.

(** ** The theorems at the concrete model *)

Lemma decoder_input_is_previous_output_witness :
  exists v1,
    decoder_vars_at sample_model (Some sample_hidden) (Some sample_labels)
      None sample_rs 1 = Ok (v1, sample_rs) /\
    decoder_input v1 = sample_go.
Proof.
  apply (decoder_input_is_previous_output sample_model (Some sample_hidden)
           (Some sample_labels) None sample_rs sample_rs 0
           (mkVars sample_go sample_hidden []) sample_go sample_hidden).
  - reflexivity.
  - simpl. lia.
  - reflexivity.
  - reflexivity.
Defined.

Lemma Encoder_forward_None_is_zero_state_witness :
  Encoder_forward sample_encoder sample_go None
  = Encoder_forward sample_encoder sample_go (Some sample_hidden).
Proof.
  apply (Encoder_forward_None_is_zero_state sample_encoder sample_go
           sample_hidden 1 3).
  - simpl. lia.
  - simpl. lia.
  - reflexivity.
  - reflexivity.
  - reflexivity.
  - reflexivity.
  - repeat constructor.
Defined.

Lemma encoder_and_decoder_lengths_witness :
  (length [sample_go; sample_go] = 2%nat /\
   DCRNN_encoder sample_model (zeros Float32 [2; 1; 3]%nat)
   = encoder_steps sample_encoder [sample_go; sample_go] None) /\
  exists out rs1 v,
    DCRNN_decoder sample_model (Some sample_hidden) None None sample_rs
    = Ok (out, rs1) /\
    t_shape out = [2; 1; 3]%nat /\
    decoder_vars_at sample_model (Some sample_hidden) None None sample_rs 2
    = Ok (v, rs1) /\
    length (outputs v) = 2%nat.
Proof.
  apply (encoder_and_decoder_lengths sample_model (zeros Float32 [2; 1; 3]%nat)
           [sample_go; sample_go] (Some sample_hidden) None None sample_rs
           (mkVars sample_go sample_hidden [])).
  - repeat constructor.
  - reflexivity.
  - simpl. lia.
  - exact sample_Decoder_returns.
  - intros H. discriminate H.
Defined.

Lemma hidden_state_size_invariant_witness :
  let i := lifetime sample_permute sample_view3 sample_slice_last
             (ADCRNN sample_model)
             [call_training_step sample_batch 0 sample_rs; call_train false] in
  attrs_of i = attrs_of (ADCRNN sample_model) /\
  Forall (fun a => hidden_state_size a = num_nodes a * rnn_units a)
    (attrs_of i).
Proof.
  apply (hidden_state_size_invariant sample_int_of_string
           sample_DCGRU__init__ sample_nn_Linear
           sample_permute sample_view3 sample_slice_last).
  apply (constructed_DCRNN _ _ _ sample_adj sample_scaler sample_kwargs).
  exact sample_model_constructed.
Defined.

Lemma sampling_threshold_monotone_witness :
  exists threshold : R -> R,
    (forall b, DCRNN__compute_sampling_threshold sample_model (Some b)
               = Ok (threshold b)) /\
    (forall b, b / 1000 <= np_exp_max_arg ->
               threshold b = 1000 / (1000 + exp (b / 1000)))%R /\
    (forall b, np_exp_max_arg < b / 1000 -> threshold b = 0)%R /\
    (forall b1 b2, b1 <= b2 -> threshold b2 <= threshold b1)%R /\
    (forall b, 0 <= threshold b <= 1)%R /\
    (forall eps, 0 < eps -> exists B, forall b, B < b -> threshold b < eps)%R /\
    (forall b, b <= 1000 ->
       1 - 3 / 1000 - / 1000000000000000 <= threshold b)%R.
Proof.
  apply (sampling_threshold_monotone sample_model).
  simpl. lia.
Defined.

(** At [cl_decay_steps = 1000] the threshold is 0.0 at [batches_seen = 10^6]
    and again at [2 * 10^6]: [np.exp(1000.0)] is [inf].  It does not decrease
    from the one to the other. *)
Lemma sampling_threshold_not_strictly_decreasing :
  1 <= cl_decay_steps (attrs sample_model) /\
  (1000000 < 2000000)%R /\
  DCRNN__compute_sampling_threshold sample_model (Some 1000000%R) = Ok 0%R /\
  DCRNN__compute_sampling_threshold sample_model (Some 2000000%R) = Ok 0%R /\
  ~ (forall b1 b2 thr1 thr2, (b1 < b2)%R ->
       DCRNN__compute_sampling_threshold sample_model (Some b1) = Ok thr1 ->
       DCRNN__compute_sampling_threshold sample_model (Some b2) = Ok thr2 ->
       (thr2 < thr1)%R).
Proof.
  assert (H1 : DCRNN__compute_sampling_threshold sample_model (Some 1000000%R)
               = Ok 0%R).
  { apply threshold_overflow; [discriminate|].
    change (np_exp_max_arg < 1000000 / 1000)%R. unfold np_exp_max_arg. lra. }
  assert (H2 : DCRNN__compute_sampling_threshold sample_model (Some 2000000%R)
               = Ok 0%R).
  { apply threshold_overflow; [discriminate|].
    change (np_exp_max_arg < 2000000 / 1000)%R. unfold np_exp_max_arg. lra. }
  split; [simpl; lia|]. split; [lra|]. split; [exact H1|]. split; [exact H2|].
  intros H.
  specialize (H 1000000%R 2000000%R 0%R 0%R ltac:(lra) H1 H2). lra.
Qed.

Lemma sample_training_step :
  DCRNN_training_step sample_permute sample_view3 sample_slice_last
    sample_model sample_batch 0 sample_rs
  = Ok (masked_mae_loss (zeros Float32 [2; 1; 3]%nat) (zeros Float32 [2; 1; 3]%nat),
        clip_grad_norm_ sample_model 5, sample_rs).
Proof. reflexivity. Qed.

Lemma sample_training_step_target :
  DCRNN_training_step sample_permute sample_view3 sample_slice_last
    sample_model sample_batch_target 0 sample_rs
  = Ok (masked_mae_loss sample_target (zeros Float32 [2; 1; 3]%nat),
        clip_grad_norm_ sample_model 5, sample_rs).
Proof. reflexivity. Qed.

Lemma sample_target_loss :
  masked_mae_loss sample_target (zeros Float32 [2; 1; 3]%nat) = 4%R.
Proof.
  unfold masked_mae_loss, masked_mae. simpl. rewrite !filter_cons, filter_nil.
  simpl. unfold unmasked.
  destruct (Req_dec_T 0 0) as [_|H]; [|lra].
  destruct (Req_dec_T 2 0) as [H|_]; [lra|].
  destruct (Req_dec_T 4 0) as [H|_]; [lra|].
  destruct (Req_dec_T 6 0) as [H|_]; [lra|].
  destruct (decide (false = true)); [discriminate|].
  destruct (decide (true = true)); [|contradiction].
  simpl.
  replace (2 - 0)%R with 2%R by lra. replace (4 - 0)%R with 4%R by lra.
  replace (6 - 0)%R with 6%R by lra.
  rewrite !Rabs_right by lra. lra.
Qed.

Lemma masked_mae_loss_spec_witness :
  exists xp yp batch_size x ys y pred y1 pred1,
    sample_permute (fst sample_batch_target) = Ok xp /\
    sample_permute (snd sample_batch_target) = Ok yp /\
    size_1 xp = Ok batch_size /\
    sample_view3 xp 2 (Z.of_nat batch_size) (3 * 1) = Ok x /\
    sample_slice_last yp 1 = Ok ys /\
    sample_view3 ys 2 (Z.of_nat batch_size) (3 * 1) = Ok y /\
    DCRNN_forward sample_model x (Some y) (Some 0%R) sample_rs
    = Ok (pred, sample_rs) /\
    inverse_transform sample_scaler y = Ok y1 /\
    inverse_transform sample_scaler pred = Ok pred1 /\
    4%R = masked_mae_loss y1 pred1 /\
    (unmasked_positions (t_data y1) (t_data pred1) <> [] ->
     4%R = mean_absolute_error (unmasked_positions (t_data y1) (t_data pred1))) /\
    (Forall (eq 0%R) (t_data y1) -> 4%R = 0%R).
Proof.
  apply (proj1 (masked_mae_loss_spec sample_permute sample_view3 sample_slice_last)
           sample_model sample_batch_target 0 sample_rs 4%R
           (clip_grad_norm_ sample_model 5) sample_rs).
  rewrite <- sample_target_loss. exact sample_training_step_target.
Defined.

Lemma sample_fresh_training_step :
  DCRNN_training_step sample_permute sample_view3 sample_slice_last
    sample_model_fresh sample_batch 0 sample_rs
  = Ok (masked_mae_loss (zeros Float32 [2; 1; 3]%nat) (zeros Float32 [2; 1; 3]%nat),
        clip_grad_norm_ sample_model_fresh 5, sample_rs).
Proof. reflexivity. Qed.

Lemma sample_fresh_training_step_target :
  DCRNN_training_step sample_permute sample_view3 sample_slice_last
    sample_model_fresh sample_batch_target 0 sample_rs
  = Ok (4%R, clip_grad_norm_ sample_model_fresh 5, sample_rs).
Proof. rewrite <- sample_target_loss. reflexivity. Qed.

Lemma training_step_clips_before_backward_witness :
  let step := DCRNN_training_step sample_permute sample_view3 sample_slice_last
                sample_model_fresh in
  exists self1 self1' loss',
    step sample_batch_target 0 sample_rs = Ok (4%R, self1, sample_rs) /\
    step sample_batch 0 sample_rs = Ok (loss', self1', sample_rs) /\
    self1' = self1 /\
    self1 = sample_model_fresh.
Proof.
  eexists _, _, _. split; [exact sample_fresh_training_step_target|].
  split; [exact sample_fresh_training_step|].
  destruct (training_step_clips_before_backward sample_permute sample_view3
              sample_slice_last sample_model_fresh sample_batch_target sample_batch
              0 0 sample_rs sample_rs _ _ _ _ _ _
              sample_fresh_training_step_target sample_fresh_training_step)
    as [He Hn].
  split; [exact He|]. apply Hn. repeat constructor.
Defined.

Lemma forward_ignores_labels_at_inference_witness :
  DCRNN_forward sample_model_eval (zeros Float32 [2; 1; 3]%nat)
    (Some sample_labels) (Some 7%R) sample_rs
  = DCRNN_forward sample_model_eval (zeros Float32 [2; 1; 3]%nat)
      None None sample_rs.
Proof.
  apply (forward_ignores_labels_at_inference sample_model_eval).
  reflexivity.
Defined.

Lemma sample_draw_below_threshold :
  (sample_rs 0%nat < inverse_sigmoid (IZR 1000) 0)%R.
Proof. apply inverse_sigmoid_pos. lra. Qed.

(** One pass of the decoding loop with teacher forcing: the draw is below the
    threshold, the next input is [labels[0]] and the output kept is the
    Decoder's. *)
Lemma sample_teacher_forcing_step :
  decoder_vars_at sample_model_cl (Some sample_hidden) (Some sample_labels)
    (Some 0%R) sample_rs 1
  = Ok (mkVars sample_label_0 sample_hidden [sample_go], sample_rs).
Proof.
  rewrite decoder_vars_at_S.
  change (decoder_vars_at sample_model_cl (Some sample_hidden)
            (Some sample_labels) (Some 0%R) sample_rs 0)
    with (Ok (mkVars sample_go sample_hidden [], sample_rs)).
  cbn [mbind result_bind]. unfold decoder_body.
  change (Decoder_forward (decoder_model sample_model_cl)
            (decoder_input (mkVars sample_go sample_hidden []))
            (Some (decoder_hidden_state (mkVars sample_go sample_hidden []))))
    with (Ok (sample_go, sample_hidden)).
  cbn [mbind result_bind].
  change (training sample_model_cl
          && use_curriculum_learning sample_model_cl) with true.
  cbv iota. cbn [np_random_uniform].
  rewrite threshold_at_0 by discriminate.
  cbn [mbind result_bind].
  destruct (Rlt_dec _ _) as [_|Hn].
  - reflexivity.
  - destruct Hn. exact sample_draw_below_threshold.
Qed.

Lemma outputs_entry_is_decoder_output_witness :
  exists v rs1 out hidden,
    decoder_vars_at sample_model_cl (Some sample_hidden)
      (Some sample_labels) (Some 0%R) sample_rs 0 = Ok (v, rs1) /\
    Decoder_forward (decoder_model sample_model_cl) (decoder_input v)
      (Some (decoder_hidden_state v)) = Ok (out, hidden) /\
    outputs (mkVars sample_label_0 sample_hidden [sample_go]) !! 0%nat = Some out /\
    (decoder_input (mkVars sample_label_0 sample_hidden [sample_go]) = out \/
     training sample_model_cl && use_curriculum_learning sample_model_cl
     = true /\
     exists l, Some sample_labels = Some l /\
       tensor_index l 0
       = Ok (decoder_input (mkVars sample_label_0 sample_hidden [sample_go]))) /\
    forall n v2 rs3, (0 < n)%nat ->
      decoder_vars_at sample_model_cl (Some sample_hidden)
        (Some sample_labels) (Some 0%R) sample_rs n = Ok (v2, rs3) ->
      outputs v2 !! 0%nat = Some out.
Proof.
  apply (outputs_entry_is_decoder_output sample_model_cl (Some sample_hidden)
           (Some sample_labels) (Some 0%R) sample_rs sample_rs 0
           (mkVars sample_label_0 sample_hidden [sample_go])).
  exact sample_teacher_forcing_step.
Defined.

Lemma curriculum_learning_needs_labels_and_batches_seen_witness :
  DCRNN_decoder sample_model_cl (Some sample_hidden) (Some sample_labels)
    None sample_rs = Raise TypeError /\
  DCRNN_decoder sample_model_cl (Some sample_hidden) None (Some 0%R)
    sample_rs = Raise TypeError /\
  raises (DCRNN_forward sample_model_cl (zeros Float32 [2; 1; 3]%nat)
            (Some sample_labels) None sample_rs) /\
  raises (DCRNN_forward sample_model_cl (zeros Float32 [2; 1; 3]%nat)
            None (Some 0%R) sample_rs).
Proof.
  destruct (curriculum_learning_needs_labels_and_batches_seen sample_model_cl
              (Some sample_hidden) (zeros Float32 [2; 1; 3]%nat) sample_rs
              eq_refl eq_refl) as (H1 & H2 & H3 & H4).
  split; [|split; [|split]].
  - apply (H2 (Some sample_labels) (mkVars sample_go sample_hidden []));
      [reflexivity|exact I|simpl; lia].
  - apply (H4 0%R (inverse_sigmoid (IZR 1000) 0) 0%nat
             (mkVars sample_go sample_hidden []) sample_rs).
    + apply threshold_at_0. discriminate.
    + simpl. lia.
    + reflexivity.
    + exact I.
    + exact sample_draw_below_threshold.
  - apply H1.
  - apply (H3 0%R (inverse_sigmoid (IZR 1000) 0) 0%nat).
    + apply threshold_at_0. discriminate.
    + simpl. lia.
    + exact sample_draw_below_threshold.
Defined.

(** ** The further properties at the concrete model *)

Lemma DCRNN__init___shares_attrs_witness :
  Seq2SeqAttrs__init__ sample_int_of_string sample_adj sample_kwargs
  = Ok (attrs sample_model) /\
  enc_attrs (encoder_model sample_model) = attrs sample_model /\
  dec_attrs (decoder_model sample_model) = attrs sample_model /\
  adj_mx (attrs sample_model) = sample_adj /\
  scaler sample_model = sample_scaler /\
  training sample_model = true /\
  Encoder__init__ sample_int_of_string sample_DCGRU__init__ sample_adj sample_kwargs
  = Ok (encoder_model sample_model) /\
  Decoder__init__ sample_int_of_string sample_DCGRU__init__ sample_nn_Linear
    sample_adj sample_kwargs = Ok (decoder_model sample_model).
Proof.
  apply (DCRNN__init___shares_attrs sample_int_of_string sample_DCGRU__init__
           sample_nn_Linear sample_adj sample_scaler sample_kwargs sample_model).
  exact sample_model_constructed.
Defined.

Lemma forward_needs_a_layer_witness :
  enc_dcgru_layers sample_encoder_no_layer = [] /\
  raises (Encoder_forward sample_encoder_no_layer sample_go None).
Proof.
  destruct (forward_needs_a_layer sample_int_of_string sample_DCGRU__init__
              sample_nn_Linear sample_adj
              (<["num_rnn_layers" := VInt 0]> sample_kwargs) sample_go None)
    as [He _].
  apply (He sample_encoder_no_layer).
  - vm_compute. reflexivity.
  - simpl. lia.
Defined.

Lemma forward_short_hidden_state_witness :
  ((0 < length (enc_dcgru_layers sample_encoder))%nat ->
   raises (Encoder_forward sample_encoder sample_go
             (Some (zeros Float32 [0; 1; 12]%nat)))) /\
  ((0 < length (dec_dcgru_layers sample_decoder))%nat ->
   raises (Decoder_forward sample_decoder sample_go
             (Some (zeros Float32 [0; 1; 12]%nat)))) /\
  (0%nat = 0%nat -> dec_dcgru_layers sample_decoder <> [] ->
   Decoder_forward sample_decoder sample_go (Some (zeros Float32 [0; 1; 12]%nat))
   = Raise IndexError).
Proof.
  apply (forward_short_hidden_state sample_encoder sample_decoder sample_go
           (zeros Float32 [0; 1; 12]%nat) 0 [1; 12]%nat).
  reflexivity.
Defined.

Lemma Encoder_forward_output_is_top_slice_witness :
  enc_dcgru_layers sample_encoder <> [] /\
  t_shape sample_hidden
  = length (enc_dcgru_layers sample_encoder) :: t_shape (zeros Float32 [1; 12]%nat) /\
  ((forall c x h y, c ∈ enc_dcgru_layers sample_encoder ->
      dcgru_call c x h = Ok y -> wf_tensor y) ->
   tensor_index sample_hidden (length (enc_dcgru_layers sample_encoder) - 1)
   = Ok (mkTensor (t_dtype sample_hidden) (t_shape (zeros Float32 [1; 12]%nat))
           (t_data (zeros Float32 [1; 12]%nat)))).
Proof.
  apply (Encoder_forward_output_is_top_slice sample_encoder sample_go None
           (zeros Float32 [1; 12]%nat) sample_hidden).
  reflexivity.
Defined.

Lemma Decoder_forward_returns_only_if_witness :
  dec_dcgru_layers sample_decoder <> [] /\
  0 < rnn_units (dec_attrs sample_decoder) /\
  0 < num_nodes (dec_attrs sample_decoder) * output_dim sample_decoder /\
  (exists m, t_shape sample_go
             = [m; Z.to_nat (num_nodes (dec_attrs sample_decoder)
                             * output_dim sample_decoder)]) /\
  (exists sh, t_shape sample_hidden
              = length (dec_dcgru_layers sample_decoder) :: sh).
Proof.
  apply (Decoder_forward_returns_only_if sample_decoder sample_go
           (Some sample_hidden) sample_go sample_hidden).
  reflexivity.
Defined.

Lemma DCRNN_decoder_output_shape_witness :
  1 <= horizon (decoder_model sample_model) /\
  exists m,
    t_shape (zeros Float32 [2; 1; 3]%nat)
    = [Z.to_nat (horizon (decoder_model sample_model)); m;
       Z.to_nat (num_nodes (dec_attrs (decoder_model sample_model))
                 * output_dim (decoder_model sample_model))].
Proof.
  apply (DCRNN_decoder_output_shape sample_model (Some sample_hidden) None None
           sample_rs sample_rs (zeros Float32 [2; 1; 3]%nat)).
  reflexivity.
Defined.

Lemma encoder_short_input_witness :
  raises (DCRNN_encoder sample_model (zeros Float32 [1; 1; 3]%nat)) /\
  raises (DCRNN_forward sample_model (zeros Float32 [1; 1; 3]%nat) None None
            sample_rs) /\
  (1%nat = 0%nat ->
   DCRNN_encoder sample_model (zeros Float32 [1; 1; 3]%nat) = Raise IndexError).
Proof.
  apply (encoder_short_input sample_model (zeros Float32 [1; 1; 3]%nat) 1
           [1; 3]%nat None None sample_rs).
  - reflexivity.
  - simpl. lia.
Defined.

Lemma encoder_reads_seq_len_steps_witness :
  DCRNN_encoder sample_model (zeros Float32 [2; 1; 3]%nat)
  = DCRNN_encoder sample_model
      (mkTensor Float32 [3; 1; 3]%nat [0; 0; 0; 0; 0; 0; 7; 8; 9]%R) /\
  DCRNN_forward sample_model (zeros Float32 [2; 1; 3]%nat) None None sample_rs
  = DCRNN_forward sample_model
      (mkTensor Float32 [3; 1; 3]%nat [0; 0; 0; 0; 0; 0; 7; 8; 9]%R)
      None None sample_rs.
Proof.
  apply (encoder_reads_seq_len_steps sample_model).
  intros [|[|t]] Ht; [reflexivity|reflexivity|simpl in Ht; lia].
Defined.

(** A full decoding with teacher forcing at both steps. *)
Lemma sample_teacher_forcing_run :
  DCRNN_decoder sample_model_cl (Some sample_hidden) (Some sample_labels)
    (Some 0%R) sample_rs
  = Ok (zeros Float32 [2; 1; 3]%nat, sample_rs).
Proof.
  rewrite DCRNN_decoder_unfold.
  change (Z.to_nat (horizon (decoder_model sample_model_cl))) with 2%nat.
  rewrite decoder_vars_at_S, sample_teacher_forcing_step.
  cbn [mbind result_bind].
  rewrite (decoder_body_forced sample_model_cl sample_labels (Some 0%R)
             (inverse_sigmoid (IZR 1000) 0) 1
             (mkVars sample_label_0 sample_hidden [sample_go]) sample_rs
             sample_go sample_hidden sample_label_1).
  - reflexivity.
  - reflexivity.
  - apply threshold_at_0. discriminate.
  - reflexivity.
  - exact sample_draw_below_threshold.
  - reflexivity.
Qed.

Lemma decoder_draws_witness :
  (training sample_model_cl && use_curriculum_learning sample_model_cl = true ->
   forall k, sample_rs k
             = sample_rs (Z.to_nat (horizon (decoder_model sample_model_cl)) + k)%nat) /\
  (training sample_model_cl && use_curriculum_learning sample_model_cl = false ->
   sample_rs = sample_rs).
Proof.
  apply (decoder_draws sample_model_cl (Some sample_hidden) (Some sample_labels)
           (Some 0%R) sample_rs sample_rs (zeros Float32 [2; 1; 3]%nat)).
  exact sample_teacher_forcing_run.
Defined.

Lemma sample_draw_above_threshold t :
  ~ (sample_rs_high t < inverse_sigmoid (IZR 1000) 0)%R.
Proof.
  pose proof (inverse_sigmoid_lt_1 (IZR 1000) ltac:(lra) 0%R).
  unfold sample_rs_high. lra.
Qed.

Lemma unforced_decoding_is_plain_witness :
  output_of (DCRNN_decoder sample_model_cl (Some sample_hidden) None (Some 0%R)
               sample_rs_high)
  = output_of (DCRNN_decoder (DCRNN_train sample_model_cl false)
                 (Some sample_hidden) (Some sample_labels) None sample_rs).
Proof.
  apply (unforced_decoding_is_plain sample_model_cl (Some sample_hidden) None
           (Some sample_labels) 0%R (inverse_sigmoid (IZR 1000) 0) None
           sample_rs_high sample_rs).
  - apply threshold_at_0. discriminate.
  - intros t _. apply sample_draw_above_threshold.
Defined.

Lemma last_label_is_not_used_witness :
  DCRNN_decoder sample_model_cl (Some sample_hidden) (Some sample_labels)
    (Some 0%R) sample_rs
  = DCRNN_decoder sample_model_cl (Some sample_hidden) (Some sample_labels_other)
      (Some 0%R) sample_rs.
Proof.
  apply (last_label_is_not_used sample_model_cl (Some sample_hidden)
           sample_labels sample_labels_other (Some 0%R) sample_rs).
  - reflexivity.
  - intros [|t] Ht; [reflexivity|simpl in Ht; lia].
Defined.

Lemma training_step_zero_decay_steps_witness :
  raises (DCRNN_training_step sample_permute sample_view3 sample_slice_last
            sample_model_no_decay sample_batch 0 sample_rs) /\
  DCRNN_training_step sample_permute sample_view3 sample_slice_last
    sample_model_no_decay sample_batch 0 sample_rs = Raise ZeroDivisionError.
Proof.
  destruct (training_step_zero_decay_steps sample_permute sample_view3
              sample_slice_last sample_model_no_decay sample_batch 0 sample_rs
              eq_refl eq_refl eq_refl) as [Hr Hz].
  split; [exact Hr|].
  eapply Hz; reflexivity.
Defined.

Lemma training_step_keeps_forward_witness :
  let self1 := clip_grad_norm_ sample_model 5 in
  (forall inputs labels batches_seen rs0,
     DCRNN_forward self1 inputs labels batches_seen rs0
     = DCRNN_forward sample_model inputs labels batches_seen rs0) /\
  training self1 = training sample_model /\
  use_curriculum_learning self1 = use_curriculum_learning sample_model /\
  scaler self1 = scaler sample_model /\
  Forall2 (fun p p1 => p_grad p = None <-> p_grad p1 = None)
    (DCRNN_parameters sample_model) (DCRNN_parameters self1).
Proof.
  apply (training_step_keeps_forward sample_permute sample_view3 sample_slice_last
           sample_model sample_batch 0 sample_rs
           (masked_mae_loss (zeros Float32 [2; 1; 3]%nat)
              (zeros Float32 [2; 1; 3]%nat))
           (clip_grad_norm_ sample_model 5) sample_rs).
  exact sample_training_step.
Defined.

Lemma teacher_forcing_feeds_label_witness :
  decoder_vars_at sample_model_cl (Some sample_hidden) (Some sample_labels)
    (Some 0%R) sample_rs 1
  = Ok (mkVars sample_label_0 sample_hidden
          (outputs (mkVars sample_go sample_hidden []) ++ [sample_go]),
        fun n => sample_rs (S n)).
Proof.
  apply (teacher_forcing_feeds_label sample_model_cl (Some sample_hidden)
           sample_labels (Some 0%R) (inverse_sigmoid (IZR 1000) 0) sample_rs
           sample_rs 0 (mkVars sample_go sample_hidden []) sample_go
           sample_hidden sample_label_0).
  - reflexivity.
  - reflexivity.
  - apply threshold_at_0. discriminate.
  - reflexivity.
  - reflexivity.
  - exact sample_draw_below_threshold.
  - reflexivity.
Defined.

Lemma default_training_step_loss_witness :
  exists loss,
    TimeSeriesModel_training_step
      (TimeSeriesModel__init__ sample_broadcast (fun x => Ok x) [] None None)
      (sample_label_0, sample_label_1) 0
    = Ok loss /\
    (0 <= loss)%R /\
    (t_data sample_label_0 = t_data sample_label_1 -> loss = 0%R).
Proof.
  apply (default_training_step_loss sample_broadcast (fun x => Ok x) [] None
           sample_label_0 sample_label_1 sample_label_0 0).
  - reflexivity.
  - reflexivity.
  - reflexivity.
  - discriminate.
Defined.

Lemma forward_returns_witness :
  exists out rs1,
    DCRNN_forward sample_model (zeros Float32 [2; 1; 3]%nat) None None sample_rs
    = Ok (out, rs1) /\
    t_shape out = [Z.to_nat (horizon (decoder_model sample_model)); 1; (3 * 1)]%nat.
Proof.
  apply (forward_returns sample_int_of_string sample_DCGRU__init__ sample_nn_Linear
           sample_adj sample_scaler sample_kwargs sample_model
           (zeros Float32 [2; 1; 3]%nat) None None sample_rs 2 1 3 3 4 1).
  - exact sample_model_constructed.
  - reflexivity.
  - reflexivity.
  - reflexivity.
  - lia.
  - lia.
  - lia.
  - simpl. lia.
  - simpl. lia.
  - simpl. lia.
  - split; [apply sample_cell_returns|exact I].
  - split; [apply sample_cell_returns|exact I].
  - apply (sample_linear_returns 4 1).
  - reflexivity.
  - intros H. discriminate H.
Defined.
